(** * User prompts and new-project triggers of the Dart extension

    A shallow embedding of the user-prompts module (the TypeScript part of
    [src/webpack.config.js], from line 37 on): the throttled DevTools
    notification, the one-shot prompts of [showUserPrompts], and the handling
    of the trigger files left behind by the project scaffolding commands.

    The module is glue over the host editor: every statement below is about
    the calls it makes (messages shown, commands executed, files read and
    deleted), the persisted state it reads and writes, and the order of both.
    The host is therefore modelled as a [World] that is threaded through every
    function, and an [async] function as its synchronous first part followed
    by a suspended [Task]. *)

From Stdlib Require Import ZArith String Ascii List Lia DecimalString.
From stdpp Require Import gmap strings.
Import ListNotations.

Local Set Warnings "-register-all".

(** ** JavaScript strings

    A string is a sequence of code units; the embedding covers the code units
    below 256, one [ascii] each. *)

Module JSString.

(** [WhiteSpace] and [LineTerminator] of ECMAScript, below 256: TAB, LF, VT,
    FF, CR, SP and NBSP. *)
Definition isWhiteSpace (c : ascii) : bool :=
  match N_of_ascii c with
  | 9 | 10 | 11 | 12 | 13 | 32 | 160 => true
  | _ => false
  end%N.

Fixpoint trimStart (s : string) : string :=
  match s with
  | EmptyString => EmptyString
  | String c s' => if isWhiteSpace c then trimStart s' else s
  end.

Fixpoint trimEnd (s : string) : string :=
  match s with
  | EmptyString => EmptyString
  | String c s' =>
      match trimEnd s' with
      | EmptyString => if isWhiteSpace c then EmptyString else String c EmptyString
      | r => String c r
      end
  end.

(** [String.prototype.trim] *)
Definition trim (s : string) : string := trimEnd (trimStart s).

(** [s.split(sep)] for a separator of one code unit. *)
Fixpoint split (sep : ascii) (s : string) : list string :=
  match s with
  | EmptyString => [EmptyString]
  | String c s' =>
      if Ascii.eqb c sep then EmptyString :: split sep s'
      else match split sep s' with
           | [] => [String c EmptyString]
           | seg :: segs => String c seg :: segs
           end
  end.

(** [parts.join(sep)] *)
Fixpoint join (sep : string) (parts : list string) : string :=
  match parts with
  | [] => EmptyString
  | [p] => p
  | p :: ps => p +:+ sep +:+ join sep ps
  end.

Fixpoint drop (n : nat) (s : string) : string :=
  match n, s with
  | O, _ => s
  | S _, EmptyString => EmptyString
  | S n', String _ s' => drop n' s'
  end.

(** The first occurrence of [pat] in [s]: the text before it and the text
    after it. *)
Fixpoint find (pat s : string) : option (string * string) :=
  if String.prefix pat s then Some (EmptyString, drop (String.length pat) s)
  else match s with
       | EmptyString => None
       | String c s' =>
           match find pat s' with
           | Some (before, after) => Some (String c before, after)
           | None => None
           end
       end.

(** [GetSubstitution] for a string pattern (no captures): [$$] is a dollar
    sign, [$&] the matched text, [$`] the text before the match and [$'] the
    text after it; any other code unit stands for itself. *)
Fixpoint getSubstitution (matched before after replacement : string) : string :=
  match replacement with
  | EmptyString => EmptyString
  | String "$" (String "$" r) => String "$" (getSubstitution matched before after r)
  | String "$" (String "&" r) => matched +:+ getSubstitution matched before after r
  | String "$" (String "`" r) => before +:+ getSubstitution matched before after r
  | String "$" (String "'" r) => after +:+ getSubstitution matched before after r
  | String c r => String c (getSubstitution matched before after r)
  end.

(** [s.replace(pat, replacement)] with a string pattern: the first
    occurrence only. *)
Definition replace (pat replacement s : string) : string :=
  match find pat s with
  | Some (before, after) =>
      before +:+ getSubstitution pat before after replacement +:+ after
  | None => s
  end.

Fixpoint contains (c : ascii) (s : string) : bool :=
  match s with
  | EmptyString => false
  | String c' s' => Ascii.eqb c' c || contains c s'
  end.

End JSString.

(** ** Node's [path] module, POSIX flavour *)

Module path.

Definition sep : ascii := "/"%char.

(** [normalizeString]: the segments kept so far are in [res], the last one
    first. *)
Fixpoint normalizeSegments (allowAboveRoot : bool) (res segs : list string)
  : list string :=
  match segs with
  | [] => res
  | seg :: rest =>
      if String.eqb seg "" || String.eqb seg "." then
        normalizeSegments allowAboveRoot res rest
      else if String.eqb seg ".." then
        match res with
        | last :: res' =>
            if String.eqb last ".." then
              normalizeSegments allowAboveRoot
                (if allowAboveRoot then ".." :: res else res) rest
            else normalizeSegments allowAboveRoot res' rest
        | [] =>
            normalizeSegments allowAboveRoot
              (if allowAboveRoot then [".."] else []) rest
        end
      else normalizeSegments allowAboveRoot (seg :: res) rest
  end.

Fixpoint endsWithSep (p : string) : bool :=
  match p with
  | EmptyString => false
  | String c EmptyString => Ascii.eqb c sep
  | String _ p' => endsWithSep p'
  end.

Definition isAbsolute (p : string) : bool :=
  match p with
  | String c _ => Ascii.eqb c sep
  | EmptyString => false
  end.

Definition normalize (p : string) : string :=
  match p with
  | EmptyString => "."
  | _ =>
      let body :=
        JSString.join "/"
          (rev (normalizeSegments (negb (isAbsolute p)) [] (JSString.split sep p))) in
      match body with
      | EmptyString =>
          if isAbsolute p then "/" else if endsWithSep p then "./" else "."
      | _ =>
          let body := if endsWithSep p then body +:+ "/" else body in
          if isAbsolute p then "/" +:+ body else body
      end
  end.

(** [path.join(...paths)] *)
Definition join (paths : list string) : string :=
  match List.filter (fun p => negb (String.eqb p "")) paths with
  | [] => "."
  | parts => normalize (JSString.join "/" parts)
  end.

(** [path.basename(p)]: the last segment that is not empty. *)
Definition basename (p : string) : string :=
  match List.filter (fun s => negb (String.eqb s "")) (rev (JSString.split sep p)) with
  | [] => EmptyString
  | seg :: _ => seg
  end.

End path.

(** ** Values

    [JSON] is what [JSON.parse] can return and what the persisted state
    holds.  The module compares a number with zero, tests whether it is
    truthy and puts it into a template literal, so a number is kept in one
    of two forms: [JNum n] is the integer [n] (both zeros are [JNum 0]), and
    [JReal shown] is a number that is not an integer (a fraction, an
    infinity, [NaN]), kept as the string that [ToString] gives for it.  A
    [JSValue] is what crosses the host boundary: [undefined], a JSON value,
    or a [vs.Uri]. *)

Inductive JSON : Type :=
| JNull
| JBool (b : bool)
| JNum (n : Z)
| JReal (shown : string)
| JStr (s : string)
| JArr (elements : list JSON)
| JObj (fields : list (string * JSON)).

Record Uri : Type := { fsPath_of : string }.

Inductive JSValue : Type :=
| Undefined
| Val (j : JSON)
| UriVal (u : Uri).

(** What a [throw] carries and what a promise is rejected with: any value.
    The host may reject a thenable with [undefined] as well as with an
    [Error]. *)
Definition JSError : Type := JSValue.

(** [new Error(message)] and its subclasses ([TypeError], [SyntaxError], the
    errors of [fs]): an object whose [message] is the given string. *)
Definition newError (message : string) : JSError :=
  Val (JObj [("message", JStr message)]).

Module JS.

(** [ToBoolean] *)
Definition truthy (v : JSValue) : bool :=
  match v with
  | Undefined => false
  | Val JNull => false
  | Val (JBool b) => b
  | Val (JNum n) => negb (n =? 0)%Z
  | Val (JReal shown) => negb (String.eqb shown "NaN")
  | Val (JStr s) => negb (String.eqb s "")
  | Val (JArr _) | Val (JObj _) | UriVal _ => true
  end.

(** [v === s] for a string [s] *)
Definition strictEqStr (v : JSValue) (s : string) : bool :=
  match v with
  | Val (JStr s') => String.eqb s' s
  | _ => false
  end.

(** [v === n] for a number [n] *)
Definition strictEqNum (v : JSValue) (n : Z) : bool :=
  match v with
  | Val (JNum n') => (n' =? n)%Z
  | _ => false
  end.

(** [v === true] *)
Definition strictEqTrue (v : JSValue) : bool :=
  match v with
  | Val (JBool true) => true
  | _ => false
  end.

Definition ofString (s : string) : JSValue := Val (JStr s).

Definition ofOption (o : option string) : JSValue :=
  match o with
  | Some s => Val (JStr s)
  | None => Undefined
  end.

Fixpoint lookupField (name : string) (fields : list (string * JSON)) : JSValue :=
  match fields with
  | [] => Undefined
  | (k, v) :: rest =>
      (* a later duplicate key overrides an earlier one *)
      match lookupField name rest with
      | Undefined => if String.eqb k name then Val v else Undefined
      | found => found
      end
  end.

(** [v.name] for one of the property names the module reads ([name],
    [label], [entrypoint], [message]): a [TypeError] on [null], the own
    property of an object, [undefined] on anything else. *)
Definition getProperty (v : JSON) (name : string) : JSError + JSValue :=
  match v with
  | JNull =>
      inl (newError ("Cannot read properties of null (reading '" +:+ name +:+ "')"))
  | JObj fields => inr (lookupField name fields)
  | _ => inr Undefined
  end.

(** The same for any value: a [TypeError] on [undefined] too; a [vs.Uri] has
    none of these properties. *)
Definition getMember (v : JSValue) (name : string) : JSError + JSValue :=
  match v with
  | Undefined =>
      inl (newError ("Cannot read properties of undefined (reading '" +:+ name +:+ "')"))
  | Val j => getProperty j name
  | UriVal _ => inr Undefined
  end.

(** [Number::toString] of the integer [n]: its decimal numeral when the
    magnitude is below 10^21.  From there on the result is in exponent form
    and depends on the binary representation of the number; it is taken from
    the engine, [large]. *)
Definition integerToString (large : Z -> string) (n : Z) : string :=
  if (Z.abs n <? 10 ^ 21)%Z then NilZero.string_of_int (Z.to_int n) else large n.

(** [ToString] of a JSON value, as a template literal applies it. *)
Fixpoint jsonToString (large : Z -> string) (j : JSON) : string :=
  match j with
  | JNull => "null"
  | JBool true => "true"
  | JBool false => "false"
  | JNum n => integerToString large n
  | JReal shown => shown
  | JStr s => s
  | JArr elements =>
      JSString.join ","
        (map (fun e => match e with JNull => EmptyString | _ => jsonToString large e end)
             elements)
  | JObj _ => "[object Object]"
  end.

Definition toString (large : Z -> string) (v : JSValue) : string :=
  match v with
  | Undefined => "undefined"
  | Val j => jsonToString large j
  | UriVal u => "file://" +:+ fsPath_of u
  end.

End JS.

(** ** The host

    [Event] is one call into the host: the editor's window and command API,
    the file system, the browser.  The [log] of a [World] lists the calls made
    so far, the oldest first. *)

Inductive Event : Type :=
| ShowInformationMessage (msg : string) (items : list string)
| ShowErrorMessage (msg : JSValue)
| ExecuteCommand (command : string) (args : list JSValue)
| OpenInBrowser (url : string)
| ExistsSync (file : string)
| ReadFileSync (file : string)
| UnlinkSync (file : string).

(** The persisted extension state behind [Context]: the generic [get]/[update]
    store and the three DevTools notification properties. *)
Record Context : Type := {
  globalState : gmap string JSON;
  devToolsNotificationLastShown : option Z;
  devToolsNotificationsShown : Z;
  devToolsNotificationDoNotShow : bool;
}.

Record WorkspaceFolder : Type := { uri : Uri }.

Record WorkspaceContext : Type := { hasAnyFlutterProjects : bool }.

(** Something at a path that is not a plain file: a directory, a file the
    process may not read, a file it may not delete.  [onRead] is what
    [readFileSync] does there, throw or return the content; [onUnlink] is the
    error that [unlinkSync] throws there, if any. *)
Record Obstruction : Type := {
  onRead : JSError + string;
  onUnlink : option JSError;
}.

(** The file system has two parts.  [files] holds the plain files, which can
    be read and deleted, with their text content.  [obstructed] holds what
    else exists; it is looked at where [files] has nothing. *)
Record World : Type := {
  context : Context;
  files : gmap string string;              (* path -> text content *)
  obstructed : gmap string Obstruction;    (* path -> what reading and deleting do *)
  workspaceFolders : list WorkspaceFolder; (* what workspace discovery returns *)
  clock : nat -> Z;                        (* successive readings of Date.now() *)
  ticks : nat;                             (* readings taken so far *)
  log : list Event;
}.

Definition setContext (c : Context) (w : World) : World :=
  {| context := c; files := files w; obstructed := obstructed w;
     workspaceFolders := workspaceFolders w;
     clock := clock w; ticks := ticks w; log := log w |}.

Definition setFiles (f : gmap string string) (w : World) : World :=
  {| context := context w; files := f; obstructed := obstructed w;
     workspaceFolders := workspaceFolders w;
     clock := clock w; ticks := ticks w; log := log w |}.

(** The path [file] is gone. *)
Definition remove (file : string) (w : World) : World :=
  {| context := context w; files := delete file (files w);
     obstructed := delete file (obstructed w);
     workspaceFolders := workspaceFolders w;
     clock := clock w; ticks := ticks w; log := log w |}.

Definition emit (e : Event) (w : World) : World :=
  {| context := context w; files := files w; obstructed := obstructed w;
     workspaceFolders := workspaceFolders w;
     clock := clock w; ticks := ticks w; log := log w ++ [e] |}.

(** ** Promises and [async] functions

    A call of an [async] function runs synchronously up to its first [await]
    and returns a promise; the rest runs when the awaited thing settles, never
    before the caller's synchronous code has finished.  [Task R] is that
    promise: settled ([Done], [Failed]) or suspended with the continuation to
    run on the response.  One step of a task goes from the response of the
    host to the next call it waits for: the microtask hops between an inner
    promise that settles and the code that awaits it are part of that step. *)

Inductive Response : Type :=
| Fulfilled (v : JSValue)
| Rejected (e : JSError).

Inductive Wait : Type :=
| OnHost (call : Event)   (* the thenable a host call returned *)
| OnMicrotask.            (* a promise that is already settled *)

Inductive Task (R : Type) : Type :=
| Done (r : R)
| Failed (e : JSError)
| Await (on : Wait) (k : Response -> World -> World * Task R).

Arguments Done {R} r.
Arguments Failed {R} e.
Arguments Await {R} on k.

Definition Async (R : Type) : Type := World -> World * Task R.

Definition ret {R} (r : R) : Async R := fun w => (w, Done r).

Definition throw {R} (e : JSError) : Async R := fun w => (w, Failed e).

(** Run [f] on the result of [t], now if [t] is settled, else when it
    settles. *)
Fixpoint bindTask {A B} (t : Task A) (f : A -> Async B) : Async B :=
  fun w =>
    match t with
    | Done a => f a w
    | Failed e => (w, Failed e)
    | Await on k =>
        (w, Await on (fun r w' => let '(w'', t') := k r w' in bindTask t' f w''))
    end.

Definition bind {A B} (m : Async A) (f : A -> Async B) : Async B :=
  fun w => let '(w', t) := m w in bindTask t f w'.

(** [await p]: even a settled promise gives control back first. *)
Definition suspend {R} (t : Task R) : Task R :=
  match t with
  | Done r => Await OnMicrotask (fun _ w => (w, Done r))
  | Failed e => Await OnMicrotask (fun _ w => (w, Failed e))
  | Await _ _ => t
  end.

Definition await {R} (m : Async R) : Async R :=
  fun w => let '(w', t) := m w in (w', suspend t).

(** [p.then(onFulfilled, onRejected)] *)
Fixpoint thenTask {A B} (t : Task A) (onFulfilled : A -> Async B)
  (onRejected : JSError -> Async B) : Task B :=
  match t with
  | Done a => Await OnMicrotask (fun _ w => onFulfilled a w)
  | Failed e => Await OnMicrotask (fun _ w => onRejected e w)
  | Await on k =>
      Await on (fun r w =>
        let '(w', t') := k r w in
        match t' with
        | Done a => onFulfilled a w'
        | Failed e => onRejected e w'
        | Await _ _ => (w', thenTask t' onFulfilled onRejected)
        end)
  end.

Definition then_ {A B} (m : Async A) (onFulfilled : A -> Async B)
  (onRejected : JSError -> Async B) : Async B :=
  fun w => let '(w', t) := m w in (w', thenTask t onFulfilled onRejected).

(** A synchronous host call. *)
Definition call (e : Event) : Async unit := fun w => (emit e w, Done tt).

(** A host call that returns a thenable. *)
Definition request (e : Event) : Async JSValue :=
  fun w =>
    (emit e w,
     Await (OnHost e) (fun r w' =>
       match r with
       | Fulfilled v => (w', Done v)
       | Rejected err => (w', Failed err)
       end)).

Notation "'let*' x ':=' m 'in' k" := (bind m (fun x => k))
  (at level 10, x name, m at level 100, k at level 200).

(** The event loop: the host settles the wait of one pending task of the
    pool, and that task runs up to its next suspension. *)
Definition Pool : Type := list (Task unit).

Definition resume {R} (t : Task R) (r : Response) (w : World) : World * Task R :=
  match t with
  | Await _ k => k r w
  | _ => (w, t)
  end.

Definition settle {R} (i : nat) (r : Response) (st : World * list (Task R))
  : World * list (Task R) :=
  let '(w, pool) := st in
  match pool !! i with
  | Some t => let '(w', t') := resume t r w in (w', <[i := t']> pool)
  | None => st
  end.

Definition settled {R} (t : Task R) : bool :=
  match t with
  | Await _ _ => false
  | _ => true
  end.

(** Start [m] and leave its promise floating: nothing waits for it. *)
Definition fire {R} (m : Async R) : Async unit := fun w => (fst (m w), Done tt).

(** Start [m] and keep its promise in the pool of the event loop. *)
Definition spawn {R} (m : Async R) (st : World * list (Task R)) : World * list (Task R) :=
  let '(w, pool) := st in
  let '(w', t) := m w in
  (w', pool ++ [t]).

(** ** The host API *)

Module fs.

(** There is something at the path [file]. *)
Definition present (w : World) (file : string) : bool :=
  bool_decide (is_Some (files w !! file)) || bool_decide (is_Some (obstructed w !! file)).

Definition existsSync (file : string) : Async bool :=
  fun w => (emit (ExistsSync file) w, Done (present w file)).

(** [fs.readFileSync(file).toString()] *)
Definition readFileSync (file : string) : Async string :=
  fun w =>
    (emit (ReadFileSync file) w,
     match files w !! file with
     | Some content => Done content
     | None =>
         match obstructed w !! file with
         | Some o =>
             match onRead o with
             | inr content => Done content
             | inl e => Failed e
             end
         | None =>
             Failed (newError ("ENOENT: no such file or directory, open '"
                               +:+ file +:+ "'"))
         end
     end).

Definition unlinkSync (file : string) : Async unit :=
  fun w =>
    match files w !! file with
    | Some _ => (emit (UnlinkSync file) (remove file w), Done tt)
    | None =>
        match obstructed w !! file with
        | Some o =>
            match onUnlink o with
            | None => (emit (UnlinkSync file) (remove file w), Done tt)
            | Some e => (emit (UnlinkSync file) w, Failed e)
            end
        | None =>
            (emit (UnlinkSync file) w,
             Failed (newError ("ENOENT: no such file or directory, unlink '"
                               +:+ file +:+ "'")))
        end
    end.

End fs.

Module vs.

Module window.
Definition showInformationMessage (msg : string) (items : list string) : Async JSValue :=
  request (ShowInformationMessage msg items).
Definition showErrorMessage (msg : JSValue) : Async JSValue :=
  request (ShowErrorMessage msg).
End window.

Module commands.
Definition executeCommand (command : string) (args : list JSValue) : Async JSValue :=
  request (ExecuteCommand command args).
End commands.

Module Uri.
Definition file (p : string) : Uri := {| fsPath_of := p |}.
End Uri.

End vs.

Module Date.
Definition now : Async Z :=
  fun w =>
    ({| context := context w; files := files w; obstructed := obstructed w;
        workspaceFolders := workspaceFolders w;
        clock := clock w; ticks := S (ticks w); log := log w |},
     Done (clock w (ticks w))).
End Date.

(** ** What the module imports

    The constants of [./constants] and [./utils] are not part of the sources
    at hand, and [JSON.parse] and the exponent form of large numbers are the
    engine's: the module is verified for any value of them. *)

Record Imports : Type := {
  (* ./constants *)
  doNotAskAgainAction : string;
  noThanksAction : string;
  openDevToolsAction : string;
  wantToTryDevToolsPrompt : string;
  (* ./utils *)
  DART_STAGEHAND_PROJECT_TRIGGER_FILE : string;
  FLUTTER_CREATE_PROJECT_TRIGGER_FILE : string;
  FLUTTER_STAGEHAND_PROJECT_TRIGGER_FILE : string;
  extensionVersion : string;
  hasFlutterExtension : bool;
  isDevExtension : bool;
  (* the engine: a [SyntaxError] or the parsed value *)
  JSON_parse : string -> JSError + JSON;
  (* the engine: [Number::toString] of an integer of magnitude 10^21 or more *)
  Number_toString : Z -> string;
}.

(** Modelled from the spec: the constant [noRepeatPromptThreshold] of
    [./constants], "shown within the last 20 hours (fixed threshold)", in the
    milliseconds of [Date.now()]. *)
Definition noRepeatPromptThreshold : Z := 20 * 60 * 60 * 1000.

(** Modelled from the spec: the helper [fsPath] of [./utils], the "folder
    path" of a workspace folder's URI. *)
Definition fsPath (u : Uri) : string := fsPath_of u.

(** Modelled from the spec: the helper [getDartWorkspaceFolders] of
    [./utils], the folders "in the order supplied by workspace discovery". *)
Definition getDartWorkspaceFolders (w : World) : list WorkspaceFolder :=
  workspaceFolders w.

(** Modelled from the spec: the helper [openInBrowser] of [./utils],
    "outbound link-opening". *)
Definition openInBrowser (url : string) : Async unit := call (OpenInBrowser url).

(** The accessors of [Context]. *)
Module Ctx.

Definition get (key : string) (w : World) : JSValue :=
  match globalState (context w) !! key with
  | Some j => Val j
  | None => Undefined
  end.

Definition update (key : string) (value : JSON) : Async unit :=
  fun w =>
    (setContext
       {| globalState := <[key := value]> (globalState (context w));
          devToolsNotificationLastShown := devToolsNotificationLastShown (context w);
          devToolsNotificationsShown := devToolsNotificationsShown (context w);
          devToolsNotificationDoNotShow := devToolsNotificationDoNotShow (context w) |} w,
     Done tt).

Definition setLastShown (t : Z) : Async unit :=
  fun w =>
    (setContext
       {| globalState := globalState (context w);
          devToolsNotificationLastShown := Some t;
          devToolsNotificationsShown := devToolsNotificationsShown (context w);
          devToolsNotificationDoNotShow := devToolsNotificationDoNotShow (context w) |} w,
     Done tt).

Definition setShown (n : Z) : Async unit :=
  fun w =>
    (setContext
       {| globalState := globalState (context w);
          devToolsNotificationLastShown := devToolsNotificationLastShown (context w);
          devToolsNotificationsShown := n;
          devToolsNotificationDoNotShow := devToolsNotificationDoNotShow (context w) |} w,
     Done tt).

Definition setDoNotShow (b : bool) : Async unit :=
  fun w =>
    (setContext
       {| globalState := globalState (context w);
          devToolsNotificationLastShown := devToolsNotificationLastShown (context w);
          devToolsNotificationsShown := devToolsNotificationsShown (context w);
          devToolsNotificationDoNotShow := b |} w,
     Done tt).

Definition read {A} (field : Context -> A) : Async A :=
  fun w => (w, Done (field (context w))).

End Ctx.

(** ** The module *)

Section UserPrompts.

Variable imp : Imports.

Definition promptPrefix : string := "hasPrompted.".
Definition installFlutterExtensionPromptKey : string := "install_flutter_extension".

(** [err] is whatever the promise was rejected with; reading its [message]
    throws when it is [undefined] or [null]. *)
Definition error (err : JSError) : Async unit :=
  match JS.getMember err "message" with
  | inl e => throw e
  | inr message => fire (vs.window.showErrorMessage message)
  end.

Definition hasPrompted (key : string) (w : World) : bool :=
  let stateKey := promptPrefix +:+ key in
  JS.strictEqTrue (Ctx.get stateKey w).

Definition showPrompt (key : string) (prompt : Async bool) : Async unit :=
  let stateKey := promptPrefix +:+ key in
  then_ prompt (fun res => Ctx.update stateKey (JBool res)) error.

Definition promptToInstallFlutterExtension : Async bool :=
  let* res := await (vs.window.showInformationMessage
    "Working on a Flutter project? Install the Flutter extension for additional functionality."
    ["Show Me"]) in
  let* _ := (if JS.truthy res
             then openInBrowser "https://marketplace.visualstudio.com/items?itemName=Dart-Code.flutter"
             else ret tt) in
  ret true.

Definition promptToShowReleaseNotes (versionDisplay versionLink : string) : Async bool :=
  let* res := await (vs.window.showInformationMessage
    ("Dart Code has been updated to v" +:+ versionDisplay)
    ["Show Release Notes"]) in
  let* _ := (if JS.truthy res
             then openInBrowser ("https://dartcode.org/releases/v" +:+ versionLink +:+ "/")
             else ret tt) in
  ret true.

Definition createDartProject (projectPath : string) (templateName : JSValue) : Async bool :=
  let* code := await (vs.commands.executeCommand "_dart.create"
                        [JS.ofString projectPath; templateName]) in
  ret (JS.strictEqNum code 0).

Definition createFlutterProject (projectPath : string) (sampleID : option string)
  : Async bool :=
  let projectName :=
    if JS.truthy (JS.ofOption sampleID) then JS.ofString "sample" else Undefined in
  let* code := await (vs.commands.executeCommand "_flutter.create"
                        [JS.ofString projectPath; projectName; JS.ofOption sampleID]) in
  ret (JS.strictEqNum code 0).

Definition handleFlutterWelcome (workspaceFolder : WorkspaceFolder)
  (sampleID : option string) : Async unit :=
  let entryFile := path.join [fsPath (uri workspaceFolder); "lib/main.dart"] in
  let* present := fs.existsSync entryFile in
  let* _ := (if present
             then fire (vs.commands.executeCommand "vscode.open"
                          [UriVal (vs.Uri.file entryFile)])
             else ret tt) in
  if JS.truthy (JS.ofOption sampleID)
  then fire (vs.window.showInformationMessage
               (JS.toString (Number_toString imp) (JS.ofOption sampleID)
                  +:+ " sample ready! Connect a device and press F5 to run.") [])
  else fire (vs.window.showInformationMessage
               "Your Flutter project is ready! Connect a device and press F5 to start running." []).

(** [template.entrypoint.replace("__projectName__", projectName)] *)
Definition entrypointFor (template : JSON) (projectName : string) : JSError + string :=
  match JS.getProperty template "entrypoint" with
  | inl e => inl e
  | inr (Val (JStr entrypoint)) =>
      inr (JSString.replace "__projectName__" projectName entrypoint)
  | inr Undefined =>
      inl (newError "Cannot read properties of undefined (reading 'replace')")
  | inr (Val JNull) =>
      inl (newError "Cannot read properties of null (reading 'replace')")
  | inr _ => inl (newError "template.entrypoint.replace is not a function")
  end.

Definition handleDartWelcome (workspaceFolder : WorkspaceFolder) (template : JSON)
  : Async unit :=
  let workspacePath := fsPath (uri workspaceFolder) in
  let projectName := path.basename workspacePath in
  match entrypointFor template projectName with
  | inl e => throw e
  | inr relative =>
      let entryFile := path.join [workspacePath; relative] in
      let* present := fs.existsSync entryFile in
      let* _ := (if present
                 then fire (vs.commands.executeCommand "vscode.open"
                              [UriVal (vs.Uri.file entryFile)])
                 else ret tt) in
      match JS.getProperty template "label" with
      | inl e => throw e
      | inr label =>
          fire (vs.window.showInformationMessage
                  (JS.toString (Number_toString imp) label +:+ " project ready!") [])
      end
  end.

Definition handleStagehandTrigger (wf : WorkspaceFolder) (triggerFilename : string)
  : Async unit :=
  let triggerFile := path.join [fsPath (uri wf); triggerFilename] in
  let* present := fs.existsSync triggerFile in
  if present then
    let* content := fs.readFileSync triggerFile in
    let templateJson := JSString.trim content in
    match JSON_parse imp templateJson with
    | inl _ =>
        fire (vs.window.showErrorMessage
                (JS.ofString "Failed to run Stagehand to create project"))
    | inr template =>
        let* _ := fs.unlinkSync triggerFile in
        match JS.getProperty template "name" with
        | inl e => throw e
        | inr name =>
            let* success := await (createDartProject (fsPath (uri wf)) name) in
            if success then
              let* _ := await (vs.commands.executeCommand "dart.getPackages"
                                 [UriVal (uri wf)]) in
              handleDartWelcome wf template
            else ret tt
        end
    end
  else ret tt.

(** A plain function, not an [async] one.  When it returns, [Failed e] stands
    for the exception [e] that it has thrown at its caller (from
    [readFileSync] or [unlinkSync]).  Otherwise the task is the promise it
    leaves floating, the [then] chain on [createFlutterProject], which is
    pending when the function returns; [Done tt] where it started nothing. *)
Definition handleFlutterCreateTrigger (wf : WorkspaceFolder) : Async unit :=
  let flutterTriggerFile :=
    path.join [fsPath (uri wf); FLUTTER_CREATE_PROJECT_TRIGGER_FILE imp] in
  let* present := fs.existsSync flutterTriggerFile in
  if present then
    let* content := fs.readFileSync flutterTriggerFile in
    let sampleID := JSString.trim content in
    let sampleID := if JS.truthy (JS.ofString sampleID) then Some sampleID else None in
    let* _ := fs.unlinkSync flutterTriggerFile in
    then_ (createFlutterProject (fsPath (uri wf)) sampleID)
      (fun success => if success then handleFlutterWelcome wf sampleID else ret tt)
      throw
  else ret tt.

(** The callback of the [forEach]: three calls, none of them awaited.  The
    two [async] handlers return a promise whatever happens in them.  The
    third is a plain function: an exception in it leaves the callback, and
    the third component of the result is that exception. *)
Definition handleFolder (wf : WorkspaceFolder) (st : World * Pool)
  : World * Pool * option JSError :=
  let '(w, pool) :=
    spawn (handleStagehandTrigger wf (FLUTTER_STAGEHAND_PROJECT_TRIGGER_FILE imp))
      (spawn (handleStagehandTrigger wf (DART_STAGEHAND_PROJECT_TRIGGER_FILE imp)) st) in
  match handleFlutterCreateTrigger wf w with
  | (w', Failed e) => (w', pool, Some e)
  | (w', t) => (w', pool ++ [t], None)
  end.

(** [Array.prototype.forEach]: an exception in the callback ends the loop. *)
Fixpoint forEach (folders : list WorkspaceFolder) (st : World * Pool)
  : World * Pool * option JSError :=
  match folders with
  | [] => (st, None)
  | wf :: rest =>
      match handleFolder wf st with
      | (st', None) => forEach rest st'
      | (st', Some e) => (st', Some e)
      end
  end.

(** The result is the world after the synchronous pass over the folders, the
    promises that pass left floating, and the exception that ended it, if
    any. *)
Definition handleNewProjects (w : World) : World * Pool * option JSError :=
  forEach (getDartWorkspaceFolders w) (w, []).

Definition versionLink : string :=
  JSString.replace "." "-"
    (JSString.join "." (firstn 2 (JSString.split "."%char (extensionVersion imp)))).

Definition releaseNotesKeyForThisVersion : string :=
  "release_notes_" +:+ extensionVersion imp.

(** An exception of [handleNewProjects] leaves [showUserPrompts] before its
    first test. *)
Definition showUserPrompts (workspaceContext : WorkspaceContext) (w : World)
  : World * Pool * option JSError :=
  match handleNewProjects w with
  | (st, Some e) => (st, Some e)
  | (st, None) =>
      if hasAnyFlutterProjects workspaceContext && negb (hasFlutterExtension imp)
         && negb (hasPrompted installFlutterExtensionPromptKey (fst st))
      then (spawn (showPrompt installFlutterExtensionPromptKey
                     promptToInstallFlutterExtension) st, None)
      else if negb (isDevExtension imp)
              && negb (hasPrompted releaseNotesKeyForThisVersion (fst st))
      then (spawn (showPrompt releaseNotesKeyForThisVersion
                     (promptToShowReleaseNotes (extensionVersion imp) versionLink)) st,
            None)
      else (st, None)
  end.

(** [lastShown && Date.now() - lastShown < noRepeatPromptThreshold]: the
    clock is read only when [lastShown] is truthy. *)
Definition shownRecently (lastShown : option Z) : Async bool :=
  match lastShown with
  | Some t =>
      if (t =? 0)%Z then ret false
      else let* now := Date.now in ret (now - t <? noRepeatPromptThreshold)%Z
  | None => ret false
  end.

Definition showDevToolsNotificationIfAppropriate : Async bool :=
  let* lastShown := Ctx.read devToolsNotificationLastShown in
  let* timesShown := Ctx.read devToolsNotificationsShown in
  let* doNotShow := Ctx.read devToolsNotificationDoNotShow in
  if doNotShow || (10 <=? timesShown)%Z then ret false
  else
    let* recently := shownRecently lastShown in
    if recently then ret false
    else
      let* shown := Ctx.read devToolsNotificationsShown in
      let* _ := Ctx.setShown (shown + 1)%Z in
      let* now := Date.now in
      let* _ := Ctx.setLastShown now in
      let* choice := await (vs.window.showInformationMessage
                              (wantToTryDevToolsPrompt imp)
                              [openDevToolsAction imp; noThanksAction imp;
                               doNotAskAgainAction imp]) in
      if JS.strictEqStr choice (doNotAskAgainAction imp) then
        let* _ := Ctx.setDoNotShow true in
        ret false
      else if JS.strictEqStr choice (openDevToolsAction imp) then
        let* _ := fire (vs.commands.executeCommand "dart.openDevTools" []) in
        ret true
      else ret false.

End UserPrompts.

(** * Specification

    The vocabulary of the statements: what a task is waiting for, which
    messages were displayed, and runs of the module under the event loop. *)

Definition awaits {R} (t : Task R) (e : Event) : Prop :=
  match t with
  | Await (OnHost e') _ => e' = e
  | _ => False
  end.

(** Every step that a pending task can still take is related by [P], and a
    result it produces satisfies [Q]. *)
Fixpoint taskSpec {R} (P : World -> World -> Prop) (Q : R -> Prop) (t : Task R) : Prop :=
  match t with
  | Done r => Q r
  | Failed _ => True
  | Await _ k => forall r w, P w (fst (k r w)) /\ taskSpec P Q (snd (k r w))
  end.

Definition asyncSpec {R} (P : World -> World -> Prop) (Q : R -> Prop) (m : Async R) : Prop :=
  forall w, P w (fst (m w)) /\ taskSpec P Q (snd (m w)).

Definition taskOk {R} (P : World -> World -> Prop) (t : Task R) : Prop :=
  taskSpec P (fun _ => True) t.

(** A relation between the world before and after that every host call
    respects: a preorder that ignores the log and the deletion of files. *)
Class HostInvariant (P : World -> World -> Prop) : Prop := {
  hi_refl : forall w, P w w;
  hi_trans : forall w1 w2 w3, P w1 w2 -> P w2 w3 -> P w1 w3;
  hi_emit : forall e w, P w (emit e w);
  hi_unlink : forall e f w, P w (emit e (remove f w));
}.

(** Induction on a task, with the hypothesis for every way it can resume. *)
Section TaskInduction.

Context {R : Type} (P : Task R -> Prop).
Hypothesis HDone : forall r, P (Done r).
Hypothesis HFailed : forall e, P (Failed e).
Hypothesis HAwait : forall on k, (forall r w, P (snd (k r w))) -> P (Await on k).

Fixpoint Task_induction (t : Task R) : P t :=
  match t with
  | Done r => HDone r
  | Failed e => HFailed e
  | Await on k => HAwait on k (fun r w => Task_induction (snd (k r w)))
  end.

End TaskInduction.

Definition isInformationMessage (e : Event) : bool :=
  match e with
  | ShowInformationMessage _ _ => true
  | _ => false
  end.

(** The notifications displayed so far. *)
Definition displayed (l : list Event) : list Event := List.filter isInformationMessage l.

(** One thing that happens to the DevTools notification: the extension calls
    [showDevToolsNotificationIfAppropriate], or the host settles the wait of
    the call number [i]. *)
Inductive Action : Type :=
| Call
| Settle (i : nat) (r : Response).

Inductive Activity : Type :=
| Activate (workspaceContext : WorkspaceContext)
| Resume (i : nat) (r : Response).

(** The throttle state only moves forward. *)
Definition throttleLe (w w' : World) : Prop :=
  (devToolsNotificationsShown (context w) <= devToolsNotificationsShown (context w'))%Z
  /\ (devToolsNotificationDoNotShow (context w) = true ->
      devToolsNotificationDoNotShow (context w') = true
      /\ displayed (log w') = displayed (log w)).

Fixpoint allWhiteSpace (s : string) : bool :=
  match s with
  | EmptyString => true
  | String c s' => JSString.isWhiteSpace c && allWhiteSpace s'
  end.

(** [s] with the first occurrence of [pat] replaced by [by_], taken as is. *)
Definition substituteFirst (pat by_ s : string) : string :=
  match JSString.find pat s with
  | Some (before, after) => before +:+ by_ +:+ after
  | None => s
  end.

(** [s] does not begin, and does not end, with white space. *)
Definition startsBlack (s : string) : bool :=
  match s with
  | EmptyString => true
  | String c _ => negb (JSString.isWhiteSpace c)
  end.

Fixpoint endsBlack (s : string) : bool :=
  match s with
  | EmptyString => true
  | String c EmptyString => negb (JSString.isWhiteSpace c)
  | String _ s' => endsBlack s'
  end.

(** [s] is [content] without the white space at its two ends. *)
Definition trimmedTo (content s : string) : Prop :=
  exists lead trail,
    content = lead +:+ s +:+ trail
    /\ allWhiteSpace lead = true /\ allWhiteSpace trail = true
    /\ startsBlack s = true /\ endsBlack s = true.

(** What is at the path [file]: a plain file with its content, something
    else, or nothing. *)
Definition entry (w : World) (file : string) : option (string + Obstruction) :=
  match files w !! file with
  | Some content => Some (inl content)
  | None => inr <$> obstructed w !! file
  end.

(** What [readFileSync] does at [file], and the error that [unlinkSync]
    throws there, if any. *)
Definition readAt (w : World) (file : string) : option (JSError + string) :=
  match entry w file with
  | Some (inl content) => Some (inr content)
  | Some (inr o) => Some (onRead o)
  | None => None
  end.

Definition unlinkErrorAt (w : World) (file : string) : option JSError :=
  match entry w file with
  | Some (inr o) => onUnlink o
  | _ => None
  end.

(** [template] is a descriptor with these three strings. *)
Definition describes (template : JSON) (label name entrypoint : string) : Prop :=
  JS.getProperty template "label" = inr (JS.ofString label)
  /\ JS.getProperty template "name" = inr (JS.ofString name)
  /\ JS.getProperty template "entrypoint" = inr (JS.ofString entrypoint).

Definition isExistsSync (e : Event) : bool :=
  match e with
  | ExistsSync _ => true
  | _ => false
  end.

(** The host calls of a handler up to and including the create command. *)
Definition beforeCreate (e : Event) : bool :=
  match e with
  | ExistsSync _ | ReadFileSync _ | UnlinkSync _ | ShowErrorMessage _ => true
  | ExecuteCommand command _ =>
      String.eqb command "_dart.create" || String.eqb command "_flutter.create"
  | _ => false
  end.

(** A handler's promise after the synchronous pass: settled, or waiting for
    the create command it issued. *)
Definition settledOrCreating (t : Task unit) : Prop :=
  match t with
  | Await (OnHost e) _ =>
      exists args, e = ExecuteCommand "_dart.create" args
                   \/ e = ExecuteCommand "_flutter.create" args
  | Await OnMicrotask _ => False
  | _ => True
  end.

(** What a handler does before it first gives control back: it checks for
    its marker [file], then makes only calls of the kind [beforeCreate], and
    leaves a promise that is settled or waits for the create command. *)
Definition syncStep (file : string) (w w' : World) (t : Task unit) : Prop :=
  exists events,
    log w' = log w ++ ExistsSync file :: events
    /\ forallb beforeCreate events = true
    /\ List.filter isExistsSync events = []
    /\ settledOrCreating t
    /\ context w' = context w
    /\ workspaceFolders w' = workspaceFolders w.

Definition sameContext (w w' : World) : Prop := context w' = context w.

(** Nothing that obstructs a path has appeared. *)
Definition noNewObstruction (w w' : World) : Prop := obstructed w' ⊆ obstructed w.

(** The prompt [id] is marked seen in the persisted state. *)
Definition markedSeen (id : string) (w : World) : Prop :=
  globalState (context w) !! ("hasPrompted." +:+ id) = Some (JBool true).

Definition keepSeen (w w' : World) : Prop :=
  forall id, markedSeen id w -> markedSeen id w'.

Section Specification.

Variable imp : Imports.

(** The three-choice notification of [showDevToolsNotificationIfAppropriate]. *)
Definition devToolsNotification : Event :=
  ShowInformationMessage (wantToTryDevToolsPrompt imp)
    [openDevToolsAction imp; noThanksAction imp; doNotAskAgainAction imp].

(** What [showDevToolsNotificationIfAppropriate] does once the user has
    answered the notification. *)
Definition onChoice (r : Response) (w : World) : World * Task bool :=
  match r with
  | Fulfilled choice =>
      if JS.strictEqStr choice (doNotAskAgainAction imp)
      then (fst (Ctx.setDoNotShow true w), Done false)
      else if JS.strictEqStr choice (openDevToolsAction imp)
           then (emit (ExecuteCommand "dart.openDevTools" []) w, Done true)
           else (w, Done false)
  | Rejected e => (w, Failed e)
  end.

(** The existence checks of one folder, in the order of the source. *)
Definition markerChecks (wf : WorkspaceFolder) : list Event :=
  [ExistsSync (path.join [fsPath (uri wf); DART_STAGEHAND_PROJECT_TRIGGER_FILE imp]);
   ExistsSync (path.join [fsPath (uri wf); FLUTTER_STAGEHAND_PROJECT_TRIGGER_FILE imp]);
   ExistsSync (path.join [fsPath (uri wf); FLUTTER_CREATE_PROJECT_TRIGGER_FILE imp])].

(** The path of the framework-specific marker of a folder. *)
Definition flutterTriggerFile (wf : WorkspaceFolder) : string :=
  path.join [fsPath (uri wf); FLUTTER_CREATE_PROJECT_TRIGGER_FILE imp].


(** How far a pass over [folders] got.  If nothing was thrown, all folders
    were checked and each left three promises.  If the handler of the
    framework-specific marker threw in the folder [wf], the folders up to
    [wf] were checked and no others, [wf] left two promises only, and its
    marker is still there. *)
Definition reached (folders checked : list WorkspaceFolder) (tasks : Pool)
  (w' : World) (thrown : option JSError) : Prop :=
  match thrown with
  | None => checked = folders /\ length tasks = (3 * length folders)%nat
  | Some _ =>
      exists before wf after,
        folders = before ++ wf :: after
        /\ checked = before ++ [wf]
        /\ length tasks = (3 * length before + 2)%nat
        /\ fs.present w' (flutterTriggerFile wf) = true
  end.

(** What the synchronous pass over some folders does, started in any state
    of the pool. *)
Definition passOver (folders : list WorkspaceFolder) (st : World * Pool)
  (result : World * Pool * option JSError) : Prop :=
  let '(st', thrown) := result in
  exists checked events tasks,
    log (fst st') = log (fst st) ++ events
    /\ List.filter isExistsSync events = flat_map markerChecks checked
    /\ forallb beforeCreate events = true
    /\ snd st' = snd st ++ tasks
    /\ Forall settledOrCreating tasks
    /\ context (fst st') = context (fst st)
    /\ workspaceFolders (fst st') = workspaceFolders (fst st)
    /\ reached folders checked tasks (fst st') thrown.

(** C6 as the claim words it: on every framework-specific marker the handler
    deletes the marker and invokes the create command. *)
Definition createdFromMarker (wf : WorkspaceFolder) (w : World) : Prop :=
  fs.present w (flutterTriggerFile wf) = true ->
  let '(w', t) := handleFlutterCreateTrigger imp wf w in
  fs.present w' (flutterTriggerFile wf) = false
  /\ exists args, awaits t (ExecuteCommand "_flutter.create" args).

(** The two candidate prompts of [showUserPrompts]. *)
Definition installFlutterExtensionPrompt : Event :=
  ShowInformationMessage
    "Working on a Flutter project? Install the Flutter extension for additional functionality."
    ["Show Me"].

Definition releaseNotesPrompt : Event :=
  ShowInformationMessage
    ("Dart Code has been updated to v" +:+ extensionVersion imp)
    ["Show Release Notes"].

Definition releaseNotesId : string := "release_notes_" +:+ extensionVersion imp.

(** The value persisted for the prompt [id] is [true]. *)
Definition seen (id : string) (w : World) : bool :=
  match globalState (context w) !! ("hasPrompted." +:+ id) with
  | Some (JBool true) => true
  | _ => false
  end.

(** C3 in the words of the spec: the first candidate, in the fixed order,
    whose precondition holds and which is not marked seen; no other. *)
Definition firstEligiblePrompt (workspaceContext : WorkspaceContext) (w : World)
  : list Event :=
  if hasAnyFlutterProjects workspaceContext && negb (hasFlutterExtension imp)
     && negb (seen "install_flutter_extension" w)
  then [installFlutterExtensionPrompt]
  else if negb (isDevExtension imp) && negb (seen releaseNotesId w)
  then [releaseNotesPrompt]
  else [].

(** What a call of [showUserPrompts] in the world [w] displays: [prompt]
    is among it, or is not. *)
Definition offered (prompt : Event) (workspaceContext : WorkspaceContext) (w : World)
  : Prop :=
  exists shown,
    displayed (log (fst (fst (showUserPrompts imp workspaceContext w))))
    = displayed (log w) ++ shown
    /\ In prompt shown.

Definition notOffered (prompt : Event) (workspaceContext : WorkspaceContext) (w : World)
  : Prop :=
  exists shown,
    displayed (log (fst (fst (showUserPrompts imp workspaceContext w))))
    = displayed (log w) ++ shown
    /\ ~ In prompt shown.

(** C3 as the claim words it: an activation displays the first eligible
    candidate. *)
Definition displaysFirstEligible (workspaceContext : WorkspaceContext) (w : World)
  : Prop :=
  displayed (log (fst (fst (showUserPrompts imp workspaceContext w))))
  = displayed (log w) ++ firstEligiblePrompt workspaceContext w.

(** What [error] does with the reason of a rejection, from the world [w] to
    the world [w'] and the promise [t] of the [then]: it shows the reason's
    [message], whatever that is; reading the [message] of [undefined] or of
    [null] throws, and then nothing is shown.  The persisted state and the
    files are as they were. *)
Definition errorShown (reason : JSError) (w w' : World) (t : Task unit) : Prop :=
  context w' = context w /\ files w' = files w
  /\ match reason with
     | Undefined | Val JNull => log w' = log w /\ exists e, t = Failed e
     | Val (JObj fields) =>
         log w' = log w ++ [ShowErrorMessage (JS.lookupField "message" fields)]
         /\ t = Done tt
     | _ => log w' = log w ++ [ShowErrorMessage Undefined] /\ t = Done tt
     end.

(** What the task [t] of a displayed prompt does with the answer [r] of the
    host, in the world [wa]: on any fulfilment it stores [true] under
    ["hasPrompted."] followed by [id] and changes nothing else; on a
    rejection it goes through [error]. *)
Definition persists (id : string) (t : Task unit) (r : Response) (wa : World) : Prop :=
  let '(wc, t') := resume t r wa in
  match r with
  | Fulfilled _ =>
      t' = Done tt
      /\ globalState (context wc)
         = <["hasPrompted." +:+ id := JBool true]> (globalState (context wa))
      /\ devToolsNotificationLastShown (context wc) = devToolsNotificationLastShown (context wa)
      /\ devToolsNotificationsShown (context wc) = devToolsNotificationsShown (context wa)
      /\ devToolsNotificationDoNotShow (context wc) = devToolsNotificationDoNotShow (context wa)
      /\ displayed (log wc) = displayed (log wa)
      /\ files wc = files wa
  | Rejected reason => errorShown reason wa wc t'
  end.


(** One thing that happens to the module: an activation of the extension
    calls [showUserPrompts], or the host settles the wait of the pending
    task number [i].  An exception of [showUserPrompts] goes to the host;
    what was started before it stays in the pool. *)
Definition moduleStep (a : Activity) (st : World * Pool) : World * Pool :=
  match a with
  | Activate workspaceContext =>
      let '(w', started, _) := showUserPrompts imp workspaceContext (fst st) in
      (w', snd st ++ started)
  | Resume i r => settle i r st
  end.

Definition moduleRun (activities : list Activity) (st : World * Pool) : World * Pool :=
  fold_left (fun st a => moduleStep a st) activities st.

Definition devToolsStep (a : Action) (st : World * list (Task bool))
  : World * list (Task bool) :=
  match a with
  | Call => spawn (showDevToolsNotificationIfAppropriate imp) st
  | Settle i r => settle i r st
  end.

Definition devToolsRun (actions : list Action) (st : World * list (Task bool))
  : World * list (Task bool) :=
  fold_left (fun st a => devToolsStep a st) actions st.

End Specification.

(** ** Worked inputs

    The imports as the examples take them: the file names and labels of one
    installation, and a [JSON.parse] that knows the one descriptor the
    examples use. *)

Definition quoted (s : string) : string := String "034" (s +:+ String "034" "").

Definition consoleAppJson : string :=
  "{" +:+ quoted "name" +:+ ":" +:+ quoted "x" +:+ ","
      +:+ quoted "label" +:+ ":" +:+ quoted "Console App" +:+ ","
      +:+ quoted "entrypoint" +:+ ":" +:+ quoted "bin/__projectName__.dart" +:+ "}".

Definition consoleApp : JSON :=
  JObj [("name", JStr "x"); ("label", JStr "Console App");
        ("entrypoint", JStr "bin/__projectName__.dart")].

(** The exponent form of an integer, from its decimal digits: right for a
    number of at most fifteen significant digits. *)
Fixpoint stripZeros (s : string) : string :=
  match s with
  | EmptyString => EmptyString
  | String c s' =>
      match stripZeros s' with
      | EmptyString => if Ascii.eqb c "0" then EmptyString else String c EmptyString
      | r => String c r
      end
  end.

Definition exponentForm (n : Z) : string :=
  let digits := NilZero.string_of_uint (N.to_uint (Z.abs_N n)) in
  let exponent := NilZero.string_of_uint (Nat.to_uint (String.length digits - 1)) in
  let mantissa :=
    match stripZeros digits with
    | String d EmptyString => String d EmptyString
    | String d rest => String d ("." +:+ rest)
    | EmptyString => "0"
    end in
  (if (n <? 0)%Z then "-" else "") +:+ mantissa +:+ "e+" +:+ exponent.

Definition stubImports : Imports := {|
  doNotAskAgainAction := "Do Not Ask Again";
  noThanksAction := "No Thanks";
  openDevToolsAction := "Open DevTools";
  wantToTryDevToolsPrompt := "Try Dart DevTools?";
  DART_STAGEHAND_PROJECT_TRIGGER_FILE := "dart.sh.create";
  FLUTTER_CREATE_PROJECT_TRIGGER_FILE := "flutter.create";
  FLUTTER_STAGEHAND_PROJECT_TRIGGER_FILE := "flutter.sh.create";
  extensionVersion := "3.1.0";
  hasFlutterExtension := false;
  isDevExtension := false;
  JSON_parse := fun text =>
    if String.eqb text consoleAppJson then inr consoleApp
    else inl (newError "Unexpected token in JSON");
  Number_toString := exponentForm;
|}.

Definition freshContext : Context := {|
  globalState := ∅;
  devToolsNotificationLastShown := None;
  devToolsNotificationsShown := 0;
  devToolsNotificationDoNotShow := false;
|}.

Definition folder (p : string) : WorkspaceFolder := {| uri := vs.Uri.file p |}.

(** A world with the given files and workspace folders, nothing persisted and
    nothing logged; the clock starts in November 2023. *)
Definition world (fileList : list (string * string)) (folders : list string) : World := {|
  context := freshContext;
  files := list_to_map fileList;
  obstructed := ∅;
  workspaceFolders := map folder folders;
  clock := fun n => (1700000000000 + Z.of_nat n)%Z;
  ticks := 0;
  log := [];
|}.

(** The host creates or replaces a file. *)
Definition writeFile (file content : string) (w : World) : World :=
  setFiles (<[file := content]> (files w)) w.

(** There is something at [file] that is not a plain file. *)
Definition obstruct (file : string) (o : Obstruction) (w : World) : World :=
  {| context := context w; files := files w;
     obstructed := <[file := o]> (obstructed w);
     workspaceFolders := workspaceFolders w;
     clock := clock w; ticks := ticks w; log := log w |}.

(** A directory, and a file in a directory that is not writable. *)
Definition directory : Obstruction := {|
  onRead := inl (newError "EISDIR: illegal operation on a directory, read");
  onUnlink := Some (newError "EPERM: operation not permitted, unlink");
|}.

Definition undeletable (content : string) : Obstruction := {|
  onRead := inr content;
  onUnlink := Some (newError "EACCES: permission denied, unlink");
|}.


(** A folder whose name has a dollar pattern in it, with a scaffolding
    marker. *)
Definition cashFolder : World :=
  world [("/work/cash$$/dart.sh.create", consoleAppJson)] ["/work/cash$$"].

(** A folder whose scaffolding marker is not JSON, and one whose
    framework-specific marker is blank. *)
Definition brokenMarker : World := world [("/proj/dart.sh.create", "not json")] ["/proj"].

Definition blankMarker : World := world [("/proj/flutter.create", "   ")] ["/proj"].

(** A framework-specific marker with white space around the identifier; one
    that is a directory; one that cannot be deleted. *)
Definition sampleMarker : World :=
  world [("/proj/flutter.create", " my_sample" +:+ String "010" "")] ["/proj"].

Definition directoryMarker : World :=
  obstruct "/proj/flutter.create" directory (world [] ["/proj"]).

Definition lockedMarker : World :=
  obstruct "/proj/flutter.create" (undeletable "my_sample") (world [] ["/proj"]).

(** The folder of the spec's example, with its scaffolding marker. *)
Definition projFolder : World :=
  world [("/proj/dart.sh.create", consoleAppJson)] ["/proj"].

(** Both folders with a scaffolding marker. *)
Definition twoMarkers : World :=
  world [("/a/dart.sh.create", consoleAppJson); ("/b/dart.sh.create", consoleAppJson)]
    ["/a"; "/b"].

(** ** Vocabulary of the further properties *)

(** The host calls of a handler that starts no creation: the existence
    check, and on a stuck marker the read, the error message for a content
    that does not parse, and the attempt to delete. *)
Definition quietEvent (e : Event) : bool :=
  match e with
  | ExistsSync _ | ReadFileSync _ | UnlinkSync _ | ShowErrorMessage _ => true
  | _ => false
  end.

(** The file system only loses entries, and the workspace folders stay. *)
Definition onlyDeletes (w w' : World) : Prop :=
  (forall file, entry w' file = None \/ entry w' file = entry w file)
  /\ workspaceFolders w' = workspaceFolders w.

(** The three fields of the DevTools throttle are as they were. *)
Definition throttleSame (w w' : World) : Prop :=
  devToolsNotificationLastShown (context w') = devToolsNotificationLastShown (context w)
  /\ devToolsNotificationsShown (context w') = devToolsNotificationsShown (context w)
  /\ devToolsNotificationDoNotShow (context w') = devToolsNotificationDoNotShow (context w).

(** Everything but the throttle and the log is as it was. *)
Definition throttleOnly (w w' : World) : Prop :=
  globalState (context w') = globalState (context w)
  /\ files w' = files w
  /\ workspaceFolders w' = workspaceFolders w.

(** The count moves with the displays, one for one, and does not pass ten. *)
Definition countsDisplays (w w' : World) : Prop :=
  (devToolsNotificationsShown (context w') - devToolsNotificationsShown (context w)
   = Z.of_nat (length (displayed (log w'))) - Z.of_nat (length (displayed (log w))))%Z
  /\ ((devToolsNotificationsShown (context w) <= 10)%Z ->
      (devToolsNotificationsShown (context w') <= 10)%Z).

(** [s] has no dot in it. *)
Definition noDot (s : string) : Prop := JSString.contains "." s = false.

Section FurtherSpecification.

Variable imp : Imports.

(** A scaffolding marker that starts no creation: a plain file that does not
    parse, or something that cannot be read, or does not parse, or cannot be
    deleted. *)
Definition stuck (e : string + Obstruction) : Prop :=
  match e with
  | inl content => exists err, JSON_parse imp (JSString.trim content) = inl err
  | inr o =>
      match onRead o with
      | inl _ => True
      | inr content =>
          (exists err, JSON_parse imp (JSString.trim content) = inl err)
          \/ is_Some (onUnlink o)
      end
  end.

(** No marker of the folder [wf] would start a creation: a scaffolding marker
    that is still there is stuck, and there is no framework-specific
    marker. *)
Definition spent (wf : WorkspaceFolder) (w : World) : Prop :=
  (forall name e,
      name = DART_STAGEHAND_PROJECT_TRIGGER_FILE imp
      \/ name = FLUTTER_STAGEHAND_PROJECT_TRIGGER_FILE imp ->
      entry w (path.join [fsPath (uri wf); name]) = Some e ->
      stuck e)
  /\ entry w (flutterTriggerFile imp wf) = None.

(** The folder [wf] has none of the three markers. *)
Definition unmarked (wf : WorkspaceFolder) (w : World) : Prop :=
  forall name,
    In name [DART_STAGEHAND_PROJECT_TRIGGER_FILE imp;
             FLUTTER_STAGEHAND_PROJECT_TRIGGER_FILE imp;
             FLUTTER_CREATE_PROJECT_TRIGGER_FILE imp] ->
    fs.present w (path.join [fsPath (uri wf); name]) = false.

End FurtherSpecification.

(** A template that is [null], and one with no entry point. *)
Definition nullMarker : World := world [("/proj/dart.sh.create", "null")] ["/proj"].

Definition bareTemplate : JSON := JObj [("name", JStr "x"); ("label", JStr "Bare")].

Definition bareJson : string :=
  "{" +:+ quoted "name" +:+ ":" +:+ quoted "x" +:+ ","
      +:+ quoted "label" +:+ ":" +:+ quoted "Bare" +:+ "}".

(** The imports with a [JSON.parse] that knows [null] and the bare template
    as well. *)
Definition stubImports2 : Imports := {|
  doNotAskAgainAction := doNotAskAgainAction stubImports;
  noThanksAction := noThanksAction stubImports;
  openDevToolsAction := openDevToolsAction stubImports;
  wantToTryDevToolsPrompt := wantToTryDevToolsPrompt stubImports;
  DART_STAGEHAND_PROJECT_TRIGGER_FILE := DART_STAGEHAND_PROJECT_TRIGGER_FILE stubImports;
  FLUTTER_CREATE_PROJECT_TRIGGER_FILE := FLUTTER_CREATE_PROJECT_TRIGGER_FILE stubImports;
  FLUTTER_STAGEHAND_PROJECT_TRIGGER_FILE := FLUTTER_STAGEHAND_PROJECT_TRIGGER_FILE stubImports;
  extensionVersion := extensionVersion stubImports;
  hasFlutterExtension := hasFlutterExtension stubImports;
  isDevExtension := isDevExtension stubImports;
  JSON_parse := fun text =>
    if String.eqb text "null" then inr JNull
    else if String.eqb text bareJson then inr bareTemplate
    else JSON_parse stubImports text;
  Number_toString := Number_toString stubImports;
|}.

Definition bareMarker : World := world [("/proj/dart.sh.create", bareJson)] ["/proj"].

(** * Properties *)

(** ** Reasoning about tasks *)

Section Hoare.

Context (P : World -> World -> Prop) `{!HostInvariant P}.

Lemma asyncSpec_ret {R} (Q : R -> Prop) (r : R) : Q r -> asyncSpec P Q (ret r).
Proof. intros Hq w. split; [apply hi_refl | done]. Qed.

Lemma asyncSpec_throw {R} (Q : R -> Prop) (e : JSError) : asyncSpec P Q (throw e).
Proof. intros w. split; [apply hi_refl | done]. Qed.

Lemma taskSpec_bindTask {A B} (Q : A -> Prop) (Q' : B -> Prop)
  (t : Task A) (f : A -> Async B) :
  taskSpec P Q t ->
  (forall a, Q a -> asyncSpec P Q' (f a)) ->
  asyncSpec P Q' (bindTask t f).
Proof.
  induction t as [a|e|on k IH] using Task_induction; intros Ht Hf w; simpl.
  - by apply Hf.
  - split; [apply hi_refl | done].
  - split; [apply hi_refl|]. intros r w'. destruct (Ht r w') as [Hp Ht'].
    specialize (IH r w' Ht' Hf). destruct (k r w') as [w'' t']. simpl in *.
    destruct (IH w'') as [Hp' Ht''].
    split; [by eapply hi_trans | done].
Qed.

Lemma asyncSpec_bind {A B} (Q : A -> Prop) (Q' : B -> Prop)
  (m : Async A) (f : A -> Async B) :
  asyncSpec P Q m ->
  (forall a, Q a -> asyncSpec P Q' (f a)) ->
  asyncSpec P Q' (bind m f).
Proof.
  intros Hm Hf w. unfold bind. destruct (Hm w) as [Hp Ht].
  destruct (m w) as [w' t]. simpl in *.
  destruct (taskSpec_bindTask Q Q' t f Ht Hf w') as [Hp' Ht'].
  split; [by eapply hi_trans | done].
Qed.

Lemma taskSpec_thenTask {A B} (Q : A -> Prop) (Q' : B -> Prop)
  (t : Task A) (f : A -> Async B) (g : JSError -> Async B) :
  taskSpec P Q t ->
  (forall a, Q a -> asyncSpec P Q' (f a)) ->
  (forall e, asyncSpec P Q' (g e)) ->
  taskSpec P Q' (thenTask t f g).
Proof.
  induction t as [a|e|on k IH] using Task_induction; intros Ht Hf Hg; simpl.
  - intros _ w. by apply Hf.
  - intros _ w. by apply Hg.
  - intros r w. destruct (Ht r w) as [Hp Ht'].
    specialize (IH r w). destruct (k r w) as [w' t']. simpl in *.
    destruct t' as [a|e|on' k'].
    + destruct (Hf a Ht' w') as [Hp' Hq]. split; [by eapply hi_trans | done].
    + destruct (Hg e w') as [Hp' Hq]. split; [by eapply hi_trans | done].
    + split; [done | by apply IH].
Qed.

Lemma asyncSpec_then {A B} (Q : A -> Prop) (Q' : B -> Prop)
  (m : Async A) (f : A -> Async B) (g : JSError -> Async B) :
  asyncSpec P Q m ->
  (forall a, Q a -> asyncSpec P Q' (f a)) ->
  (forall e, asyncSpec P Q' (g e)) ->
  asyncSpec P Q' (then_ m f g).
Proof.
  intros Hm Hf Hg w. unfold then_. destruct (Hm w) as [Hp Ht].
  destruct (m w) as [w' t]. simpl in *. split; [done|].
  by eapply taskSpec_thenTask.
Qed.

Lemma asyncSpec_await {R} (Q : R -> Prop) (m : Async R) :
  asyncSpec P Q m -> asyncSpec P Q (await m).
Proof.
  intros Hm w. unfold await. destruct (Hm w) as [Hp Ht].
  destruct (m w) as [w' t]. simpl in *. split; [done|].
  destruct t; simpl; [| | done]; intros _ w0; (split; [apply hi_refl | done]).
Qed.

Lemma asyncSpec_fire {R} (m : Async R) (Q : R -> Prop) :
  asyncSpec P Q m -> asyncSpec P (fun _ : unit => True) (fire m).
Proof. intros Hm w. destruct (Hm w) as [Hp _]. by split. Qed.

Lemma asyncSpec_request (e : Event) : asyncSpec P (fun _ => True) (request e).
Proof.
  intros w. split; [apply hi_emit|]. simpl.
  intros [v|err] w'; (split; [apply hi_refl | done]).
Qed.

Lemma asyncSpec_call (e : Event) : asyncSpec P (fun _ => True) (call e).
Proof. intros w. split; [apply hi_emit | done]. Qed.

Lemma asyncSpec_existsSync (f : string) : asyncSpec P (fun _ => True) (fs.existsSync f).
Proof. intros w. split; [apply hi_emit | done]. Qed.

Lemma asyncSpec_readFileSync (f : string) :
  asyncSpec P (fun _ => True) (fs.readFileSync f).
Proof.
  intros w. unfold fs.readFileSync. split; [apply hi_emit|]. simpl.
  destruct (files w !! f); [done|].
  destruct (obstructed w !! f) as [o|]; [|done]. by destruct (onRead o).
Qed.

Lemma asyncSpec_unlinkSync (f : string) : asyncSpec P (fun _ => True) (fs.unlinkSync f).
Proof.
  intros w. unfold fs.unlinkSync.
  destruct (files w !! f); [split; [apply hi_unlink | done]|].
  destruct (obstructed w !! f) as [o|]; [|split; [apply hi_emit | done]].
  destruct (onUnlink o); split; first [apply hi_unlink | apply hi_emit | done].
Qed.

End Hoare.

Lemma strictEqStr_true (v : JSValue) (s : string) :
  JS.strictEqStr v s = true <-> v = JS.ofString s.
Proof.
  destruct v as [|[]|]; simpl; try (split; [done | intros [=]]).
  rewrite String.eqb_eq. split; [by intros -> | by intros [= ->]].
Qed.

Lemma strictEqStr_false (v : JSValue) (s : string) :
  JS.strictEqStr v s = false <-> v <> JS.ofString s.
Proof.
  rewrite <- strictEqStr_true. by destruct (JS.strictEqStr v s).
Qed.

Section DevTools.

Variable imp : Imports.

Ltac run :=
  unfold showDevToolsNotificationIfAppropriate, shownRecently, bind, Ctx.read; simpl.

Lemma devtools_settled_or_displayed (w : World) :
  let t := snd (showDevToolsNotificationIfAppropriate imp w) in
  t = Done false
  \/ (awaits t (devToolsNotification imp)
      /\ forall r w1, resume t r w1 = onChoice imp r w1).
Proof.
  run.
  destruct (devToolsNotificationDoNotShow (context w)); simpl; [by left|].
  destruct (10 <=? devToolsNotificationsShown (context w))%Z; simpl; [by left|].
  assert (forall (r : Response) (w1 : World),
    (let '(w'', t') := match r with
                       | Fulfilled v => (w1, Done v)
                       | Rejected err => (w1, Failed err)
                       end in
     bindTask t'
       (fun c : JSValue =>
          if JS.strictEqStr c (doNotAskAgainAction imp)
          then fun w2 => ret false (fst (Ctx.setDoNotShow true w2))
          else if JS.strictEqStr c (openDevToolsAction imp)
               then fun w2 => ret true (emit (ExecuteCommand "dart.openDevTools" []) w2)
               else ret false) w'') = onChoice imp r w1) as Hk.
  { intros [choice|e] w1; simpl; [|done].
    destruct (JS.strictEqStr choice (doNotAskAgainAction imp)); [done|].
    by destruct (JS.strictEqStr choice (openDevToolsAction imp)). }
  destruct (devToolsNotificationLastShown (context w)) as [t|]; simpl.
  - destruct (t =? 0)%Z; simpl.
    + right. split; [done | apply Hk].
    + destruct (_ <? _)%Z; simpl; [by left|]. right. split; [done | apply Hk].
  - right. split; [done | apply Hk].
Qed.

(** C1.  With the clock at least twenty hours past the epoch, a call of
    [showDevToolsNotificationIfAppropriate] returns [false], displays
    nothing and leaves the persisted state as it is when the opt-out flag
    is set, or the notification was shown ten times or more, or it was
    last shown less than twenty hours ago.  Otherwise (opt-out not set,
    fewer than ten times, last shown twenty hours ago or more, or never) it
    displays the notification and, before it waits for the user's choice,
    has added one to the count and stamped the reading of the clock. *)
Theorem devtools_gate (w : World) :
  let c := context w in
  let now := clock w (ticks w) in
  (noRepeatPromptThreshold <= now)%Z ->
  ((devToolsNotificationDoNotShow c = true
    \/ (10 <= devToolsNotificationsShown c)%Z
    \/ (exists t, devToolsNotificationLastShown c = Some t
                  /\ (now - t < noRepeatPromptThreshold)%Z)) ->
   let '(w', t) := showDevToolsNotificationIfAppropriate imp w in
   t = Done false /\ context w' = c /\ log w' = log w /\ files w' = files w)
  /\
  (devToolsNotificationDoNotShow c = false ->
   (devToolsNotificationsShown c < 10)%Z ->
   (devToolsNotificationLastShown c = None
    \/ exists t, devToolsNotificationLastShown c = Some t
                 /\ (noRepeatPromptThreshold <= now - t)%Z) ->
   let '(w', t) := showDevToolsNotificationIfAppropriate imp w in
   awaits t (devToolsNotification imp)
   /\ log w' = log w ++ [devToolsNotification imp]
   /\ devToolsNotificationsShown (context w') = (devToolsNotificationsShown c + 1)%Z
   /\ (exists n, (ticks w <= n)%nat /\ ticks w' = S n
                 /\ devToolsNotificationLastShown (context w') = Some (clock w n))
   /\ devToolsNotificationDoNotShow (context w') = false
   /\ globalState (context w') = globalState c
   /\ files w' = files w).
Proof.
  intros c now Hnow. subst c now. split.
  - intros Hskip. run.
    destruct (devToolsNotificationDoNotShow (context w)) eqn:Hdns; simpl; [done|].
    destruct (10 <=? devToolsNotificationsShown (context w))%Z eqn:Hcnt; simpl; [done|].
    destruct Hskip as [Hd | [Hc | (t & Ht & Hlt)]]; [done | lia |].
    rewrite Ht. simpl.
    destruct (t =? 0)%Z eqn:Hz; [lia|]. simpl.
    assert ((clock w (ticks w) - t <? noRepeatPromptThreshold)%Z = true) as -> by lia.
    done.
  - intros Hdns Hcnt Hlast. run. rewrite Hdns. simpl.
    assert ((10 <=? devToolsNotificationsShown (context w))%Z = false) as -> by lia.
    simpl.
    destruct Hlast as [Hn | (t & Ht & Hge)].
    + rewrite Hn. simpl. repeat split; try done. by exists (ticks w).
    + rewrite Ht. simpl. destruct (t =? 0)%Z eqn:Hz; simpl.
      * repeat split; try done. by exists (ticks w).
      * assert ((clock w (ticks w) - t <? noRepeatPromptThreshold)%Z = false) as -> by lia.
        simpl. repeat split; try done. exists (S (ticks w)). repeat split; try done; lia.
Qed.

(** A stored time stamp of zero is falsy, so it counts as "never shown"
    whatever the clock reads. *)
Lemma devtools_zero_timestamp (w : World) :
  devToolsNotificationDoNotShow (context w) = false ->
  (devToolsNotificationsShown (context w) < 10)%Z ->
  devToolsNotificationLastShown (context w) = Some 0%Z ->
  awaits (snd (showDevToolsNotificationIfAppropriate imp w)) (devToolsNotification imp).
Proof.
  intros Hdns Hcnt Hlast. run. rewrite Hdns. simpl.
  assert ((10 <=? devToolsNotificationsShown (context w))%Z = false) as -> by lia.
  simpl. rewrite Hlast. done.
Qed.

(** C8.  When the notification is displayed and the three actions are
    distinct, the call returns [true] exactly when the user picks the
    action that opens DevTools, and then it has executed the
    [dart.openDevTools] command; "do not ask again" sets the opt-out flag,
    touches nothing else and returns [false]; "no thanks", or dismissing the
    message, returns [false] and changes nothing. *)
Theorem devtools_choice (w : World) (choice : JSValue) (w1 : World) :
  NoDup [openDevToolsAction imp; noThanksAction imp; doNotAskAgainAction imp] ->
  awaits (snd (showDevToolsNotificationIfAppropriate imp w)) (devToolsNotification imp) ->
  let '(w2, t) :=
    resume (snd (showDevToolsNotificationIfAppropriate imp w)) (Fulfilled choice) w1 in
  exists b : bool,
    t = Done b
    /\ (b = true <-> choice = JS.ofString (openDevToolsAction imp))
    /\ (choice = JS.ofString (openDevToolsAction imp) ->
        w2 = emit (ExecuteCommand "dart.openDevTools" []) w1)
    /\ (choice = JS.ofString (doNotAskAgainAction imp) ->
        b = false
        /\ devToolsNotificationDoNotShow (context w2) = true
        /\ devToolsNotificationsShown (context w2) = devToolsNotificationsShown (context w1)
        /\ devToolsNotificationLastShown (context w2) = devToolsNotificationLastShown (context w1)
        /\ globalState (context w2) = globalState (context w1)
        /\ log w2 = log w1 /\ files w2 = files w1)
    /\ (choice = JS.ofString (noThanksAction imp) \/ choice = Undefined ->
        b = false /\ w2 = w1).
Proof.
  intros Hnd Hshown.
  assert (openDevToolsAction imp <> doNotAskAgainAction imp
          /\ noThanksAction imp <> doNotAskAgainAction imp
          /\ openDevToolsAction imp <> noThanksAction imp) as (Hod & Hnd' & Hon).
  { rewrite !NoDup_cons, !not_elem_of_cons in Hnd. tauto. }
  clear Hnd.
  destruct (devtools_settled_or_displayed w) as [Hdone | [_ Hres]].
  { rewrite Hdone in Hshown. done. }
  rewrite Hres. unfold onChoice.
  destruct (JS.strictEqStr choice (doNotAskAgainAction imp)) eqn:Hd.
  - apply strictEqStr_true in Hd as ->. exists false. simpl.
    split_and!; try done.
    + split; [done | intros [= E]; congruence].
    + intros [= E]. congruence.
    + intros [[= E] | [=]]. congruence.
  - apply strictEqStr_false in Hd.
    destruct (JS.strictEqStr choice (openDevToolsAction imp)) eqn:Ho.
    + apply strictEqStr_true in Ho as ->. exists true.
      split_and!; try done.
      intros [[= E] | [=]]. congruence.
    + apply strictEqStr_false in Ho. exists false.
      split_and!; try done.
Qed.

Lemma throttleLe_refl (w : World) : throttleLe w w.
Proof. split; [lia | done]. Qed.

Lemma throttleLe_trans (w1 w2 w3 : World) :
  throttleLe w1 w2 -> throttleLe w2 w3 -> throttleLe w1 w3.
Proof.
  intros [Hc1 Hf1] [Hc2 Hf2]. split; [lia|].
  intros H. destruct (Hf1 H) as [H2 Hd]. destruct (Hf2 H2) as [H3 Hd'].
  split; [done | congruence].
Qed.

Lemma displayed_emit (e : Event) (w : World) :
  displayed (log (emit e w))
  = displayed (log w) ++ (if isInformationMessage e then [e] else []).
Proof.
  unfold displayed. simpl. rewrite List.filter_app. simpl.
  by destruct (isInformationMessage e).
Qed.

Lemma onChoice_throttleLe (r : Response) (w : World) :
  throttleLe w (fst (onChoice imp r w)) /\ settled (snd (onChoice imp r w)) = true.
Proof.
  destruct r as [choice|e]; simpl; [|split; [apply throttleLe_refl | done]].
  destruct (JS.strictEqStr choice (doNotAskAgainAction imp)); simpl.
  { split; [|done]. split; simpl; [lia | done]. }
  destruct (JS.strictEqStr choice (openDevToolsAction imp)); simpl.
  - split; [|done]. split; simpl; [lia|]. intros H. split; [done|].
    pose proof (displayed_emit (ExecuteCommand "dart.openDevTools" []) w) as Hd.
    simpl in Hd. by rewrite app_nil_r in Hd.
  - split; [apply throttleLe_refl | done].
Qed.

Lemma settled_taskOk {R} (P : World -> World -> Prop) (t : Task R) :
  settled t = true -> taskOk P t.
Proof. by destruct t. Qed.

(** A call moves the throttle state forward, and so will its continuation. *)
Lemma devtools_call_throttleLe (w : World) :
  throttleLe w (fst (showDevToolsNotificationIfAppropriate imp w))
  /\ taskOk throttleLe (snd (showDevToolsNotificationIfAppropriate imp w)).
Proof.
  split.
  - run.
    destruct (devToolsNotificationDoNotShow (context w)) eqn:Hd; simpl;
      [apply throttleLe_refl|].
    destruct (10 <=? devToolsNotificationsShown (context w))%Z; simpl;
      [apply throttleLe_refl|].
    destruct (devToolsNotificationLastShown (context w)) as [t|]; simpl.
    + destruct (t =? 0)%Z; simpl.
      * split; simpl; [lia | congruence].
      * destruct (_ <? _)%Z; simpl; split; simpl; try lia; congruence.
    + split; simpl; [lia | congruence].
  - destruct (devtools_settled_or_displayed w) as [-> | [Haw Hres]]; [done|].
    destruct (snd (showDevToolsNotificationIfAppropriate imp w)) as [| |on k]; try done.
    simpl. intros r w1. specialize (Hres r w1). simpl in Hres. rewrite Hres.
    destruct (onChoice_throttleLe r w1) as [Hle Hs].
    split; [done | by apply settled_taskOk].
Qed.

Lemma devToolsStep_inv (a : Action) (st : World * list (Task bool)) :
  Forall (taskOk throttleLe) (snd st) ->
  throttleLe (fst st) (fst (devToolsStep imp a st))
  /\ Forall (taskOk throttleLe) (snd (devToolsStep imp a st)).
Proof.
  destruct st as [w pool]. intros Hpool. destruct a as [|i r]; simpl.
  - destruct (devtools_call_throttleLe w) as [Hle Hok].
    destruct (showDevToolsNotificationIfAppropriate imp w) as [w' t]. simpl in *.
    split; [done|]. apply Forall_app. split; [done | by constructor].
  - destruct (pool !! i) as [t|] eqn:Hi; [|split; [apply throttleLe_refl | done]].
    pose proof (Forall_lookup_1 _ _ _ _ Hpool Hi) as Ht.
    destruct t as [b|e|on k]; simpl.
    + split; [apply throttleLe_refl|]. by rewrite list_insert_id.
    + split; [apply throttleLe_refl|]. by rewrite list_insert_id.
    + simpl in Ht. destruct (Ht r w) as [Hle Hok].
      destruct (k r w) as [w' t']. simpl in *. split; [done|].
      by apply Forall_insert.
Qed.

Lemma devToolsRun_inv (actions : list Action) (st : World * list (Task bool)) :
  Forall (taskOk throttleLe) (snd st) ->
  throttleLe (fst st) (fst (devToolsRun imp actions st))
  /\ Forall (taskOk throttleLe) (snd (devToolsRun imp actions st)).
Proof.
  revert st. induction actions as [|a actions IH]; intros st Hpool; simpl.
  - split; [apply throttleLe_refl | done].
  - destruct (devToolsStep_inv a st Hpool) as [Hle Hpool'].
    destruct (IH _ Hpool') as [Hle' Hpool''].
    split; [by eapply throttleLe_trans | done].
Qed.

(** C2.  Along any sequence of calls of
    [showDevToolsNotificationIfAppropriate] and of answers to the
    notifications they display, the count never decreases; and once the
    opt-out flag is set it stays set, no further notification is displayed,
    and a later call returns [false] at once whatever the count and the
    time stamp are. *)
Theorem devtools_throttle_monotone (w0 : World) (before after : list Action) :
  let st1 := devToolsRun imp before (w0, []) in
  let st2 := devToolsRun imp after st1 in
  (devToolsNotificationsShown (context (fst st1))
   <= devToolsNotificationsShown (context (fst st2)))%Z
  /\ (devToolsNotificationDoNotShow (context (fst st1)) = true ->
      devToolsNotificationDoNotShow (context (fst st2)) = true
      /\ displayed (log (fst st2)) = displayed (log (fst st1))
      /\ showDevToolsNotificationIfAppropriate imp (fst st2) = (fst st2, Done false)).
Proof.
  intros st1 st2.
  destruct (devToolsRun_inv before (w0, [])) as [_ Hpool]; [by constructor|].
  destruct (devToolsRun_inv after st1 Hpool) as [[Hc Hf] _].
  split; [done|]. intros H. destruct (Hf H) as [H2 Hd]. split_and!; try done.
  assert (forall w2, devToolsNotificationDoNotShow (context w2) = true ->
            showDevToolsNotificationIfAppropriate imp w2 = (w2, Done false)) as Hskip.
  { intros w2 Hw2. run. by rewrite Hw2. }
  by apply Hskip.
Qed.

End DevTools.

(** ** The trigger handlers respect every host invariant *)

Section HandlersHoare.

Context (imp : Imports) (P : World -> World -> Prop) `{!HostInvariant P}.

Ltac hoare :=
  repeat first
    [ apply (asyncSpec_ret P); done
    | apply (asyncSpec_throw P)
    | apply (asyncSpec_request P)
    | apply (asyncSpec_call P)
    | apply (asyncSpec_existsSync P)
    | apply (asyncSpec_readFileSync P)
    | apply (asyncSpec_unlinkSync P)
    | apply (asyncSpec_fire P) with (Q := fun _ => True)
    | apply (asyncSpec_await P)
    | apply (asyncSpec_bind P) with (Q := fun _ => True); [| intros ? _]
    | apply (asyncSpec_then P) with (Q := fun _ => True); [| intros ? _ | intros ?]
    | match goal with
      | |- asyncSpec _ _ (if ?b then _ else _) => destruct b
      | |- asyncSpec _ _ (match ?x with _ => _ end) => destruct x
      end ].

Lemma createDartProject_ok (p : string) (name : JSValue) :
  asyncSpec P (fun _ => True) (createDartProject p name).
Proof. unfold createDartProject, vs.commands.executeCommand. hoare. Qed.

Lemma createFlutterProject_ok (p : string) (sampleID : option string) :
  asyncSpec P (fun _ => True) (createFlutterProject p sampleID).
Proof. unfold createFlutterProject, vs.commands.executeCommand. hoare. Qed.

Lemma handleFlutterWelcome_ok (wf : WorkspaceFolder) (sampleID : option string) :
  asyncSpec P (fun _ => True) (handleFlutterWelcome imp wf sampleID).
Proof.
  unfold handleFlutterWelcome, vs.commands.executeCommand,
    vs.window.showInformationMessage.
  hoare.
Qed.

Lemma handleDartWelcome_ok (wf : WorkspaceFolder) (template : JSON) :
  asyncSpec P (fun _ => True) (handleDartWelcome imp wf template).
Proof.
  unfold handleDartWelcome, vs.commands.executeCommand,
    vs.window.showInformationMessage.
  hoare.
Qed.

Lemma handleStagehandTrigger_ok (wf : WorkspaceFolder) (triggerFilename : string) :
  asyncSpec P (fun _ => True) (handleStagehandTrigger imp wf triggerFilename).
Proof.
  unfold handleStagehandTrigger, vs.window.showErrorMessage, vs.commands.executeCommand.
  hoare; first [apply createDartProject_ok | apply handleDartWelcome_ok].
Qed.

Lemma handleFlutterCreateTrigger_ok (wf : WorkspaceFolder) :
  asyncSpec P (fun _ => True) (handleFlutterCreateTrigger imp wf).
Proof.
  unfold handleFlutterCreateTrigger.
  hoare; first [apply createFlutterProject_ok | apply handleFlutterWelcome_ok].
Qed.

End HandlersHoare.

(** ** The scaffolding trigger *)

Lemma bool_decide_is_Some {A} (o : option A) (a : A) :
  o = Some a -> bool_decide (is_Some o) = true.
Proof. intros ->. by apply bool_decide_eq_true_2. Qed.

Lemma bool_decide_is_Some_None {A} (o : option A) :
  o = None -> bool_decide (is_Some o) = false.
Proof. intros ->. apply bool_decide_eq_false_2. by intros [? ?]. Qed.

Lemma present_file (w : World) (f content : string) :
  files w !! f = Some content -> fs.present w f = true.
Proof. intros H. unfold fs.present. by rewrite (bool_decide_is_Some _ _ H). Qed.

Lemma present_obstructed (w : World) (f : string) (o : Obstruction) :
  obstructed w !! f = Some o -> fs.present w f = true.
Proof.
  intros H. unfold fs.present. rewrite (bool_decide_is_Some _ _ H). apply orb_true_r.
Qed.

Lemma present_false (w : World) (f : string) :
  fs.present w f = false <-> files w !! f = None /\ obstructed w !! f = None.
Proof.
  unfold fs.present. rewrite orb_false_iff, !bool_decide_eq_false.
  rewrite <- !eq_None_not_Some. done.
Qed.

Lemma present_entry (w : World) (f : string) :
  fs.present w f = false <-> entry w f = None.
Proof.
  rewrite present_false. unfold entry.
  destruct (files w !! f), (obstructed w !! f); simpl; intuition congruence.
Qed.

Section Stagehand.

Variable imp : Imports.

Ltac run :=
  unfold handleStagehandTrigger, handleDartWelcome, createDartProject,
    handleFlutterCreateTrigger, createFlutterProject, handleFlutterWelcome,
    bind, then_, await, fire, fs.existsSync, fs.readFileSync, fs.unlinkSync,
    vs.window.showErrorMessage, vs.window.showInformationMessage,
    vs.commands.executeCommand, request; simpl.

(** C4.  On a scaffolding marker whose trimmed content [JSON.parse]
    rejects, the handler shows the error message and stops there: the
    marker file is still in place with its content, no command has been
    executed, and the promise of the handler is settled. *)
Theorem stagehand_parse_failure (wf : WorkspaceFolder) (triggerFilename : string)
  (w : World) (content : string) (err : JSError) :
  let triggerFile := path.join [fsPath (uri wf); triggerFilename] in
  files w !! triggerFile = Some content ->
  JSON_parse imp (JSString.trim content) = inl err ->
  let '(w', t) := handleStagehandTrigger imp wf triggerFilename w in
  t = Done tt
  /\ log w' = log w ++ [ExistsSync triggerFile; ReadFileSync triggerFile;
                        ShowErrorMessage
                          (JS.ofString "Failed to run Stagehand to create project")]
  /\ files w' = files w
  /\ files w' !! triggerFile = Some content
  /\ context w' = context w.
Proof.
  intros triggerFile Hfile Hparse. run. fold triggerFile.
  rewrite (present_file _ _ _ Hfile). simpl. rewrite Hfile. simpl.
  rewrite Hparse. simpl. rewrite <- !app_assoc. done.
Qed.

(** The welcome step, for a template whose [entrypoint] is a string. *)
Lemma handleDartWelcome_run (wf : WorkspaceFolder) (template : JSON)
  (entrypoint : string) (label : JSValue) (w : World) :
  JS.getProperty template "entrypoint" = inr (JS.ofString entrypoint) ->
  JS.getProperty template "label" = inr label ->
  let workspacePath := fsPath (uri wf) in
  let entryFile :=
    path.join [workspacePath;
               JSString.replace "__projectName__" (path.basename workspacePath) entrypoint] in
  let '(w', t) := handleDartWelcome imp wf template w in
  t = Done tt
  /\ log w' = log w ++ ExistsSync entryFile
               :: (if fs.present w entryFile
                   then [ExecuteCommand "vscode.open" [UriVal (vs.Uri.file entryFile)]]
                   else [])
               ++ [ShowInformationMessage
                    (JS.toString (Number_toString imp) label +:+ " project ready!") []]
  /\ files w' = files w
  /\ context w' = context w.
Proof.
  intros Hentry Hlabel workspacePath entryFile.
  unfold handleDartWelcome, entrypointFor. rewrite Hentry. simpl.
  fold workspacePath. fold entryFile. run.
  destruct (fs.present w entryFile); simpl;
    rewrite Hlabel; simpl; rewrite <- ?app_assoc; done.
Qed.

(** The synchronous part on a marker that parses, and the two suspensions
    that follow it. *)
Lemma stagehand_parsed (wf : WorkspaceFolder) (triggerFilename : string)
  (w : World) (content : string) (template : JSON) (name : JSValue) :
  let triggerFile := path.join [fsPath (uri wf); triggerFilename] in
  let create := ExecuteCommand "_dart.create" [JS.ofString (fsPath (uri wf)); name] in
  let getPackages := ExecuteCommand "dart.getPackages" [UriVal (uri wf)] in
  files w !! triggerFile = Some content ->
  JSON_parse imp (JSString.trim content) = inr template ->
  JS.getProperty template "name" = inr name ->
  let '(w', t) := handleStagehandTrigger imp wf triggerFilename w in
  log w' = log w ++ [ExistsSync triggerFile; ReadFileSync triggerFile;
                     UnlinkSync triggerFile; create]
  /\ files w' = delete triggerFile (files w)
  /\ context w' = context w
  /\ awaits t create
  /\ (forall e w1, resume t (Rejected e) w1 = (w1, Failed e))
  /\ (forall code w1,
        JS.strictEqNum code 0 = false -> resume t (Fulfilled code) w1 = (w1, Done tt))
  /\ (forall code w1,
        JS.strictEqNum code 0 = true ->
        let '(w2, t2) := resume t (Fulfilled code) w1 in
        w2 = emit getPackages w1
        /\ awaits t2 getPackages
        /\ (forall e w3, resume t2 (Rejected e) w3 = (w3, Failed e))
        /\ (forall v w3, resume t2 (Fulfilled v) w3 = handleDartWelcome imp wf template w3)).
Proof.
  intros triggerFile create getPackages Hfile Hparse Hname. run. fold triggerFile.
  rewrite (present_file _ _ _ Hfile). simpl. rewrite Hfile. simpl.
  rewrite Hparse. simpl. rewrite Hfile. simpl. rewrite Hname. simpl.
  rewrite <- !app_assoc. split_and!; try done.
  - intros code w1 Hcode. by rewrite Hcode.
  - intros code w1 Hcode. rewrite Hcode. simpl. by split_and!.
Qed.

Lemma getSubstitution_plain (matched before after replacement : string) :
  JSString.contains "$" replacement = false ->
  JSString.getSubstitution matched before after replacement = replacement.
Proof.
  induction replacement as [|c r IH]; [done|].
  destruct c as [[] [] [] [] [] [] [] []]; simpl; try discriminate;
    intros H; f_equal; by apply IH.
Qed.

Lemma replace_plain (pat replacement s : string) :
  JSString.contains "$" replacement = false ->
  JSString.replace pat replacement s = substituteFirst pat replacement s.
Proof.
  intros H. unfold JSString.replace, substituteFirst.
  destruct (JSString.find pat s) as [[before after]|]; [|done].
  by rewrite getSubstitution_plain.
Qed.

(** A marker that parses as a descriptor, in a folder whose base name has
    no dollar sign: the marker is deleted, the create command gets the
    folder and the template's name, and only its zero result code leads to
    package resolution and to the welcome step on the entry file. *)
Theorem stagehand_descriptor_handled (wf : WorkspaceFolder) (triggerFilename : string)
  (w : World) (content : string) (template : JSON) (label name entrypoint : string) :
  let workspacePath := fsPath (uri wf) in
  let triggerFile := path.join [workspacePath; triggerFilename] in
  let entryFile :=
    path.join [workspacePath;
               substituteFirst "__projectName__" (path.basename workspacePath) entrypoint] in
  let create := ExecuteCommand "_dart.create" [JS.ofString workspacePath; JS.ofString name] in
  let getPackages := ExecuteCommand "dart.getPackages" [UriVal (uri wf)] in
  files w !! triggerFile = Some content ->
  JSON_parse imp (JSString.trim content) = inr template ->
  describes template label name entrypoint ->
  JSString.contains "$" (path.basename workspacePath) = false ->
  let '(w', t) := handleStagehandTrigger imp wf triggerFilename w in
  log w' = log w ++ [ExistsSync triggerFile; ReadFileSync triggerFile;
                     UnlinkSync triggerFile; create]
  /\ files w' = delete triggerFile (files w)
  /\ awaits t create
  /\ (forall code w1,
        JS.strictEqNum code 0 = false -> resume t (Fulfilled code) w1 = (w1, Done tt))
  /\ (forall code w1 v w3,
        JS.strictEqNum code 0 = true ->
        let '(w2, t2) := resume t (Fulfilled code) w1 in
        w2 = emit getPackages w1
        /\ awaits t2 getPackages
        /\ let '(w4, t4) := resume t2 (Fulfilled v) w3 in
           t4 = Done tt
           /\ log w4 = log w3 ++ ExistsSync entryFile
                        :: (if fs.present w3 entryFile
                            then [ExecuteCommand "vscode.open"
                                    [UriVal (vs.Uri.file entryFile)]]
                            else [])
                        ++ [ShowInformationMessage (label +:+ " project ready!") []]).
Proof.
  intros workspacePath triggerFile entryFile create getPackages
    Hfile Hparse (Hlabel & Hname & Hentry) Hplain.
  pose proof (stagehand_parsed wf triggerFilename w content template _
                Hfile Hparse Hname) as H.
  destruct (handleStagehandTrigger imp wf triggerFilename w) as [w' t].
  destruct H as (Hlog & Hfiles & _ & Haw & _ & Hfail & Hok).
  split_and!; try done.
  intros code w1 v w3 Hcode. specialize (Hok code w1 Hcode).
  destruct (resume t (Fulfilled code) w1) as [w2 t2].
  destruct Hok as (Hw2 & Haw2 & _ & Hwelcome). split_and!; try done.
  rewrite Hwelcome.
  pose proof (handleDartWelcome_run wf template entrypoint _ w3 Hentry Hlabel) as Hrun.
  destruct (handleDartWelcome imp wf template w3) as [w4 t4].
  destruct Hrun as (Ht4 & Hlog4 & _). split; [done|].
  rewrite Hlog4. unfold entryFile, workspacePath. by rewrite replace_plain.
Qed.

End Stagehand.

(** ** The framework-specific trigger *)

Lemma trimStart_allWhiteSpace (s : string) :
  allWhiteSpace s = true -> JSString.trimStart s = EmptyString.
Proof.
  induction s as [|c s IH]; simpl; [done|].
  intros [Hc Hs]%andb_true_iff. rewrite Hc. by apply IH.
Qed.

Lemma trim_allWhiteSpace (s : string) :
  allWhiteSpace s = true -> JSString.trim s = EmptyString.
Proof. intros H. unfold JSString.trim. by rewrite trimStart_allWhiteSpace. Qed.

Lemma trimStart_lead (lead s : string) :
  allWhiteSpace lead = true -> JSString.trimStart (lead +:+ s) = JSString.trimStart s.
Proof.
  induction lead as [|c lead IH]; simpl; [done|].
  intros [Hc Hlead]%andb_true_iff. rewrite Hc. by apply IH.
Qed.

Lemma trimStart_black (s : string) :
  startsBlack s = true -> JSString.trimStart s = s.
Proof. destruct s as [|c s]; simpl; [done|]. by intros ->%negb_true_iff. Qed.

Lemma trimEnd_allWhiteSpace (s : string) :
  allWhiteSpace s = true -> JSString.trimEnd s = EmptyString.
Proof.
  induction s as [|c s IH]; simpl; [done|].
  intros [Hc Hs]%andb_true_iff. by rewrite (IH Hs), Hc.
Qed.

Lemma trimEnd_cons (c : ascii) (s : string) :
  JSString.trimEnd (String c s)
  = match JSString.trimEnd s with
    | EmptyString =>
        if JSString.isWhiteSpace c then EmptyString else String c EmptyString
    | r => String c r
    end.
Proof. reflexivity. Qed.

Lemma trimEnd_trail (s trail : string) :
  endsBlack s = true -> allWhiteSpace trail = true ->
  JSString.trimEnd (s +:+ trail) = s.
Proof.
  intros Hs Htrail. induction s as [|c s IH].
  - by apply trimEnd_allWhiteSpace.
  - change (String c s +:+ trail) with (String c (s +:+ trail)).
    rewrite trimEnd_cons. destruct s as [|c' s].
    + change (EmptyString +:+ trail) with trail.
      rewrite (trimEnd_allWhiteSpace _ Htrail).
      change (negb (JSString.isWhiteSpace c) = true) in Hs.
      by apply negb_true_iff in Hs as ->.
    + by rewrite (IH Hs).
Qed.

(** [String.prototype.trim] removes the white space at the two ends, and
    nothing else. *)
Lemma trim_trimmedTo (content s : string) :
  trimmedTo content s -> JSString.trim content = s.
Proof.
  intros (lead & trail & -> & Hlead & Htrail & Hstart & Hend).
  unfold JSString.trim. rewrite (trimStart_lead _ _ Hlead).
  destruct s as [|c s].
  - change (EmptyString +:+ trail) with trail.
    by rewrite (trimStart_allWhiteSpace _ Htrail).
  - rewrite trimStart_black; [by apply trimEnd_trail | exact Hstart].
Qed.

Section FlutterCreate.

Variable imp : Imports.

Ltac run :=
  unfold handleStagehandTrigger, handleDartWelcome, createDartProject,
    handleFlutterCreateTrigger, createFlutterProject, handleFlutterWelcome,
    bind, then_, await, fire, fs.existsSync, fs.readFileSync, fs.unlinkSync,
    vs.window.showErrorMessage, vs.window.showInformationMessage,
    vs.commands.executeCommand, request; simpl.

Lemma strictEqNum_zero (code : JSValue) :
  JS.strictEqNum code 0 = true <-> code = Val (JNum 0).
Proof.
  destruct code as [|[| |n| | | |]|]; simpl; try (split; [done | intros [=]]).
  rewrite Z.eqb_eq. split; [by intros -> | by intros [= ->]].
Qed.

(** What the handler does on a marker that can be read and deleted, whose
    content without the white space at its ends is [sampleID]. *)
Lemma handleFlutterCreateTrigger_run (wf : WorkspaceFolder) (w : World)
  (content sampleID : string) :
  let triggerFile := flutterTriggerFile imp wf in
  let entryFile := path.join [fsPath (uri wf); "lib/main.dart"] in
  let absent := String.eqb sampleID "" in
  let create :=
    ExecuteCommand "_flutter.create"
      (JS.ofString (fsPath (uri wf))
         :: (if absent then [Undefined; Undefined]
             else [JS.ofString "sample"; JS.ofString sampleID])) in
  let ready :=
    if absent
    then "Your Flutter project is ready! Connect a device and press F5 to start running."
    else sampleID +:+ " sample ready! Connect a device and press F5 to run." in
  readAt w triggerFile = Some (inr content) ->
  unlinkErrorAt w triggerFile = None ->
  trimmedTo content sampleID ->
  let '(w', t) := handleFlutterCreateTrigger imp wf w in
  log w' = log w ++ [ExistsSync triggerFile; ReadFileSync triggerFile;
                     UnlinkSync triggerFile; create]
  /\ fs.present w' triggerFile = false
  /\ files w' = delete triggerFile (files w)
  /\ context w' = context w
  /\ awaits t create
  /\ (forall e w1, resume t (Rejected e) w1 = (w1, Failed e))
  /\ (forall code w1,
        code <> Val (JNum 0) -> resume t (Fulfilled code) w1 = (w1, Done tt))
  /\ (forall w1,
        let '(w2, t2) := resume t (Fulfilled (Val (JNum 0))) w1 in
        t2 = Done tt
        /\ log w2 = log w1 ++ ExistsSync entryFile
                     :: (if fs.present w1 entryFile
                         then [ExecuteCommand "vscode.open"
                                 [UriVal (vs.Uri.file entryFile)]]
                         else [])
                     ++ [ShowInformationMessage ready []]).
Proof.
  intros triggerFile entryFile absent create ready Hread Hunlink Htrim.
  apply trim_trimmedTo in Htrim.
  assert (forall code, code <> Val (JNum 0) -> JS.strictEqNum code 0 = false) as Hne.
  { intros code Hcode. destruct (JS.strictEqNum code 0) eqn:E; [|done].
    by apply strictEqNum_zero in E. }
  unfold readAt, unlinkErrorAt, entry in Hread, Hunlink.
  unfold flutterTriggerFile in triggerFile.
  run. fold triggerFile. fold triggerFile in Hread, Hunlink.
  destruct (files w !! triggerFile) as [c|] eqn:Hfile.
  - injection Hread as ->. rewrite (present_file _ _ _ Hfile). simpl.
    rewrite Hfile. simpl. rewrite Hfile. simpl.
    rewrite Htrim. subst absent create ready.
    destruct (sampleID =? "")%string eqn:Habs; simpl;
      rewrite ?Habs; simpl; rewrite <- !app_assoc; split_and!; try done;
      try (apply present_false; simpl; by rewrite !lookup_delete_eq);
      try (intros code w1 Hcode; by rewrite (Hne code Hcode));
      (intros w1; simpl; fold entryFile;
       destruct (fs.present w1 entryFile); simpl; rewrite <- ?app_assoc; done).
  - destruct (obstructed w !! triggerFile) as [o|] eqn:Hobs; [|done].
    simpl in Hread, Hunlink. injection Hread as Hread.
    rewrite (present_obstructed _ _ _ Hobs). simpl.
    rewrite Hfile, Hobs, Hread. simpl. rewrite Hfile, Hobs, Hunlink. simpl.
    rewrite Htrim. subst absent create ready.
    destruct (sampleID =? "")%string eqn:Habs; simpl;
      rewrite ?Habs; simpl; rewrite <- !app_assoc; split_and!; try done;
      try (apply present_false; simpl; by rewrite !lookup_delete_eq);
      try (intros code w1 Hcode; by rewrite (Hne code Hcode));
      (intros w1; simpl; fold entryFile;
       destruct (fs.present w1 entryFile); simpl; rewrite <- ?app_assoc; done).
Qed.

(** What it does on a marker that cannot be read, or cannot be deleted: it
    throws, before any create command. *)
Lemma handleFlutterCreateTrigger_unreadable (wf : WorkspaceFolder) (w : World)
  (e : JSError) :
  let triggerFile := flutterTriggerFile imp wf in
  readAt w triggerFile = Some (inl e) ->
  handleFlutterCreateTrigger imp wf w
  = (emit (ReadFileSync triggerFile) (emit (ExistsSync triggerFile) w), Failed e).
Proof.
  intros triggerFile Hread. unfold readAt, entry in Hread.
  unfold flutterTriggerFile in triggerFile. run. fold triggerFile.
  fold triggerFile in Hread.
  destruct (files w !! triggerFile) as [c|] eqn:Hfile; [done|].
  destruct (obstructed w !! triggerFile) as [o|] eqn:Hobs; [|done].
  simpl in Hread. injection Hread as Hread.
  rewrite (present_obstructed _ _ _ Hobs). simpl. by rewrite Hfile, Hobs, Hread.
Qed.

Lemma handleFlutterCreateTrigger_undeletable (wf : WorkspaceFolder) (w : World)
  (content : string) (e : JSError) :
  let triggerFile := flutterTriggerFile imp wf in
  readAt w triggerFile = Some (inr content) ->
  unlinkErrorAt w triggerFile = Some e ->
  handleFlutterCreateTrigger imp wf w
  = (emit (UnlinkSync triggerFile)
       (emit (ReadFileSync triggerFile) (emit (ExistsSync triggerFile) w)), Failed e).
Proof.
  intros triggerFile Hread Hunlink. unfold readAt, unlinkErrorAt, entry in Hread, Hunlink.
  unfold flutterTriggerFile in triggerFile. run. fold triggerFile.
  fold triggerFile in Hread, Hunlink.
  destruct (files w !! triggerFile) as [c|] eqn:Hfile; [done|].
  destruct (obstructed w !! triggerFile) as [o|] eqn:Hobs; [|done].
  simpl in Hread, Hunlink. injection Hread as Hread.
  rewrite (present_obstructed _ _ _ Hobs). simpl. rewrite Hfile, Hobs, Hread. simpl.
  by rewrite Hfile, Hobs, Hunlink.
Qed.

(** C6, as amended.  On a framework-specific marker that can be read and
    deleted, the handler takes the content without the white space at its
    two ends as the sample identifier, and an empty result (so a content of
    white space only) as no identifier.  It deletes the marker and then
    executes [_flutter.create] with the folder path, and with the project
    name [sample] and the identifier exactly when there is an identifier,
    with [undefined] twice when there is none.  On the result code zero it
    shows the message that names the identifier, or the generic one when
    there is none; on any other result it does nothing more.  On a marker
    that cannot be read, or cannot be deleted, it throws the error of the
    file system and executes nothing. *)
Theorem flutter_create_trigger (wf : WorkspaceFolder) (w : World) :
  let triggerFile := flutterTriggerFile imp wf in
  let entryFile := path.join [fsPath (uri wf); "lib/main.dart"] in
  (* a marker that can be read and deleted *)
  (forall content sampleID,
      readAt w triggerFile = Some (inr content) ->
      unlinkErrorAt w triggerFile = None ->
      trimmedTo content sampleID ->
      let absent := String.eqb sampleID "" in
      let create :=
        ExecuteCommand "_flutter.create"
          (JS.ofString (fsPath (uri wf))
             :: (if absent then [Undefined; Undefined]
                 else [JS.ofString "sample"; JS.ofString sampleID])) in
      let ready :=
        if absent
        then "Your Flutter project is ready! Connect a device and press F5 to start running."
        else sampleID +:+ " sample ready! Connect a device and press F5 to run." in
      (allWhiteSpace content = true -> absent = true)
      /\ let '(w', t) := handleFlutterCreateTrigger imp wf w in
         log w' = log w ++ [ExistsSync triggerFile; ReadFileSync triggerFile;
                            UnlinkSync triggerFile; create]
         /\ fs.present w' triggerFile = false
         /\ files w' = delete triggerFile (files w)
         /\ context w' = context w
         /\ awaits t create
         /\ (forall code w1,
               code <> Val (JNum 0) -> resume t (Fulfilled code) w1 = (w1, Done tt))
         /\ (forall w1,
               let '(w2, t2) := resume t (Fulfilled (Val (JNum 0))) w1 in
               t2 = Done tt
               /\ log w2 = log w1 ++ ExistsSync entryFile
                            :: (if fs.present w1 entryFile
                                then [ExecuteCommand "vscode.open"
                                        [UriVal (vs.Uri.file entryFile)]]
                                else [])
                            ++ [ShowInformationMessage ready []]))
  (* a marker that cannot be read *)
  /\ (forall e,
        readAt w triggerFile = Some (inl e) ->
        handleFlutterCreateTrigger imp wf w
        = (emit (ReadFileSync triggerFile) (emit (ExistsSync triggerFile) w), Failed e))
  (* a marker that cannot be deleted *)
  /\ (forall content e,
        readAt w triggerFile = Some (inr content) ->
        unlinkErrorAt w triggerFile = Some e ->
        handleFlutterCreateTrigger imp wf w
        = (emit (UnlinkSync triggerFile)
             (emit (ReadFileSync triggerFile) (emit (ExistsSync triggerFile) w)),
           Failed e)).
Proof.
  intros triggerFile entryFile. split_and!.
  - intros content sampleID Hread Hunlink Htrim absent create ready. split.
    + intros Hws. unfold absent. apply trim_trimmedTo in Htrim.
      rewrite <- Htrim, (trim_allWhiteSpace _ Hws). done.
    + pose proof (handleFlutterCreateTrigger_run wf w content sampleID
                    Hread Hunlink Htrim) as H.
      destruct (handleFlutterCreateTrigger imp wf w) as [w' t].
      destruct H as (Hlog & Hgone & Hfiles & Hctx & Haw & _ & Hfail & Hok).
      by split_and!.
  - apply handleFlutterCreateTrigger_unreadable.
  - apply handleFlutterCreateTrigger_undeletable.
Qed.

(** C6 as the claim words it fails: the marker of [/proj] cannot be deleted,
    so the handler throws and the create command is never executed. *)
Lemma marker_not_always_created :
  ~ createdFromMarker stubImports (folder "/proj") lockedMarker.
Proof.
  intros H. unfold createdFromMarker in H.
  specialize (H ltac:(vm_compute; reflexivity)). vm_compute in H.
  destruct H as [H _]. discriminate H.
Qed.

End FlutterCreate.

(** ** The folder name as a replacement pattern *)

(** C5.  The create command succeeds in [/work/cash$$] and the scaffolding
    tool has made the entry file of the template, [bin/cash$$.dart].  The
    welcome step looks for [bin/cash$.dart] instead and opens nothing: the
    base name went into [replace] as a replacement pattern, where [$$] stands
    for one dollar sign. *)
Theorem stagehand_dollar_in_folder_name :
  let wf := folder "/work/cash$$" in
  let '(w1, t1) := handleStagehandTrigger stubImports wf "dart.sh.create" cashFolder in
  let created := writeFile "/work/cash$$/bin/cash$$.dart" "void main() {}" w1 in
  let '(w2, t2) := resume t1 (Fulfilled (Val (JNum 0))) created in
  let '(w3, t3) := resume t2 (Fulfilled Undefined) w2 in
  describes consoleApp "Console App" "x" "bin/__projectName__.dart"
  /\ path.basename (fsPath (uri wf)) = "cash$$"
  /\ substituteFirst "__projectName__" "cash$$" "bin/__projectName__.dart" = "bin/cash$$.dart"
  /\ files w3 !! "/work/cash$$/bin/cash$$.dart" = Some "void main() {}"
  /\ t3 = Done tt
  /\ log w3 = [ExistsSync "/work/cash$$/dart.sh.create";
               ReadFileSync "/work/cash$$/dart.sh.create";
               UnlinkSync "/work/cash$$/dart.sh.create";
               ExecuteCommand "_dart.create" [JS.ofString "/work/cash$$"; JS.ofString "x"];
               ExecuteCommand "dart.getPackages" [UriVal (vs.Uri.file "/work/cash$$")];
               ExistsSync "/work/cash$$/bin/cash$.dart";
               ShowInformationMessage "Console App project ready!" []].
Proof. vm_compute. by split_and!. Qed.

(** ** The pass over the workspace folders *)

#[local] Instance noNewObstruction_invariant : HostInvariant noNewObstruction.
Proof.
  split; unfold noNewObstruction; simpl; try done.
  - intros w1 w2 w3 H1 H2. by etrans.
  - intros _ f w. apply delete_subseteq.
Qed.

Section NewProjects.

Variable imp : Imports.

Ltac run :=
  unfold handleStagehandTrigger, handleDartWelcome, createDartProject,
    handleFlutterCreateTrigger, createFlutterProject, handleFlutterWelcome,
    bind, then_, await, fire, fs.existsSync, fs.readFileSync, fs.unlinkSync,
    vs.window.showErrorMessage, vs.window.showInformationMessage,
    vs.commands.executeCommand, request; simpl.

(* Rewrite with what is known of the file system. *)
Ltac look :=
  repeat (simpl;
          match goal with
          | H : files ?w !! ?f = _ |- context [files ?w !! ?f] => rewrite H
          | H : obstructed ?w !! ?f = _ |- context [obstructed ?w !! ?f] => rewrite H
          | H : onRead ?o = _ |- context [onRead ?o] => rewrite H
          | H : onUnlink ?o = _ |- context [onUnlink ?o] => rewrite H
          end); simpl.

Lemma handleStagehandTrigger_sync (wf : WorkspaceFolder) (triggerFilename : string)
  (w : World) :
  let '(w', t) := handleStagehandTrigger imp wf triggerFilename w in
  syncStep (path.join [fsPath (uri wf); triggerFilename]) w w' t.
Proof.
  pose (f := path.join [fsPath (uri wf); triggerFilename]). run. fold f.
  destruct (fs.present w f) eqn:Hp; simpl; [|exists []; by split_and!].
  destruct (files w !! f) as [content|] eqn:Hfile.
  - look. destruct (JSON_parse imp (JSString.trim content)) as [e|template]; simpl.
    + eexists [ReadFileSync f; ShowErrorMessage _].
      simpl. rewrite <- !app_assoc. by split_and!.
    + look. destruct (JS.getProperty template "name") as [e|name]; simpl.
      * exists [ReadFileSync f; UnlinkSync f]. simpl. rewrite <- !app_assoc. by split_and!.
      * exists [ReadFileSync f; UnlinkSync f;
                ExecuteCommand "_dart.create" [JS.ofString (fsPath (uri wf)); name]].
        simpl. rewrite <- !app_assoc. split_and!; try done. simpl. eauto.
  - destruct (obstructed w !! f) as [o|] eqn:Hobs.
    + destruct (onRead o) as [e|content] eqn:Hread.
      * look. exists [ReadFileSync f]. simpl. rewrite <- !app_assoc. by split_and!.
      * look. destruct (JSON_parse imp (JSString.trim content)) as [e|template]; simpl.
        -- eexists [ReadFileSync f; ShowErrorMessage _].
           simpl. rewrite <- !app_assoc. by split_and!.
        -- destruct (onUnlink o) as [e|] eqn:Hunlink.
           ++ look. exists [ReadFileSync f; UnlinkSync f].
              simpl. rewrite <- !app_assoc. by split_and!.
           ++ look. destruct (JS.getProperty template "name") as [e|name]; simpl.
              ** exists [ReadFileSync f; UnlinkSync f].
                 simpl. rewrite <- !app_assoc. by split_and!.
              ** exists [ReadFileSync f; UnlinkSync f;
                         ExecuteCommand "_dart.create" [JS.ofString (fsPath (uri wf)); name]].
                 simpl. rewrite <- !app_assoc. split_and!; try done. simpl. eauto.
    + look. exists [ReadFileSync f]. simpl. rewrite <- !app_assoc. by split_and!.
Qed.

(** The same for the plain function; and when it throws, its marker is still
    there. *)
Lemma handleFlutterCreateTrigger_sync (wf : WorkspaceFolder) (w : World) :
  let '(w', t) := handleFlutterCreateTrigger imp wf w in
  syncStep (flutterTriggerFile imp wf) w w' t
  /\ forall e, t = Failed e -> fs.present w' (flutterTriggerFile imp wf) = true.
Proof.
  unfold flutterTriggerFile.
  pose (f := path.join [fsPath (uri wf); FLUTTER_CREATE_PROJECT_TRIGGER_FILE imp]).
  run. fold f.
  destruct (fs.present w f) eqn:Hp; simpl; [|split; [exists []; by split_and! | done]].
  destruct (files w !! f) as [content|] eqn:Hfile.
  - look. split; [|done].
    eexists [ReadFileSync f; UnlinkSync f; ExecuteCommand "_flutter.create" _].
    simpl. rewrite <- !app_assoc. split_and!; try done. simpl. eauto.
  - destruct (obstructed w !! f) as [o|] eqn:Hobs.
    + destruct (onRead o) as [e|content] eqn:Hread.
      * look. split; [|done].
        exists [ReadFileSync f]. simpl. rewrite <- !app_assoc. by split_and!.
      * destruct (onUnlink o) as [e|] eqn:Hunlink.
        -- look. split; [|done].
           exists [ReadFileSync f; UnlinkSync f].
           simpl. rewrite <- !app_assoc. by split_and!.
        -- look. split; [|done].
           eexists [ReadFileSync f; UnlinkSync f; ExecuteCommand "_flutter.create" _].
           simpl. rewrite <- !app_assoc. split_and!; try done. simpl. eauto.
    + look. split; [|done].
      exists [ReadFileSync f]. simpl. rewrite <- !app_assoc. by split_and!.
Qed.


Lemma passOver_nil (st : World * Pool) : passOver imp [] st (st, None).
Proof. exists [], [], []. rewrite !app_nil_r. by split_and!. Qed.

Lemma passOver_app (l1 l2 : list WorkspaceFolder) (st1 st2 : World * Pool)
  (result : World * Pool * option JSError) :
  passOver imp l1 st1 (st2, None) -> passOver imp l2 st2 result ->
  passOver imp (l1 ++ l2) st1 result.
Proof.
  destruct result as [st3 thrown].
  intros (ch1 & ev1 & ts1 & Hl1 & Hc1 & Hb1 & Hp1 & Hs1 & Hx1 & Hw1 & -> & Hn1)
         (ch2 & ev2 & ts2 & Hl2 & Hc2 & Hb2 & Hp2 & Hs2 & Hx2 & Hw2 & Hr2).
  exists (l1 ++ ch2), (ev1 ++ ev2), (ts1 ++ ts2). split_and!.
  - by rewrite Hl2, Hl1, app_assoc.
  - by rewrite List.filter_app, flat_map_app, Hc1, Hc2.
  - by rewrite forallb_app, Hb1, Hb2.
  - by rewrite Hp2, Hp1, app_assoc.
  - by apply Forall_app.
  - congruence.
  - congruence.
  - destruct thrown as [e|]; simpl in *.
    + destruct Hr2 as (before & wf & after & -> & -> & Hn2 & Hpresent).
      exists (l1 ++ before), wf, after. rewrite <- !app_assoc. split_and!; try done.
      rewrite !length_app. lia.
    + destruct Hr2 as [-> Hn2]. split; [done|]. rewrite !length_app. lia.
Qed.

Lemma passOver_abort (l1 l2 : list WorkspaceFolder) (st1 st2 : World * Pool)
  (e : JSError) :
  passOver imp l1 st1 (st2, Some e) -> passOver imp (l1 ++ l2) st1 (st2, Some e).
Proof.
  intros (ch & ev & ts & Hl & Hc & Hb & Hp & Hs & Hx & Hw & Hr).
  exists ch, ev, ts. split_and!; try done. simpl in *.
  destruct Hr as (before & wf & after & -> & -> & Hn & Hpresent).
  exists before, wf, (after ++ l2). rewrite <- !app_assoc. by split_and!.
Qed.

Lemma handleFolder_sync (wf : WorkspaceFolder) (st : World * Pool) :
  passOver imp [wf] st (handleFolder imp wf st).
Proof.
  destruct st as [w pool]. unfold handleFolder, spawn.
  pose proof (handleStagehandTrigger_sync wf (DART_STAGEHAND_PROJECT_TRIGGER_FILE imp) w)
    as H1.
  destruct (handleStagehandTrigger imp wf (DART_STAGEHAND_PROJECT_TRIGGER_FILE imp) w)
    as [w1 t1].
  pose proof (handleStagehandTrigger_sync wf (FLUTTER_STAGEHAND_PROJECT_TRIGGER_FILE imp) w1)
    as H2.
  destruct (handleStagehandTrigger imp wf (FLUTTER_STAGEHAND_PROJECT_TRIGGER_FILE imp) w1)
    as [w2 t2].
  pose proof (handleFlutterCreateTrigger_sync wf w2) as H3.
  destruct (handleFlutterCreateTrigger imp wf w2) as [w3 t3].
  destruct H1 as (ev1 & Hl1 & Hb1 & Hc1 & Hs1 & Hx1 & Hw1).
  destruct H2 as (ev2 & Hl2 & Hb2 & Hc2 & Hs2 & Hx2 & Hw2).
  destruct H3 as [(ev3 & Hl3 & Hb3 & Hc3 & Hs3 & Hx3 & Hw3) Hthrown].
  pose (events :=
          ExistsSync (path.join [fsPath (uri wf); DART_STAGEHAND_PROJECT_TRIGGER_FILE imp])
            :: ev1
            ++ ExistsSync (path.join [fsPath (uri wf);
                                      FLUTTER_STAGEHAND_PROJECT_TRIGGER_FILE imp])
            :: ev2 ++ ExistsSync (flutterTriggerFile imp wf) :: ev3).
  assert (log w3 = log w ++ events) as Hlog.
  { rewrite Hl3, Hl2, Hl1. unfold events. by repeat (rewrite <- ?app_assoc; simpl). }
  assert (List.filter isExistsSync events = flat_map (markerChecks imp) [wf]) as Hchecks.
  { unfold events. simpl. rewrite !List.filter_app. simpl. rewrite !List.filter_app. simpl.
    by rewrite Hc1, Hc2, Hc3. }
  assert (forallb beforeCreate events = true) as Hbefore.
  { unfold events. simpl. rewrite !forallb_app. simpl. rewrite !forallb_app. simpl.
    by rewrite Hb1, Hb2, Hb3. }
  clearbody events.
  destruct t3 as [[]|e|on k].
  - exists [wf], events, [t1; t2; Done tt]. simpl. split_and!; try done.
    + by rewrite <- !app_assoc.
    + by repeat constructor.
    + congruence.
    + congruence.
  - exists [wf], events, [t1; t2]. simpl. split_and!; try done.
    + by rewrite <- !app_assoc.
    + by repeat constructor.
    + congruence.
    + congruence.
    + exists [], wf, []. split_and!; try done. by apply (Hthrown e).
  - exists [wf], events, [t1; t2; Await on k]. simpl. split_and!; try done.
    + by rewrite <- !app_assoc.
    + by repeat constructor.
    + congruence.
    + congruence.
Qed.

Lemma forEach_sync (folders : list WorkspaceFolder) (st : World * Pool) :
  passOver imp folders st (forEach imp folders st).
Proof.
  revert st. induction folders as [|wf folders IH]; intros st; simpl.
  - apply passOver_nil.
  - pose proof (handleFolder_sync wf st) as H.
    destruct (handleFolder imp wf st) as [st' [e|]].
    + apply (passOver_abort [wf] folders). exact H.
    + apply (passOver_app [wf] folders _ st'); [exact H | apply IH].
Qed.

(** What the three handlers of a folder do to the world, for any host
    invariant; the promises they leave respect it too. *)
Lemma handleFolder_ok (P : World -> World -> Prop) `{!HostInvariant P}
  (wf : WorkspaceFolder) (st : World * Pool) :
  Forall (taskOk P) (snd st) ->
  P (fst st) (fst (fst (handleFolder imp wf st)))
  /\ Forall (taskOk P) (snd (fst (handleFolder imp wf st))).
Proof.
  destruct st as [w pool]. intros Hpool. unfold handleFolder, spawn. simpl.
  destruct (handleStagehandTrigger_ok imp P wf (DART_STAGEHAND_PROJECT_TRIGGER_FILE imp) w)
    as [Hp1 Ht1].
  destruct (handleStagehandTrigger imp wf (DART_STAGEHAND_PROJECT_TRIGGER_FILE imp) w)
    as [w1 t1].
  destruct (handleStagehandTrigger_ok imp P wf (FLUTTER_STAGEHAND_PROJECT_TRIGGER_FILE imp) w1)
    as [Hp2 Ht2].
  destruct (handleStagehandTrigger imp wf (FLUTTER_STAGEHAND_PROJECT_TRIGGER_FILE imp) w1)
    as [w2 t2].
  destruct (handleFlutterCreateTrigger_ok imp P wf w2) as [Hp3 Ht3].
  destruct (handleFlutterCreateTrigger imp wf w2) as [w3 t3].
  simpl in *.
  assert (P w w3) as Hp.
  { eapply hi_trans; [|exact Hp3]. by eapply hi_trans. }
  assert (Forall (taskOk P) ((pool ++ [t1]) ++ [t2])) as Hpool2.
  { apply Forall_app. split; [|by constructor].
    apply Forall_app. split; [done | by constructor]. }
  destruct t3 as [[]|e|on k]; simpl; (split; [done|]); try done;
    (apply Forall_app; split; [done | by constructor]).
Qed.

Lemma forEach_ok (P : World -> World -> Prop) `{!HostInvariant P}
  (folders : list WorkspaceFolder) (st : World * Pool) :
  Forall (taskOk P) (snd st) ->
  P (fst st) (fst (fst (forEach imp folders st)))
  /\ Forall (taskOk P) (snd (fst (forEach imp folders st))).
Proof.
  revert st. induction folders as [|wf folders IH]; intros st Hpool; simpl.
  - split; [apply hi_refl | done].
  - destruct (handleFolder_ok P wf st Hpool) as [Hp Hpool'].
    destruct (handleFolder imp wf st) as [st' [e|]]; simpl in *; [done|].
    destruct (IH st' Hpool') as [Hp' Hpool''].
    split; [by eapply hi_trans | done].
Qed.



End NewProjects.


(** ** The one-shot prompts *)

Lemma displayed_app (l1 l2 : list Event) :
  displayed (l1 ++ l2) = displayed l1 ++ displayed l2.
Proof. apply List.filter_app. Qed.

Lemma displayed_beforeCreate (events : list Event) :
  forallb beforeCreate events = true -> displayed events = [].
Proof.
  induction events as [|e events IH]; simpl; [done|].
  intros [He Hes]%andb_true_iff. unfold displayed in *. simpl.
  destruct e; simpl in *; try done; by apply IH.
Qed.

#[local] Instance keepSeen_invariant : HostInvariant keepSeen.
Proof. split; unfold keepSeen, markedSeen; simpl; eauto. Qed.

#[local] Instance sameContext_invariant : HostInvariant sameContext.
Proof. split; unfold sameContext; simpl; try done. congruence. Qed.

(** The trigger handlers never touch the persisted state, neither before
    their create command nor after it. *)
Lemma trigger_handlers_keep_context (imp : Imports) (wf : WorkspaceFolder)
  (triggerFilename : string) :
  asyncSpec sameContext (fun _ => True) (handleStagehandTrigger imp wf triggerFilename)
  /\ asyncSpec sameContext (fun _ => True) (handleFlutterCreateTrigger imp wf).
Proof.
  split.
  - apply (handleStagehandTrigger_ok imp sameContext).
  - apply (handleFlutterCreateTrigger_ok imp sameContext).
Qed.

Section Pools.

Context (P : World -> World -> Prop) `{!HostInvariant P}.

Lemma spawn_ok (m : Async unit) (st : World * Pool) :
  asyncSpec P (fun _ => True) m ->
  Forall (taskOk P) (snd st) ->
  P (fst st) (fst (spawn m st)) /\ Forall (taskOk P) (snd (spawn m st)).
Proof.
  destruct st as [w pool]. intros Hm Hpool. unfold spawn.
  destruct (Hm w) as [Hp Ht]. destruct (m w) as [w' t]. simpl in *.
  split; [done|]. apply Forall_app. split; [done | by constructor].
Qed.

Lemma settle_ok {R} (i : nat) (r : Response) (st : World * list (Task R)) :
  Forall (taskOk P) (snd st) ->
  P (fst st) (fst (settle i r st)) /\ Forall (taskOk P) (snd (settle i r st)).
Proof.
  destruct st as [w pool]. intros Hpool. simpl.
  destruct (pool !! i) as [t|] eqn:Hi; [|split; [apply hi_refl | done]].
  pose proof (Forall_lookup_1 _ _ _ _ Hpool Hi) as Ht.
  destruct t as [b|e|on k]; simpl.
  - split; [apply hi_refl|]. by rewrite list_insert_id.
  - split; [apply hi_refl|]. by rewrite list_insert_id.
  - destruct (Ht r w) as [Hle Hok].
    destruct (k r w) as [w' t']. simpl in *. split; [done|].
    by apply Forall_insert.
Qed.

Lemma error_ok (err : JSError) : asyncSpec P (fun _ => True) (error err).
Proof.
  unfold error, vs.window.showErrorMessage.
  destruct (JS.getMember err "message") as [e|msg].
  - apply (asyncSpec_throw P).
  - apply (asyncSpec_fire P) with (Q := fun _ => True). apply (asyncSpec_request P).
Qed.

End Pools.

Section Prompts.

Variable imp : Imports.

Ltac run :=
  unfold showPrompt, promptToInstallFlutterExtension, promptToShowReleaseNotes,
    openInBrowser, call, bind, then_, await, fire,
    vs.window.showErrorMessage, vs.window.showInformationMessage, request; simpl.

Lemma hasPrompted_seen (id : string) (w : World) : hasPrompted id w = seen id w.
Proof.
  unfold hasPrompted, seen, Ctx.get, promptPrefix.
  by destruct (globalState (context w) !! ("hasPrompted." +:+ id)) as [[| [] | | | | |]|].
Qed.

Lemma seen_markedSeen (id : string) (w : World) : seen id w = true <-> markedSeen id w.
Proof.
  unfold seen, markedSeen.
  destruct (globalState (context w) !! ("hasPrompted." +:+ id)) as [[| [] | | | | |]|];
    split; try done; intros [=].
Qed.

Lemma seen_context (id : string) (w w' : World) :
  context w' = context w -> seen id w' = seen id w.
Proof. unfold seen. by intros ->. Qed.

(** How the two prompt handlers answer the host. *)
Lemma promptToInstallFlutterExtension_resume (w : World) (r : Response) (wa : World) :
  fst (promptToInstallFlutterExtension w) = emit installFlutterExtensionPrompt w
  /\ awaits (snd (promptToInstallFlutterExtension w)) installFlutterExtensionPrompt
  /\ resume (snd (promptToInstallFlutterExtension w)) r wa =
     match r with
     | Fulfilled res =>
         (if JS.truthy res
          then emit (OpenInBrowser
                       "https://marketplace.visualstudio.com/items?itemName=Dart-Code.flutter") wa
          else wa, Done true)
     | Rejected e => (wa, Failed e)
     end.
Proof.
  run. split_and!; try done. destruct r as [res|e]; simpl; [|done].
  by destruct (JS.truthy res).
Qed.

Lemma promptToShowReleaseNotes_resume (w : World) (r : Response) (wa : World) :
  fst (promptToShowReleaseNotes (extensionVersion imp) (versionLink imp) w)
  = emit (releaseNotesPrompt imp) w
  /\ awaits (snd (promptToShowReleaseNotes (extensionVersion imp) (versionLink imp) w))
       (releaseNotesPrompt imp)
  /\ resume (snd (promptToShowReleaseNotes (extensionVersion imp) (versionLink imp) w)) r wa =
     match r with
     | Fulfilled res =>
         (if JS.truthy res
          then emit (OpenInBrowser
                       ("https://dartcode.org/releases/v" +:+ versionLink imp +:+ "/")) wa
          else wa, Done true)
     | Rejected e => (wa, Failed e)
     end.
Proof.
  run. split_and!; try done. destruct r as [res|e]; simpl; [|done].
  by destruct (JS.truthy res).
Qed.

(** [showPrompt] starts the prompt and, when the prompt settles, stores its
    result or reports its error. *)
Lemma showPrompt_resume (key : string) (prompt : Async bool) (w : World)
  (r : Response) (wa : World) :
  fst (showPrompt key prompt w) = fst (prompt w)
  /\ match resume (snd (prompt w)) r wa with
     | (wb, Done res) =>
         resume (snd (showPrompt key prompt w)) r wa
         = Ctx.update (promptPrefix +:+ key) (JBool res) wb
     | (wb, Failed err) =>
         resume (snd (showPrompt key prompt w)) r wa = error err wb
     | (wb, Await _ _) =>
         fst (resume (snd (showPrompt key prompt w)) r wa) = wb
         /\ settled (snd (resume (snd (showPrompt key prompt w)) r wa)) = false
     end.
Proof.
  unfold showPrompt, then_. destruct (prompt w) as [w1 p]. simpl. split; [done|].
  destruct p as [res|err|on k]; simpl; try done.
  destruct (k r wa) as [wb p']. by destruct p' as [res|err|on' k'].
Qed.

(** What [error] does, reason by reason. *)
Lemma error_run (reason : JSError) (w : World) :
  let '(w', t) := error reason w in errorShown reason w w' t.
Proof.
  unfold error, errorShown, fire, vs.window.showErrorMessage, request, throw.
  destruct reason as [|[| | | | | |fields]|]; simpl; split_and!; eauto.
Qed.

Lemma spawn_showPrompt (key : string) (prompt : Async bool) (w0 : World) (pool0 : Pool) :
  spawn (showPrompt key prompt) (w0, pool0)
  = (fst (prompt w0), pool0 ++ [snd (showPrompt key prompt w0)]).
Proof. unfold spawn, showPrompt, then_. by destruct (prompt w0). Qed.

(** The task of [showPrompt] on a prompt that waits for one message and then
    resolves to [true]: it waits for that message, stores [true] under the
    key on any answer, and goes through [error] on a rejection. *)
Lemma showPrompt_task (key : string) (prompt : Async bool) (message : Event)
  (visit : JSValue -> World -> World) (w0 : World) :
  awaits (snd (prompt w0)) message ->
  (forall r wa,
      resume (snd (prompt w0)) r wa
      = match r with
        | Fulfilled res => (visit res wa, Done true)
        | Rejected e => (wa, Failed e)
        end) ->
  (forall res wa, context (visit res wa) = context wa
                  /\ files (visit res wa) = files wa
                  /\ displayed (log (visit res wa)) = displayed (log wa)) ->
  let t := snd (showPrompt key prompt w0) in
  awaits t message /\ forall r wa, persists key t r wa.
Proof.
  intros Haw Hres Hvisit t. split.
  - subst t. unfold showPrompt, then_.
    destruct (prompt w0) as [w1 [| |[e|] k]]; done.
  - intros r wa. unfold persists.
    destruct (showPrompt_resume key prompt w0 r wa) as [_ Hshow].
    rewrite (Hres r wa) in Hshow. subst t. destruct r as [res|reason].
    + rewrite Hshow. destruct (Hvisit res wa) as (Hc & Hf & Hd). simpl.
      unfold promptPrefix. rewrite Hc. by split_and!.
    + rewrite Hshow. apply error_run.
Qed.

Lemma install_task (w0 : World) :
  let t := snd (showPrompt installFlutterExtensionPromptKey
                  promptToInstallFlutterExtension w0) in
  awaits t installFlutterExtensionPrompt
  /\ forall r wa, persists "install_flutter_extension" t r wa.
Proof.
  apply (showPrompt_task installFlutterExtensionPromptKey promptToInstallFlutterExtension
           installFlutterExtensionPrompt
           (fun res wa =>
              if JS.truthy res
              then emit (OpenInBrowser
                           "https://marketplace.visualstudio.com/items?itemName=Dart-Code.flutter")
                     wa
              else wa)).
  - apply (promptToInstallFlutterExtension_resume w0 (Fulfilled Undefined) w0).
  - intros r wa. apply (promptToInstallFlutterExtension_resume w0 r wa).
  - intros res wa. destruct (JS.truthy res); [|done]. split_and!; try done.
    simpl. rewrite displayed_app. apply app_nil_r.
Qed.

Lemma release_task (w0 : World) :
  let t := snd (showPrompt (releaseNotesKeyForThisVersion imp)
                  (promptToShowReleaseNotes (extensionVersion imp) (versionLink imp)) w0) in
  awaits t (releaseNotesPrompt imp)
  /\ forall r wa, persists (releaseNotesId imp) t r wa.
Proof.
  apply (showPrompt_task (releaseNotesKeyForThisVersion imp)
           (promptToShowReleaseNotes (extensionVersion imp) (versionLink imp))
           (releaseNotesPrompt imp)
           (fun res wa =>
              if JS.truthy res
              then emit (OpenInBrowser
                           ("https://dartcode.org/releases/v" +:+ versionLink imp +:+ "/")) wa
              else wa)).
  - apply (promptToShowReleaseNotes_resume w0 (Fulfilled Undefined) w0).
  - intros r wa. apply (promptToShowReleaseNotes_resume w0 r wa).
  - intros res wa. destruct (JS.truthy res); [|done]. split_and!; try done.
    simpl. rewrite displayed_app. apply app_nil_r.
Qed.

(** A task that [persists] displays nothing and is settled after its one
    step. *)
Lemma persists_quiet (id : string) (t : Task unit) (r : Response) (wa : World) :
  persists id t r wa ->
  displayed (log (fst (resume t r wa))) = displayed (log wa)
  /\ settled (snd (resume t r wa)) = true.
Proof.
  unfold persists, errorShown. destruct (resume t r wa) as [wc t'].
  destruct r as [res|reason]; simpl.
  - by intros (-> & _ & _ & _ & _ & Hd & _).
  - intros (_ & _ & H).
    destruct reason as [|[| | | | | |fields]|];
      destruct H as [-> Ht]; rewrite ?displayed_app; simpl; rewrite ?app_nil_r;
      (split; [done|]); try (by rewrite Ht); by destruct Ht as [e ->].
Qed.

(** [showUserPrompts], after the pass of [handleNewProjects]. *)
Lemma showUserPrompts_run (workspaceContext : WorkspaceContext) (w : World) :
  let '(w0, pool0, thrown0) := handleNewProjects imp w in
  context w0 = context w
  /\ displayed (log w0) = displayed (log w)
  /\ showUserPrompts imp workspaceContext w
     = match thrown0 with
       | Some e => (w0, pool0, Some e)
       | None =>
           if hasAnyFlutterProjects workspaceContext && negb (hasFlutterExtension imp)
              && negb (seen "install_flutter_extension" w)
           then (emit installFlutterExtensionPrompt w0,
                 pool0 ++ [snd (showPrompt installFlutterExtensionPromptKey
                                  promptToInstallFlutterExtension w0)], None)
           else if negb (isDevExtension imp) && negb (seen (releaseNotesId imp) w)
           then (emit (releaseNotesPrompt imp) w0,
                 pool0 ++ [snd (showPrompt (releaseNotesKeyForThisVersion imp)
                                  (promptToShowReleaseNotes (extensionVersion imp)
                                     (versionLink imp)) w0)], None)
           else (w0, pool0, None)
       end.
Proof.
  unfold showUserPrompts, handleNewProjects.
  pose proof (forEach_sync imp (getDartWorkspaceFolders w) (w, [])) as H.
  destruct (forEach imp (getDartWorkspaceFolders w) (w, [])) as [[w0 pool0] thrown0].
  destruct H as (checked & events & tasks & Hl & _ & Hb & _ & _ & Hx & _).
  simpl in *. split_and!; [done | |].
  { rewrite Hl, displayed_app, (displayed_beforeCreate _ Hb). apply app_nil_r. }
  destruct thrown0 as [e|]; [done|].
  rewrite !hasPrompted_seen, !(seen_context _ w w0 Hx).
  unfold releaseNotesKeyForThisVersion, installFlutterExtensionPromptKey, releaseNotesId.
  destruct (hasAnyFlutterProjects workspaceContext && negb (hasFlutterExtension imp)
            && negb (seen "install_flutter_extension" w)).
  { reflexivity. }
  destruct (negb (isDevExtension imp)
            && negb (seen ("release_notes_" +:+ extensionVersion imp) w)).
  { reflexivity. }
  done.
Qed.

(** The prompts that one call of [showUserPrompts] displays. *)
Lemma showUserPrompts_displayed (workspaceContext : WorkspaceContext) (w : World) :
  let '(w', pool, thrown) := showUserPrompts imp workspaceContext w in
  thrown = snd (handleNewProjects imp w)
  /\ displayed (log w')
     = displayed (log w)
         ++ match thrown with
            | Some _ => []
            | None => firstEligiblePrompt imp workspaceContext w
            end
  /\ context w' = context w.
Proof.
  pose proof (showUserPrompts_run workspaceContext w) as H.
  destruct (handleNewProjects imp w) as [[w0 pool0] thrown0].
  destruct H as (Hx & Hd & ->). unfold firstEligiblePrompt.
  destruct thrown0 as [e|]; simpl; [by rewrite app_nil_r|].
  destruct (hasAnyFlutterProjects workspaceContext && negb (hasFlutterExtension imp)
            && negb (seen "install_flutter_extension" w)).
  { simpl. rewrite displayed_app, Hd. done. }
  destruct (negb (isDevExtension imp) && negb (seen (releaseNotesId imp) w)).
  { simpl. rewrite displayed_app, Hd. done. }
  by rewrite app_nil_r.
Qed.

(** The task that [showUserPrompts] starts for the prompt it displays. *)
Lemma showUserPrompts_started (workspaceContext : WorkspaceContext) (w : World) :
  let '(w', pool, thrown) := showUserPrompts imp workspaceContext w in
  thrown = None ->
  (In installFlutterExtensionPrompt (firstEligiblePrompt imp workspaceContext w) ->
   exists w0, last pool = Some (snd (showPrompt installFlutterExtensionPromptKey
                                      promptToInstallFlutterExtension w0)))
  /\ (In (releaseNotesPrompt imp) (firstEligiblePrompt imp workspaceContext w) ->
      exists w0, last pool = Some (snd (showPrompt (releaseNotesKeyForThisVersion imp)
                                         (promptToShowReleaseNotes (extensionVersion imp)
                                            (versionLink imp)) w0))).
Proof.
  pose proof (showUserPrompts_run workspaceContext w) as H.
  destruct (handleNewProjects imp w) as [[w0 pool0] thrown0].
  destruct H as (_ & _ & ->). unfold firstEligiblePrompt.
  destruct thrown0 as [e|]; [done|].
  destruct (hasAnyFlutterProjects workspaceContext && negb (hasFlutterExtension imp)
            && negb (seen "install_flutter_extension" w)).
  { intros _. split.
    - intros _. exists w0. by rewrite last_snoc.
    - unfold releaseNotesPrompt, installFlutterExtensionPrompt. simpl.
      intros [[=] | []]. }
  destruct (negb (isDevExtension imp) && negb (seen (releaseNotesId imp) w)).
  { intros _. split.
    - unfold releaseNotesPrompt, installFlutterExtensionPrompt. simpl.
      intros [[=] | []].
    - intros _. exists w0. by rewrite last_snoc. }
  intros _. simpl. split; intros [].
Qed.

(** C3, as amended.  An activation in which the pass over the trigger files
    returns displays exactly the first eligible candidate: the prompt to
    install the Flutter extension when the workspace has Flutter projects,
    the extension is absent and the prompt is not marked seen; otherwise the
    release notes prompt when this is not a development build and the prompt
    of this version is not marked seen; otherwise none.  It starts one task,
    for the prompt it displays, and that task displays nothing more,
    whatever the answer.  An activation in which the pass throws ends with
    that exception before any candidate is tested: it displays no prompt and
    starts no task for one. *)
Theorem showUserPrompts_first_eligible (workspaceContext : WorkspaceContext) (w : World) :
  let shown := firstEligiblePrompt imp workspaceContext w in
  let '(w0, pool0, thrown0) := handleNewProjects imp w in
  let '(w', pool, thrown) := showUserPrompts imp workspaceContext w in
  thrown = thrown0
  /\ match thrown with
     | Some _ =>
         w' = w0 /\ pool = pool0 /\ displayed (log w') = displayed (log w)
     | None =>
         displayed (log w') = displayed (log w) ++ shown
         /\ exists started,
              pool = pool0 ++ started
              /\ length started = length shown
              /\ forall t, In t started ->
                   (forall prompt, In prompt shown -> awaits t prompt)
                   /\ forall r wa,
                        displayed (log (fst (resume t r wa))) = displayed (log wa)
                        /\ settled (snd (resume t r wa)) = true
     end
  /\ (length shown <= 1)%nat
  /\ (In installFlutterExtensionPrompt shown <->
      hasAnyFlutterProjects workspaceContext = true
      /\ hasFlutterExtension imp = false
      /\ ~ markedSeen "install_flutter_extension" w)
  /\ (In (releaseNotesPrompt imp) shown <->
      ~ In installFlutterExtensionPrompt shown
      /\ isDevExtension imp = false
      /\ ~ markedSeen (releaseNotesId imp) w).
Proof.
  intros shown.
  assert ((length shown <= 1)%nat
          /\ (In installFlutterExtensionPrompt shown <->
              hasAnyFlutterProjects workspaceContext = true
              /\ hasFlutterExtension imp = false
              /\ ~ markedSeen "install_flutter_extension" w)
          /\ (In (releaseNotesPrompt imp) shown <->
              ~ In installFlutterExtensionPrompt shown
              /\ isDevExtension imp = false
              /\ ~ markedSeen (releaseNotesId imp) w)) as Hshown.
  { subst shown. unfold firstEligiblePrompt. rewrite <- !seen_markedSeen.
    destruct (hasAnyFlutterProjects workspaceContext), (hasFlutterExtension imp),
      (seen "install_flutter_extension" w), (isDevExtension imp),
      (seen (releaseNotesId imp) w); simpl;
      (split_and!; [lia | | ]; unfold releaseNotesPrompt, installFlutterExtensionPrompt;
       intuition (discriminate || congruence)). }
  pose proof (showUserPrompts_run workspaceContext w) as H.
  destruct (handleNewProjects imp w) as [[w0 pool0] thrown0].
  destruct H as (Hx & Hd & ->).
  destruct thrown0 as [e|]; [split; [done|]; split; [done | exact Hshown]|].
  subst shown. unfold firstEligiblePrompt in *.
  destruct (hasAnyFlutterProjects workspaceContext && negb (hasFlutterExtension imp)
            && negb (seen "install_flutter_extension" w)).
  { split; [done|]. split; [|exact Hshown].
    split; [simpl; by rewrite displayed_app, Hd|].
    eexists [_]. split_and!; try done. intros t [<- | []].
    destruct (install_task w0) as [Haw Hp]. split.
    - by intros prompt [<- | []].
    - intros r wa. apply (persists_quiet _ _ _ _ (Hp r wa)). }
  destruct (negb (isDevExtension imp) && negb (seen (releaseNotesId imp) w)).
  { split; [done|]. split; [|exact Hshown].
    split; [simpl; by rewrite displayed_app, Hd|].
    eexists [_]. split_and!; try done. intros t [<- | []].
    destruct (release_task w0) as [Haw Hp]. split.
    - by intros prompt [<- | []].
    - intros r wa. apply (persists_quiet _ _ _ _ (Hp r wa)). }
  split; [done|]. split; [|exact Hshown].
  split; [by rewrite app_nil_r|]. exists []. rewrite app_nil_r. by split_and!.
Qed.

(** A prompt is offered when the pass returns and it is the first eligible
    one; it is not offered otherwise. *)
Lemma offered_iff (prompt : Event) (workspaceContext : WorkspaceContext) (w : World) :
  (offered imp prompt workspaceContext w
   <-> snd (handleNewProjects imp w) = None
       /\ In prompt (firstEligiblePrompt imp workspaceContext w))
  /\ (~ In prompt (firstEligiblePrompt imp workspaceContext w) ->
      notOffered imp prompt workspaceContext w).
Proof.
  pose proof (showUserPrompts_displayed workspaceContext w) as Hd.
  unfold offered, notOffered.
  destruct (showUserPrompts imp workspaceContext w) as [[w' pool] thrown].
  destruct Hd as (<- & Hd & _). simpl. rewrite Hd. split; [split|].
  - intros (shown & Heq%app_inv_head & Hin). subst shown. by destruct thrown.
  - intros [-> Hin]. eauto.
  - intros Hin. destruct thrown; eauto.
Qed.

Lemma markedSeen_update (key id : string) (value : bool) (w : World) :
  markedSeen id (fst (Ctx.update (promptPrefix +:+ key) (JBool value) w))
  <-> (id = key /\ value = true) \/ (id <> key /\ markedSeen id w).
Proof.
  unfold markedSeen, promptPrefix. simpl.
  destruct (decide (id = key)) as [->|Hne].
  - rewrite lookup_insert_eq. split.
    + intros [= ->]. by left.
    + intros [[_ ->] | [? _]]; done.
  - rewrite lookup_insert_ne.
    + split; [by right | intros [[? _] | [_ ?]]; done].
    + intros [= H]. done.
Qed.


(** Nothing the module does unmarks a prompt. *)
Lemma update_true_keepSeen (key : string) :
  asyncSpec keepSeen (fun _ => True) (Ctx.update (promptPrefix +:+ key) (JBool true)).
Proof.
  intros w. split; [|done]. intros id Hid. apply markedSeen_update.
  destruct (decide (id = key)); [by left | by right].
Qed.

Lemma promptToInstallFlutterExtension_ok :
  asyncSpec keepSeen (fun res => res = true) promptToInstallFlutterExtension.
Proof.
  intros w. split; [apply hi_emit|]. simpl. intros r wa.
  destruct (promptToInstallFlutterExtension_resume w r wa) as (_ & _ & Hres).
  simpl in Hres. rewrite Hres.
  destruct r as [res|e]; simpl; [|split; [apply hi_refl | done]].
  split; [|done]. destruct (JS.truthy res); [apply hi_emit | apply hi_refl].
Qed.

Lemma promptToShowReleaseNotes_ok :
  asyncSpec keepSeen (fun res => res = true)
    (promptToShowReleaseNotes (extensionVersion imp) (versionLink imp)).
Proof.
  intros w. split; [apply hi_emit|]. simpl. intros r wa.
  destruct (promptToShowReleaseNotes_resume w r wa) as (_ & _ & Hres).
  simpl in Hres. rewrite Hres.
  destruct r as [res|e]; simpl; [|split; [apply hi_refl | done]].
  split; [|done]. destruct (JS.truthy res); [apply hi_emit | apply hi_refl].
Qed.

Lemma showPrompt_ok (key : string) (prompt : Async bool) :
  asyncSpec keepSeen (fun res => res = true) prompt ->
  asyncSpec keepSeen (fun _ => True) (showPrompt key prompt).
Proof.
  intros Hprompt. unfold showPrompt.
  apply (asyncSpec_then keepSeen) with (Q := fun res => res = true); [done | |].
  - intros res ->. apply update_true_keepSeen.
  - intros e. apply (error_ok keepSeen).
Qed.

Lemma showUserPrompts_ok (workspaceContext : WorkspaceContext) (w : World) :
  keepSeen w (fst (fst (showUserPrompts imp workspaceContext w)))
  /\ Forall (taskOk keepSeen) (snd (fst (showUserPrompts imp workspaceContext w))).
Proof.
  unfold showUserPrompts, handleNewProjects.
  destruct (forEach_ok imp keepSeen (getDartWorkspaceFolders w) (w, []))
    as [Hp Hpool]; [by constructor|].
  destruct (forEach imp (getDartWorkspaceFolders w) (w, [])) as [st [e|]]; [done|].
  simpl in Hp, Hpool.
  destruct (_ && _ && _).
  { destruct (spawn_ok keepSeen _ st
                (showPrompt_ok installFlutterExtensionPromptKey _
                   promptToInstallFlutterExtension_ok) Hpool)
      as [Hp' Hpool'].
    split; [by eapply hi_trans | done]. }
  destruct (_ && _).
  { destruct (spawn_ok keepSeen _ st
                (showPrompt_ok (releaseNotesKeyForThisVersion imp) _
                   promptToShowReleaseNotes_ok) Hpool)
      as [Hp' Hpool'].
    split; [by eapply hi_trans | done]. }
  done.
Qed.

Lemma moduleStep_ok (a : Activity) (st : World * Pool) :
  Forall (taskOk keepSeen) (snd st) ->
  keepSeen (fst st) (fst (moduleStep imp a st))
  /\ Forall (taskOk keepSeen) (snd (moduleStep imp a st)).
Proof.
  intros Hpool. destruct a as [workspaceContext | i r]; simpl.
  - destruct (showUserPrompts_ok workspaceContext (fst st)) as [Hp Hs].
    destruct (showUserPrompts imp workspaceContext (fst st)) as [[w' started] thrown].
    simpl in *. split; [done | by apply Forall_app].
  - by apply (settle_ok keepSeen).
Qed.

Lemma moduleRun_ok (activities : list Activity) (st : World * Pool) :
  Forall (taskOk keepSeen) (snd st) ->
  keepSeen (fst st) (fst (moduleRun imp activities st))
  /\ Forall (taskOk keepSeen) (snd (moduleRun imp activities st)).
Proof.
  revert st. induction activities as [|a activities IH]; intros st Hpool; simpl.
  - split; [apply hi_refl | done].
  - destruct (moduleStep_ok a st Hpool) as [Hp Hpool'].
    destruct (IH _ Hpool') as [Hp' Hpool''].
    split; [by eapply hi_trans | done].
Qed.

(** C10.  Both prompt handlers resolve to [true] for every answer of the
    user, so one display of a prompt, however it is answered, marks its id
    as seen; the mark survives every later activation and every later
    answer, and no later activation displays that prompt. *)
Theorem prompts_marked_seen_for_good :
  (* both handlers resolve to [true], whatever the user does *)
  (forall w res wa,
      snd (resume (snd (promptToInstallFlutterExtension w)) (Fulfilled res) wa) = Done true
      /\ snd (resume (snd (promptToShowReleaseNotes (extensionVersion imp) (versionLink imp) w))
                (Fulfilled res) wa) = Done true)
  (* so one display marks the prompt as seen *)
  /\ (forall workspaceContext w res wa,
        let '(w', pool, thrown) := showUserPrompts imp workspaceContext w in
        thrown = None ->
        (In installFlutterExtensionPrompt (firstEligiblePrompt imp workspaceContext w) ->
         exists t, last pool = Some t
                   /\ awaits t installFlutterExtensionPrompt
                   /\ markedSeen "install_flutter_extension"
                        (fst (resume t (Fulfilled res) wa)))
        /\ (In (releaseNotesPrompt imp) (firstEligiblePrompt imp workspaceContext w) ->
            exists t, last pool = Some t
                      /\ awaits t (releaseNotesPrompt imp)
                      /\ markedSeen (releaseNotesId imp)
                           (fst (resume t (Fulfilled res) wa))))
  (* and it stays marked, and is not offered, whatever happens next *)
  /\ (forall w0 before after workspaceContext id,
        let st1 := moduleRun imp before (w0, []) in
        let st2 := moduleRun imp after st1 in
        markedSeen id (fst st1) ->
        markedSeen id (fst st2)
        /\ (id = "install_flutter_extension" ->
            notOffered imp installFlutterExtensionPrompt workspaceContext (fst st2))
        /\ (id = releaseNotesId imp ->
            notOffered imp (releaseNotesPrompt imp) workspaceContext (fst st2))).
Proof.
  split_and!.
  - intros w res wa.
    destruct (promptToInstallFlutterExtension_resume w (Fulfilled res) wa) as (_ & _ & ->).
    by destruct (promptToShowReleaseNotes_resume w (Fulfilled res) wa) as (_ & _ & ->).
  - intros workspaceContext w res wa.
    pose proof (showUserPrompts_started workspaceContext w) as Hs.
    destruct (showUserPrompts imp workspaceContext w) as [[w' pool] thrown].
    intros Hnone. destruct (Hs Hnone) as [Hs1 Hs2]. split.
    + intros Hin. destruct (Hs1 Hin) as [w0 Hlast]. eexists. split; [exact Hlast|].
      destruct (showPrompt_resume installFlutterExtensionPromptKey
                  promptToInstallFlutterExtension w0 (Fulfilled res) wa) as [_ Hres].
      destruct (promptToInstallFlutterExtension_resume w0 (Fulfilled res) wa)
        as (_ & Haw & Hp).
      rewrite Hp in Hres. rewrite Hres. split.
      * unfold showPrompt, then_.
        destruct (promptToInstallFlutterExtension w0) as [w1 [| |[e|] k]]; done.
      * apply markedSeen_update. by left.
    + intros Hin. destruct (Hs2 Hin) as [w0 Hlast]. eexists. split; [exact Hlast|].
      destruct (showPrompt_resume (releaseNotesKeyForThisVersion imp)
                  (promptToShowReleaseNotes (extensionVersion imp) (versionLink imp))
                  w0 (Fulfilled res) wa) as [_ Hres].
      destruct (promptToShowReleaseNotes_resume w0 (Fulfilled res) wa)
        as (_ & Haw & Hp).
      rewrite Hp in Hres. rewrite Hres. split.
      * unfold showPrompt, then_.
        destruct (promptToShowReleaseNotes (extensionVersion imp) (versionLink imp) w0)
          as [w1 [| |[e|] k]]; done.
      * apply markedSeen_update. by left.
  - intros w0 before after workspaceContext id st1 st2 Hseen.
    destruct (moduleRun_ok before (w0, [])) as [_ Hpool]; [by constructor|].
    destruct (moduleRun_ok after st1 Hpool) as [Hkeep _].
    specialize (Hkeep id Hseen). fold st2 in Hkeep. split; [done|].
    pose proof (offered_iff installFlutterExtensionPrompt workspaceContext (fst st2))
      as [_ Hn1].
    pose proof (offered_iff (releaseNotesPrompt imp) workspaceContext (fst st2))
      as [_ Hn2].
    apply seen_markedSeen in Hkeep.
    split; intros ->; [apply Hn1 | apply Hn2]; unfold firstEligiblePrompt;
      rewrite Hkeep; rewrite ?andb_false_r; simpl.
    + destruct (_ && _); simpl; unfold releaseNotesPrompt, installFlutterExtensionPrompt;
        intuition discriminate.
    + destruct (_ && _ && _); simpl;
        unfold releaseNotesPrompt, installFlutterExtensionPrompt; intuition discriminate.
Qed.

End Prompts.

(** C3 as the claim words it fails: the framework-specific marker of [/proj]
    is a directory, the pass throws, and the prompt to install the Flutter
    extension, which is eligible, is not displayed. *)
Lemma prompt_not_always_displayed :
  ~ displaysFirstEligible stubImports {| hasAnyFlutterProjects := true |} directoryMarker.
Proof. intros H. vm_compute in H. discriminate H. Qed.


(** * Worked examples *)

Example trim_ex : JSString.trim "  my_sample
 " = "my_sample".
Proof. reflexivity. Qed.

Example split_ex : JSString.split "."%char "3.1.0-beta" = ["3"; "1"; "0-beta"].
Proof. reflexivity. Qed.

Example replace_ex :
  JSString.replace "__projectName__" "proj" "bin/__projectName__.dart" = "bin/proj.dart".
Proof. reflexivity. Qed.

Example replace_first_only :
  JSString.replace "." "-" "3.1.0" = "3-1.0".
Proof. reflexivity. Qed.

Example join_ex : path.join ["/proj"; "bin/proj.dart"] = "/proj/bin/proj.dart".
Proof. reflexivity. Qed.

Example join_dots : path.join ["/a/b/"; "../c/./d/"] = "/a/c/d/".
Proof. reflexivity. Qed.

Example basename_ex : path.basename "/home/me/proj/" = "proj".
Proof. reflexivity. Qed.

Example replace_dollar_patterns :
  JSString.replace "__projectName__" "cash$$" "bin/__projectName__.dart" = "bin/cash$.dart"
  /\ JSString.replace "__projectName__" "a$&b" "bin/__projectName__.dart"
     = "bin/a__projectName__b.dart".
Proof. by split. Qed.

Example versionLink_ex : versionLink stubImports = "3-1".
Proof. reflexivity. Qed.

(** The example of the spec: the marker in [/proj], a create command that
    succeeds and makes [bin/proj.dart]. *)
Example proj_example :
  let '(w1, t1) := handleStagehandTrigger stubImports (folder "/proj") "dart.sh.create"
                     projFolder in
  let created := writeFile "/proj/bin/proj.dart" "void main() {}" w1 in
  let '(w2, t2) := resume t1 (Fulfilled (Val (JNum 0))) created in
  let '(w3, t3) := resume t2 (Fulfilled Undefined) w2 in
  files w3 !! "/proj/dart.sh.create" = None
  /\ log w3 = [ExistsSync "/proj/dart.sh.create";
               ReadFileSync "/proj/dart.sh.create";
               UnlinkSync "/proj/dart.sh.create";
               ExecuteCommand "_dart.create" [JS.ofString "/proj"; JS.ofString "x"];
               ExecuteCommand "dart.getPackages" [UriVal (vs.Uri.file "/proj")];
               ExistsSync "/proj/bin/proj.dart";
               ExecuteCommand "vscode.open" [UriVal (vs.Uri.file "/proj/bin/proj.dart")];
               ShowInformationMessage "Console App project ready!" []].
Proof. vm_compute. by split. Qed.

(** The handling of [/a] is interleaved with that of [/b]: its package
    resolution and welcome step come after the marker of [/b] was read,
    deleted and its create command issued. *)
Example interleaved_folders :
  let st := fst (handleNewProjects stubImports twoMarkers) in
  let st := settle 0 (Fulfilled (Val (JNum 0))) st in
  let st := settle 0 (Fulfilled Undefined) st in
  log (fst st)
  = [ExistsSync "/a/dart.sh.create"; ReadFileSync "/a/dart.sh.create";
     UnlinkSync "/a/dart.sh.create";
     ExecuteCommand "_dart.create" [JS.ofString "/a"; JS.ofString "x"];
     ExistsSync "/a/flutter.sh.create"; ExistsSync "/a/flutter.create";
     ExistsSync "/b/dart.sh.create"; ReadFileSync "/b/dart.sh.create";
     UnlinkSync "/b/dart.sh.create";
     ExecuteCommand "_dart.create" [JS.ofString "/b"; JS.ofString "x"];
     ExistsSync "/b/flutter.sh.create"; ExistsSync "/b/flutter.create";
     ExecuteCommand "dart.getPackages" [UriVal (vs.Uri.file "/a")];
     ExistsSync "/a/bin/a.dart";
     ShowInformationMessage "Console App project ready!" []].
Proof. vm_compute. reflexivity. Qed.

(** The framework-specific marker of [/a] is a directory: the pass ends
    there with the error of the read, and [/b] is not looked at. *)
Example aborted_pass :
  let '(w', pool, thrown) :=
    handleNewProjects stubImports
      (obstruct "/a/flutter.create" directory
         (world [("/b/dart.sh.create", consoleAppJson)] ["/a"; "/b"])) in
  log w' = [ExistsSync "/a/dart.sh.create"; ExistsSync "/a/flutter.sh.create";
            ExistsSync "/a/flutter.create"; ReadFileSync "/a/flutter.create"]
  /\ thrown = Some (newError "EISDIR: illegal operation on a directory, read")
  /\ pool = [Done tt; Done tt]
  /\ files w' !! "/b/dart.sh.create" = Some consoleAppJson.
Proof. vm_compute. by split_and!. Qed.

(** A rejected prompt: the message of an [Error] is shown; a rejection with
    [undefined] shows nothing. *)
Example rejected_prompt :
  let '(w', pool, _) :=
    showUserPrompts stubImports {| hasAnyFlutterProjects := false |} (world [] []) in
  match last pool with
  | Some t =>
      log (fst (resume t (Rejected (newError "Canceled")) w'))
      = [releaseNotesPrompt stubImports; ShowErrorMessage (JS.ofString "Canceled")]
      /\ log (fst (resume t (Rejected Undefined) w')) = [releaseNotesPrompt stubImports]
  | None => False
  end.
Proof. vm_compute. by split. Qed.

(** A first activation offers the release notes; once the user has closed
    the message, a second activation offers nothing. *)
Example release_notes_once :
  let run := moduleRun stubImports
               [Activate {| hasAnyFlutterProjects := false |};
                Resume 0 (Fulfilled Undefined);
                Activate {| hasAnyFlutterProjects := false |}] (world [] [], []) in
  displayed (log (fst run)) = [releaseNotesPrompt stubImports]
  /\ globalState (context (fst run)) !! "hasPrompted.release_notes_3.1.0" = Some (JBool true).
Proof. vm_compute. by split. Qed.

(** The user opts out: the next call displays nothing. *)
Example devtools_opt_out :
  let st := devToolsRun stubImports
              [Call; Settle 0 (Fulfilled (JS.ofString "Do Not Ask Again")); Call]
              (world [] [], []) in
  displayed (log (fst st)) = [devToolsNotification stubImports]
  /\ devToolsNotificationDoNotShow (context (fst st)) = true
  /\ devToolsNotificationsShown (context (fst st)) = 1%Z.
Proof. vm_compute. by split_and!. Qed.

(** * Witnesses *)

Lemma devtools_gate_witness :
  (noRepeatPromptThreshold <= clock (world [] []) 0)%Z
  /\ log (fst (showDevToolsNotificationIfAppropriate stubImports (world [] [])))
     = [devToolsNotification stubImports].
Proof.
  assert (noRepeatPromptThreshold <= clock (world [] []) 0)%Z as Hnow
    by (vm_compute; discriminate).
  split; [exact Hnow|].
  destruct (devtools_gate stubImports (world [] []) Hnow) as [_ H].
  specialize (H eq_refl ltac:(vm_compute; reflexivity) (or_introl eq_refl)).
  destruct (showDevToolsNotificationIfAppropriate stubImports (world [] [])) as [w' t].
  destruct H as (_ & Hlog & _). exact Hlog.
Defined.

Lemma devtools_choice_witness :
  let started := showDevToolsNotificationIfAppropriate stubImports (world [] []) in
  snd (resume (snd started) (Fulfilled (JS.ofString "Open DevTools")) (fst started))
  = Done true.
Proof.
  intros started.
  assert (NoDup [openDevToolsAction stubImports; noThanksAction stubImports;
                 doNotAskAgainAction stubImports]) as Hnd.
  { apply (@bool_decide_unpack _ (NoDup_dec _)). vm_compute. exact I. }
  assert (awaits (snd started) (devToolsNotification stubImports)) as Haw
    by reflexivity.
  pose proof (devtools_choice stubImports (world [] []) (JS.ofString "Open DevTools")
                (fst started) Hnd Haw) as H.
  fold started in H.
  destruct (resume (snd started) (Fulfilled (JS.ofString "Open DevTools")) (fst started))
    as [w2 t].
  destruct H as (b & -> & Hb & _). simpl. f_equal. by apply Hb.
Defined.

Lemma stagehand_parse_failure_witness :
  files brokenMarker !! "/proj/dart.sh.create" = Some "not json"
  /\ let '(w', t) := handleStagehandTrigger stubImports (folder "/proj") "dart.sh.create"
                       brokenMarker in
     t = Done tt /\ files w' !! "/proj/dart.sh.create" = Some "not json".
Proof.
  split; [reflexivity|].
  pose proof (stagehand_parse_failure stubImports (folder "/proj") "dart.sh.create"
                brokenMarker "not json" (newError "Unexpected token in JSON")
                eq_refl eq_refl) as H.
  destruct (handleStagehandTrigger stubImports (folder "/proj") "dart.sh.create" brokenMarker)
    as [w' t].
  destruct H as (Ht & _ & _ & Hfile & _). by split.
Defined.

Lemma flutter_create_trigger_witness :
  trimmedTo (" my_sample" +:+ String "010" "") "my_sample"
  /\ log (fst (handleFlutterCreateTrigger stubImports (folder "/proj") sampleMarker))
     = [ExistsSync "/proj/flutter.create"; ReadFileSync "/proj/flutter.create";
        UnlinkSync "/proj/flutter.create";
        ExecuteCommand "_flutter.create"
          [JS.ofString "/proj"; JS.ofString "sample"; JS.ofString "my_sample"]].
Proof.
  assert (trimmedTo (" my_sample" +:+ String "010" "") "my_sample") as Htrim.
  { exists " ", (String "010" ""). by split_and!. }
  split; [exact Htrim|].
  destruct (flutter_create_trigger stubImports (folder "/proj") sampleMarker) as [H _].
  destruct (H _ "my_sample" eq_refl eq_refl Htrim) as [_ Hrun].
  destruct (handleFlutterCreateTrigger stubImports (folder "/proj") sampleMarker) as [w' t].
  destruct Hrun as (Hlog & _). exact Hlog.
Defined.

(** * Further properties *)

(** ** Scaffolding markers: the paths the claims leave out *)

Section StagehandEdges.

Variable imp : Imports.

(** A marker whose JSON is [null]: [JSON.parse] succeeds, so the marker is
    deleted; reading [template.name] then throws, so the handler's promise is
    rejected and nothing else has happened: no create command, no message. *)
Theorem stagehand_null_template (wf : WorkspaceFolder) (triggerFilename : string)
  (w : World) (content : string) :
  let triggerFile := path.join [fsPath (uri wf); triggerFilename] in
  files w !! triggerFile = Some content ->
  JSON_parse imp (JSString.trim content) = inr JNull ->
  let '(w', t) := handleStagehandTrigger imp wf triggerFilename w in
  (exists e, t = Failed e)
  /\ log w' = log w ++ [ExistsSync triggerFile; ReadFileSync triggerFile;
                        UnlinkSync triggerFile]
  /\ files w' = delete triggerFile (files w)
  /\ context w' = context w.
Proof.
  intros triggerFile Hfile Hparse.
  unfold handleStagehandTrigger, bind, fs.existsSync, fs.readFileSync, fs.unlinkSync. simpl.
  fold triggerFile. rewrite (present_file _ _ _ Hfile). simpl. rewrite Hfile. simpl.
  rewrite Hparse. simpl. rewrite Hfile. simpl. rewrite <- !app_assoc.
  split_and!; try done. eauto.
Qed.

(** What can go wrong after a marker was parsed and deleted.  If the host
    rejects the create command the handler's promise is rejected; if the
    command's result is anything but the number zero (a non-zero code,
    [undefined], the string ["0"]) the handler stops; if package resolution is
    rejected the promise is rejected.  In none of these cases is there a
    further host call: no welcome step, no message, and the marker is not put
    back. *)
Theorem stagehand_create_failure (wf : WorkspaceFolder) (triggerFilename : string)
  (w : World) (content : string) (template : JSON) (name : JSValue) :
  let triggerFile := path.join [fsPath (uri wf); triggerFilename] in
  files w !! triggerFile = Some content ->
  JSON_parse imp (JSString.trim content) = inr template ->
  JS.getProperty template "name" = inr name ->
  let '(w', t) := handleStagehandTrigger imp wf triggerFilename w in
  files w' !! triggerFile = None
  /\ (forall e w1, resume t (Rejected e) w1 = (w1, Failed e))
  /\ (forall code w1,
        code <> Val (JNum 0) -> resume t (Fulfilled code) w1 = (w1, Done tt))
  /\ (forall e w1 w3,
        let '(w2, t2) := resume t (Fulfilled (Val (JNum 0))) w1 in
        resume t2 (Rejected e) w3 = (w3, Failed e)).
Proof.
  intros triggerFile Hfile Hparse Hname.
  pose proof (stagehand_parsed imp wf triggerFilename w content template name
                Hfile Hparse Hname) as H.
  destruct (handleStagehandTrigger imp wf triggerFilename w) as [w' t].
  destruct H as (_ & Hfiles & _ & _ & Hrej & Hfail & Hok).
  split_and!.
  - rewrite Hfiles. apply lookup_delete_eq.
  - done.
  - intros code w1 Hcode. apply Hfail.
    destruct (JS.strictEqNum code 0) eqn:E; [|done]. by apply strictEqNum_zero in E.
  - intros e w1 w3. specialize (Hok (Val (JNum 0)) w1 eq_refl).
    destruct (resume t (Fulfilled (Val (JNum 0))) w1) as [w2 t2].
    destruct Hok as (_ & _ & Hrej2 & _). apply Hrej2.
Qed.

Lemma welcome_throws (wf : WorkspaceFolder) (template : JSON) (w : World) :
  (forall entrypoint,
      JS.getProperty template "entrypoint" <> inr (JS.ofString entrypoint)) ->
  exists e, handleDartWelcome imp wf template w = (w, Failed e).
Proof.
  intros Hno. unfold handleDartWelcome, entrypointFor.
  destruct (JS.getProperty template "entrypoint") as [e|[|[| | | |s| |]|]] eqn:He;
    simpl; eauto.
  by destruct (Hno s).
Qed.

(** A template whose [entrypoint] is not a string (missing, [null], a number,
    a list, an object): the project is created and its packages resolved,
    then the welcome step throws before its first host call.  No file is
    opened, no "project ready" message is shown, and the handler's promise is
    rejected. *)
Theorem stagehand_without_entrypoint (wf : WorkspaceFolder) (triggerFilename : string)
  (w : World) (content : string) (template : JSON) (name : JSValue) :
  let triggerFile := path.join [fsPath (uri wf); triggerFilename] in
  files w !! triggerFile = Some content ->
  JSON_parse imp (JSString.trim content) = inr template ->
  JS.getProperty template "name" = inr name ->
  (forall entrypoint,
      JS.getProperty template "entrypoint" <> inr (JS.ofString entrypoint)) ->
  let '(w', t) := handleStagehandTrigger imp wf triggerFilename w in
  awaits t (ExecuteCommand "_dart.create" [JS.ofString (fsPath (uri wf)); name])
  /\ forall w1 v w3,
       let '(w2, t2) := resume t (Fulfilled (Val (JNum 0))) w1 in
       let '(w4, t4) := resume t2 (Fulfilled v) w3 in
       log w2 = log w1 ++ [ExecuteCommand "dart.getPackages" [UriVal (uri wf)]]
       /\ w4 = w3
       /\ exists e, t4 = Failed e.
Proof.
  intros triggerFile Hfile Hparse Hname Hno.
  pose proof (stagehand_parsed imp wf triggerFilename w content template name
                Hfile Hparse Hname) as H.
  destruct (handleStagehandTrigger imp wf triggerFilename w) as [w' t].
  destruct H as (_ & _ & _ & Haw & _ & _ & Hok). split; [done|].
  intros w1 v w3. specialize (Hok (Val (JNum 0)) w1 eq_refl).
  destruct (resume t (Fulfilled (Val (JNum 0))) w1) as [w2 t2].
  destruct Hok as (-> & _ & _ & Hwelcome). rewrite Hwelcome.
  destruct (welcome_throws wf template w3 Hno) as [e ->]. split_and!; eauto.
Qed.

End StagehandEdges.

Lemma stagehand_descriptor_handled_witness :
  let '(w1, t1) := handleStagehandTrigger stubImports (folder "/proj") "dart.sh.create"
                     projFolder in
  files w1 !! "/proj/dart.sh.create" = None
  /\ awaits t1 (ExecuteCommand "_dart.create" [JS.ofString "/proj"; JS.ofString "x"]).
Proof.
  assert (describes consoleApp "Console App" "x" "bin/__projectName__.dart") as Hd
    by (by split_and!).
  pose proof (stagehand_descriptor_handled stubImports (folder "/proj") "dart.sh.create"
                projFolder consoleAppJson consoleApp "Console App" "x"
                "bin/__projectName__.dart" eq_refl eq_refl Hd eq_refl) as H.
  destruct (handleStagehandTrigger stubImports (folder "/proj") "dart.sh.create" projFolder)
    as [w1 t1].
  destruct H as (_ & Hfiles & Haw & _). split; [|exact Haw].
  rewrite Hfiles. apply lookup_delete_eq.
Defined.

Lemma stagehand_null_template_witness :
  let '(w', t) := handleStagehandTrigger stubImports2 (folder "/proj") "dart.sh.create"
                    nullMarker in
  files w' !! "/proj/dart.sh.create" = None /\ settled t = true.
Proof.
  pose proof (stagehand_null_template stubImports2 (folder "/proj") "dart.sh.create"
                nullMarker "null" eq_refl eq_refl) as H.
  destruct (handleStagehandTrigger stubImports2 (folder "/proj") "dart.sh.create" nullMarker)
    as [w' t].
  destruct H as ([e ->] & _ & Hfiles & _). split; [|done].
  rewrite Hfiles. apply lookup_delete_eq.
Defined.

Lemma stagehand_create_failure_witness :
  let '(w', t) := handleStagehandTrigger stubImports (folder "/proj") "dart.sh.create"
                    projFolder in
  resume t (Fulfilled (Val (JNum 1))) w' = (w', Done tt).
Proof.
  pose proof (stagehand_create_failure stubImports (folder "/proj") "dart.sh.create"
                projFolder consoleAppJson consoleApp (JS.ofString "x")
                eq_refl eq_refl eq_refl) as H.
  destruct (handleStagehandTrigger stubImports (folder "/proj") "dart.sh.create" projFolder)
    as [w' t].
  destruct H as (_ & _ & Hfail & _). apply Hfail. discriminate.
Defined.

Lemma stagehand_without_entrypoint_witness :
  let '(w', t) := handleStagehandTrigger stubImports2 (folder "/proj") "dart.sh.create"
                    bareMarker in
  awaits t (ExecuteCommand "_dart.create" [JS.ofString "/proj"; JS.ofString "x"]).
Proof.
  assert (forall entrypoint,
             JS.getProperty bareTemplate "entrypoint" <> inr (JS.ofString entrypoint)) as Hno
    by (intros entrypoint; discriminate).
  pose proof (stagehand_without_entrypoint stubImports2 (folder "/proj") "dart.sh.create"
                bareMarker bareJson bareTemplate (JS.ofString "x")
                eq_refl eq_refl eq_refl Hno) as H.
  destruct (handleStagehandTrigger stubImports2 (folder "/proj") "dart.sh.create" bareMarker)
    as [w' t].
  by destruct H as [Haw _].
Defined.

(** ** The framework-specific marker: a rejected create command *)

(** The [then] chain on [createFlutterProject] has no rejection handler.  If
    the host rejects [_flutter.create], the promise the handler leaves behind
    is rejected with the same error; no error message is shown (unlike for a
    rejected prompt), no welcome step runs, and the marker stays deleted. *)
Theorem flutter_create_rejected (imp : Imports) (wf : WorkspaceFolder) (w : World)
  (content : string) :
  let triggerFile :=
    path.join [fsPath (uri wf); FLUTTER_CREATE_PROJECT_TRIGGER_FILE imp] in
  files w !! triggerFile = Some content ->
  let '(w', t) := handleFlutterCreateTrigger imp wf w in
  files w' !! triggerFile = None
  /\ settled t = false
  /\ forall e w1, resume t (Rejected e) w1 = (w1, Failed e).
Proof.
  intros triggerFile Hfile.
  unfold handleFlutterCreateTrigger, createFlutterProject, bind, then_, await,
    fs.existsSync, fs.readFileSync, fs.unlinkSync, vs.commands.executeCommand, request.
  simpl. fold triggerFile.
  rewrite (present_file _ _ _ Hfile). simpl. rewrite Hfile. simpl.
  rewrite Hfile. simpl. split_and!; try done. apply lookup_delete_eq.
Qed.

Lemma flutter_create_rejected_witness :
  let '(w', t) := handleFlutterCreateTrigger stubImports (folder "/proj") blankMarker in
  resume t (Rejected (newError "no SDK")) w' = (w', Failed (newError "no SDK")).
Proof.
  pose proof (flutter_create_rejected stubImports (folder "/proj") blankMarker "   "
                eq_refl) as H.
  destruct (handleFlutterCreateTrigger stubImports (folder "/proj") blankMarker) as [w' t].
  destruct H as (_ & _ & Hrej). apply Hrej.
Defined.

(** ** The sample identifier and the release notes link *)

Lemma trimEnd_empty (s : string) :
  JSString.trimEnd s = EmptyString -> allWhiteSpace s = true.
Proof.
  induction s as [|c s IH]; simpl; [done|].
  destruct (JSString.trimEnd s) as [|c' r]; [|done].
  destruct (JSString.isWhiteSpace c); [|done]. intros _. by apply IH.
Qed.

Lemma allWhiteSpace_trimStart (s : string) :
  allWhiteSpace (JSString.trimStart s) = true -> allWhiteSpace s = true.
Proof.
  induction s as [|c s IH]; simpl; [done|].
  destruct (JSString.isWhiteSpace c) eqn:Hc; simpl; [done|].
  by rewrite Hc.
Qed.

Lemma trim_empty_iff (s : string) :
  JSString.trim s = EmptyString <-> allWhiteSpace s = true.
Proof.
  split; [|apply trim_allWhiteSpace].
  intros H. by apply allWhiteSpace_trimStart, trimEnd_empty.
Qed.

(** The create command of a framework-specific marker gets no project name
    and no sample identifier exactly when the marker's content is white space
    only (or empty); otherwise it gets the name [sample] and the content
    without the white space at its two ends. *)
Theorem flutter_sample_absent_iff (imp : Imports) (wf : WorkspaceFolder) (w : World)
  (content trimmed : string) :
  let triggerFile := path.join [fsPath (uri wf); FLUTTER_CREATE_PROJECT_TRIGGER_FILE imp] in
  files w !! triggerFile = Some content ->
  trimmedTo content trimmed ->
  exists projectName sampleID,
    log (fst (handleFlutterCreateTrigger imp wf w))
    = log w ++ [ExistsSync triggerFile; ReadFileSync triggerFile; UnlinkSync triggerFile;
                ExecuteCommand "_flutter.create"
                  [JS.ofString (fsPath (uri wf)); projectName; sampleID]]
    /\ (sampleID = Undefined <-> allWhiteSpace content = true)
    /\ (projectName = Undefined <-> allWhiteSpace content = true)
    /\ (trimmed = EmptyString <-> allWhiteSpace content = true)
    /\ (allWhiteSpace content = false ->
        projectName = JS.ofString "sample" /\ sampleID = JS.ofString trimmed).
Proof.
  intros triggerFile Hfile Htrim. apply trim_trimmedTo in Htrim.
  unfold handleFlutterCreateTrigger, createFlutterProject, bind, then_, await,
    fs.existsSync, fs.readFileSync, fs.unlinkSync, vs.commands.executeCommand, request.
  simpl. fold triggerFile. rewrite (present_file _ _ _ Hfile). simpl.
  rewrite Hfile. simpl. rewrite Hfile. simpl.
  pose proof (trim_empty_iff content) as Hiff. rewrite Htrim in *.
  destruct (String.eqb_spec trimmed "") as [He|Hne]; simpl.
  - assert (allWhiteSpace content = true) as Hws by by apply Hiff.
    eexists _, _. rewrite <- !app_assoc. split; [reflexivity|].
    rewrite Hws. by split_and!.
  - assert (allWhiteSpace content = false) as Hws.
    { destruct (allWhiteSpace content); [|done]. by destruct Hne; apply Hiff. }
    assert (negb (trimmed =? "")%string = true) as Hnb.
    { apply negb_true_iff. by apply String.eqb_neq. }
    eexists _, _. rewrite <- !app_assoc. split; [reflexivity|].
    rewrite Hws, ?Hnb. by split_and!.
Qed.

Lemma flutter_sample_absent_iff_witness :
  exists projectName sampleID,
    log (fst (handleFlutterCreateTrigger stubImports (folder "/proj") sampleMarker))
    = [ExistsSync "/proj/flutter.create"; ReadFileSync "/proj/flutter.create";
       UnlinkSync "/proj/flutter.create";
       ExecuteCommand "_flutter.create" [JS.ofString "/proj"; projectName; sampleID]]
    /\ sampleID = JS.ofString "my_sample".
Proof.
  assert (trimmedTo (" my_sample" +:+ String "010" "") "my_sample") as Htrim.
  { exists " ", (String "010" ""). by split_and!. }
  destruct (flutter_sample_absent_iff stubImports (folder "/proj") sampleMarker
              _ "my_sample" eq_refl Htrim)
    as (projectName & sampleID & Hlog & _ & _ & _ & Hid).
  exists projectName, sampleID. split; [exact Hlog|]. by apply Hid.
Defined.

Lemma split_noDot (a : string) : noDot a -> JSString.split "." a = [a].
Proof.
  unfold noDot. induction a as [|c a IH]; simpl; [done|].
  destruct (Ascii.eqb c ".") eqn:Hc; simpl; [done|].
  intros Ha. by rewrite (IH Ha).
Qed.

Lemma split_dot (a s : string) :
  noDot a -> JSString.split "." (a +:+ String "." s) = a :: JSString.split "." s.
Proof.
  unfold noDot. induction a as [|c a IH]; simpl; [done|].
  destruct (Ascii.eqb c ".") eqn:Hc; simpl; [done|].
  intros Ha. by rewrite (IH Ha).
Qed.

Lemma prefix_dot (c : ascii) (s : string) :
  String.prefix "." (String c s) = Ascii.eqb c ".".
Proof.
  change (String.prefix "." (String c s))
    with (if ascii_dec "." c then String.prefix "" s else false).
  destruct (ascii_dec "." c) as [<-|Hne]; [by destruct s|].
  symmetry. apply Ascii.eqb_neq. congruence.
Qed.

Lemma find_dot_cons (c : ascii) (s : string) :
  JSString.find "." (String c s)
  = if Ascii.eqb c "." then Some (EmptyString, s)
    else match JSString.find "." s with
         | Some (before, after) => Some (String c before, after)
         | None => None
         end.
Proof.
  change (JSString.find "." (String c s))
    with (if String.prefix "." (String c s)
          then Some (EmptyString, JSString.drop 1 (String c s))
          else match JSString.find "." s with
               | Some (before, after) => Some (String c before, after)
               | None => None
               end).
  by rewrite prefix_dot.
Qed.

Lemma find_noDot (a : string) : noDot a -> JSString.find "." a = None.
Proof.
  unfold noDot. induction a as [|c a IH]; [done|].
  rewrite find_dot_cons. simpl.
  destruct (Ascii.eqb c ".") eqn:Hc; simpl; [done|].
  intros Ha. by rewrite (IH Ha).
Qed.

Lemma find_dot (a b : string) :
  noDot a -> JSString.find "." (a +:+ String "." b) = Some (a, b).
Proof.
  unfold noDot. induction a as [|c a IH].
  { intros _. change ("" +:+ String "." b) with (String "." b).
    by rewrite find_dot_cons. }
  change (String c a +:+ String "." b) with (String c (a +:+ String "." b)).
  rewrite find_dot_cons. simpl.
  destruct (Ascii.eqb c ".") eqn:Hc; simpl; [done|].
  intros Ha. by rewrite (IH Ha).
Qed.

(** The release notes link is the major and the minor version joined by a
    dash, whatever follows the second dot; a version without a dot is its own
    link.  "Show Release Notes" opens the page of that link. *)
Theorem release_notes_link (imp : Imports) (a b rest : string) :
  noDot a -> noDot b ->
  (extensionVersion imp = a -> versionLink imp = a)
  /\ (extensionVersion imp = a +:+ "." +:+ b
      \/ extensionVersion imp = a +:+ "." +:+ b +:+ "." +:+ rest ->
      versionLink imp = a +:+ "-" +:+ b
      /\ forall w res wa,
           JS.truthy res = true ->
           resume (snd (promptToShowReleaseNotes (extensionVersion imp) (versionLink imp) w))
             (Fulfilled res) wa
           = (emit (OpenInBrowser
                      ("https://dartcode.org/releases/v" +:+ (a +:+ "-" +:+ b) +:+ "/")) wa,
              Done true)).
Proof.
  intros Ha Hb. split.
  - intros Hv. unfold versionLink. rewrite Hv, (split_noDot a Ha). simpl.
    unfold JSString.replace. by rewrite (find_noDot a Ha).
  - intros Hv.
    assert (versionLink imp = a +:+ "-" +:+ b) as Hlink.
    { unfold versionLink.
      assert (firstn 2 (JSString.split "." (extensionVersion imp)) = [a; b]) as ->.
      { destruct Hv as [-> | ->].
        - change (a +:+ "." +:+ b) with (a +:+ String "." b).
          by rewrite (split_dot a b Ha), (split_noDot b Hb).
        - change (a +:+ "." +:+ b +:+ "." +:+ rest)
            with (a +:+ String "." (b +:+ String "." rest)).
          by rewrite (split_dot a _ Ha), (split_dot b rest Hb). }
      change (JSString.join "." [a; b]) with (a +:+ String "." b).
      unfold JSString.replace. by rewrite (find_dot a b Ha). }
    split; [done|]. intros w res wa Hres.
    destruct (promptToShowReleaseNotes_resume imp w (Fulfilled res) wa) as (_ & _ & ->).
    by rewrite Hres, Hlink.
Qed.

Lemma release_notes_link_witness :
  versionLink stubImports = "3-1".
Proof.
  destruct (release_notes_link stubImports "3" "1" "0" eq_refl eq_refl) as [_ H].
  destruct (H (or_intror eq_refl)) as [Hlink _]. exact Hlink.
Defined.

(** ** The DevTools notification over time *)

Section DevToolsRuns.

Context (imp : Imports) (P : World -> World -> Prop).
Hypothesis P_refl : forall w, P w w.
Hypothesis P_trans : forall w1 w2 w3, P w1 w2 -> P w2 w3 -> P w1 w3.
Hypothesis P_call : forall w, P w (fst (showDevToolsNotificationIfAppropriate imp w)).
Hypothesis P_choice : forall r w, P w (fst (onChoice imp r w)).

Lemma devtools_task_respects (w : World) :
  taskOk P (snd (showDevToolsNotificationIfAppropriate imp w)).
Proof.
  destruct (devtools_settled_or_displayed imp w) as [-> | [Haw Hres]]; [done|].
  destruct (snd (showDevToolsNotificationIfAppropriate imp w)) as [| |on k]; try done.
  intros r w1. specialize (Hres r w1). simpl in Hres. rewrite Hres.
  split; [apply P_choice|]. apply settled_taskOk, onChoice_throttleLe.
Qed.

Lemma settle_respects {R} (i : nat) (r : Response) (st : World * list (Task R)) :
  Forall (taskOk P) (snd st) ->
  P (fst st) (fst (settle i r st)) /\ Forall (taskOk P) (snd (settle i r st)).
Proof.
  destruct st as [w pool]. intros Hpool. simpl.
  destruct (pool !! i) as [t|] eqn:Hi; [|by split].
  pose proof (Forall_lookup_1 _ _ _ _ Hpool Hi) as Ht.
  destruct t as [b|e|on k]; simpl.
  - split; [apply P_refl|]. by rewrite list_insert_id.
  - split; [apply P_refl|]. by rewrite list_insert_id.
  - destruct (Ht r w) as [Hle Hok].
    destruct (k r w) as [w' t']. simpl in *. split; [done|].
    by apply Forall_insert.
Qed.

Lemma devToolsRun_respects (actions : list Action) (st : World * list (Task bool)) :
  Forall (taskOk P) (snd st) ->
  P (fst st) (fst (devToolsRun imp actions st))
  /\ Forall (taskOk P) (snd (devToolsRun imp actions st)).
Proof.
  revert st. induction actions as [|a actions IH]; intros st Hpool; simpl.
  - by split.
  - assert (P (fst st) (fst (devToolsStep imp a st))
            /\ Forall (taskOk P) (snd (devToolsStep imp a st))) as [Hp Hpool'].
    { destruct a as [|i r]; [|by apply settle_respects].
      destruct st as [w pool]. simpl.
      pose proof (P_call w) as Hc. pose proof (devtools_task_respects w) as Ht.
      destruct (showDevToolsNotificationIfAppropriate imp w) as [w' t]. simpl in *.
      split; [done|]. apply Forall_app. split; [done | by constructor]. }
    destruct (IH _ Hpool') as [Hp' Hpool''].
    split; [by eapply P_trans | done].
Qed.

End DevToolsRuns.

Section DevToolsOverTime.

Variable imp : Imports.

Ltac run :=
  unfold showDevToolsNotificationIfAppropriate, shownRecently, bind, Ctx.read; simpl.

Ltac gate w :=
  run;
  let t := fresh "t" in
  destruct (devToolsNotificationDoNotShow (context w)) eqn:?; simpl;
  [| destruct (10 <=? devToolsNotificationsShown (context w))%Z eqn:?; simpl;
     [| destruct (devToolsNotificationLastShown (context w)) as [t|] eqn:?; simpl;
        [ destruct (t =? 0)%Z eqn:?; simpl;
          [| destruct (clock w (ticks w) - t <? noRepeatPromptThreshold)%Z eqn:?; simpl ]
        | ] ] ];
  rewrite ?Z.leb_gt, ?Z.leb_le, ?Z.ltb_lt, ?Z.ltb_ge, ?Z.eqb_eq, ?Z.eqb_neq in *.

Lemma countsDisplays_call (w : World) :
  countsDisplays w (fst (showDevToolsNotificationIfAppropriate imp w)).
Proof.
  unfold countsDisplays.
  gate w; rewrite ?displayed_app; simpl; rewrite ?length_app; simpl; lia.
Qed.

Lemma countsDisplays_choice (r : Response) (w : World) :
  countsDisplays w (fst (onChoice imp r w)).
Proof.
  unfold countsDisplays. destruct r as [choice|e]; simpl; [|lia].
  destruct (JS.strictEqStr choice (doNotAskAgainAction imp)); simpl; [lia|].
  destruct (JS.strictEqStr choice (openDevToolsAction imp)); simpl; [|lia].
  rewrite displayed_app. simpl. rewrite app_nil_r. lia.
Qed.

(** Along any sequence of calls and answers the count of the throttle moves
    with the notifications displayed, one for one, and never passes ten when
    it starts at ten or below: a user sees the notification at most ten
    times, less the times already counted. *)
Theorem devtools_at_most_ten (w0 : World) (actions : list Action) :
  let w := fst (devToolsRun imp actions (w0, [])) in
  let before := Z.of_nat (length (displayed (log w0))) in
  let after := Z.of_nat (length (displayed (log w))) in
  (devToolsNotificationsShown (context w)
   = devToolsNotificationsShown (context w0) + (after - before))%Z
  /\ (before <= after)%Z
  /\ ((0 <= devToolsNotificationsShown (context w0) <= 10)%Z ->
      (devToolsNotificationsShown (context w) <= 10)%Z
      /\ (after - before <= 10 - devToolsNotificationsShown (context w0))%Z).
Proof.
  intros w before after.
  pose (Q := fun w1 w2 : World =>
               countsDisplays w1 w2
               /\ (length (displayed (log w1)) <= length (displayed (log w2)))%nat
               /\ (devToolsNotificationsShown (context w1)
                   <= devToolsNotificationsShown (context w2))%Z).
  assert (forall w1, Q w1 w1) as Hrefl.
  { intros w1. unfold Q, countsDisplays. split_and!; lia. }
  assert (forall w1 w2 w3, Q w1 w2 -> Q w2 w3 -> Q w1 w3) as Htrans.
  { intros w1 w2 w3 ([Ha1 Ha2] & Hb1 & Hc1) ([Ha3 Ha4] & Hb2 & Hc2).
    unfold Q, countsDisplays. split_and!; lia. }
  assert (forall w1, Q w1 (fst (showDevToolsNotificationIfAppropriate imp w1))) as Hcall.
  { intros w1. unfold Q, countsDisplays.
    gate w1; rewrite ?displayed_app; simpl; rewrite ?length_app; simpl; split_and!; lia. }
  assert (forall r w1, Q w1 (fst (onChoice imp r w1))) as Hchoice.
  { intros r w1. unfold Q, countsDisplays.
    destruct r as [choice|e]; simpl; [|split_and!; lia].
    destruct (JS.strictEqStr choice (doNotAskAgainAction imp)); simpl; [split_and!; lia|].
    destruct (JS.strictEqStr choice (openDevToolsAction imp)); simpl; [|split_and!; lia].
    rewrite displayed_app. simpl. rewrite app_nil_r. split_and!; lia. }
  destruct (devToolsRun_respects imp Q Hrefl Htrans Hcall Hchoice actions
              (w0, []) (Forall_nil_2 _)) as [([Hc1 Hc2] & Hlen & Hmono) _].
  fold w in Hc1, Hc2, Hlen, Hmono. simpl in Hc1, Hc2, Hlen, Hmono.
  subst before after. split_and!; lia.
Qed.

Lemma throttleOnly_call (w : World) :
  throttleOnly w (fst (showDevToolsNotificationIfAppropriate imp w)).
Proof. unfold throttleOnly. gate w; done. Qed.

Lemma throttleOnly_choice (r : Response) (w : World) :
  throttleOnly w (fst (onChoice imp r w)).
Proof.
  unfold throttleOnly. destruct r as [choice|e]; simpl; [|done].
  destruct (JS.strictEqStr choice (doNotAskAgainAction imp)); simpl; [done|].
  by destruct (JS.strictEqStr choice (openDevToolsAction imp)).
Qed.

(** The DevTools notification keeps to its own state: along any sequence of
    calls and answers the prompt marks, the files and the workspace folders
    are what they were. *)
Theorem devtools_only_touches_throttle (w0 : World) (actions : list Action) :
  let w := fst (devToolsRun imp actions (w0, [])) in
  globalState (context w) = globalState (context w0)
  /\ files w = files w0
  /\ workspaceFolders w = workspaceFolders w0.
Proof.
  intros w.
  assert (forall w1 w2 w3, throttleOnly w1 w2 -> throttleOnly w2 w3 -> throttleOnly w1 w3)
    as Htrans.
  { intros w1 w2 w3 (H1 & H2 & H3) (H4 & H5 & H6). unfold throttleOnly.
    split_and!; congruence. }
  destruct (devToolsRun_respects imp throttleOnly (fun w1 => ltac:(by split_and!)) Htrans
              throttleOnly_call throttleOnly_choice actions (w0, []) (Forall_nil_2 _))
    as [H _].
  exact H.
Qed.

(** The display counts even when its outcome is lost: if the host rejects
    the notification's promise, the call is rejected too, yet the count was
    already raised by one and the opt-out flag is untouched. *)
Theorem devtools_rejected_still_counts (w : World) (e : JSError) (w1 : World) :
  let '(w', t) := showDevToolsNotificationIfAppropriate imp w in
  awaits t (devToolsNotification imp) ->
  devToolsNotificationsShown (context w') = (devToolsNotificationsShown (context w) + 1)%Z
  /\ devToolsNotificationDoNotShow (context w') = devToolsNotificationDoNotShow (context w)
  /\ resume t (Rejected e) w1 = (w1, Failed e).
Proof.
  pose proof (devtools_settled_or_displayed imp w) as Hshape. revert Hshape.
  gate w; intros [Hdone | [_ Hres]] Haw; try done;
    (split_and!; [done | done | apply Hres]).
Qed.

(** The skip on a recent time stamp, whatever the clock: a truthy stamp less
    than twenty hours before the reading of the clock makes the call return
    [false] with nothing displayed and nothing persisted. *)
Lemma devtools_recent_skip (w : World) (stamp : Z) :
  devToolsNotificationLastShown (context w) = Some stamp ->
  stamp <> 0%Z ->
  (clock w (ticks w) - stamp < noRepeatPromptThreshold)%Z ->
  let '(w', t) := showDevToolsNotificationIfAppropriate imp w in
  t = Done false /\ context w' = context w /\ log w' = log w.
Proof.
  intros Hlast Hnz Hrecent. gate w; try done; simplify_eq; lia.
Qed.

Lemma devtools_stamp (w : World) :
  let '(w1, t1) := showDevToolsNotificationIfAppropriate imp w in
  awaits t1 (devToolsNotification imp) ->
  exists n,
    (ticks w <= n)%nat /\ ticks w1 = S n /\ clock w1 = clock w
    /\ devToolsNotificationLastShown (context w1) = Some (clock w n).
Proof.
  gate w; intros Haw; try done.
  - by exists (ticks w).
  - exists (S (ticks w)). split_and!; try done. lia.
  - by exists (ticks w).
Qed.

(** Two calls in a row.  A call that displays the notification stamps a
    reading of the clock; if that reading is not zero and the clock has
    advanced less than twenty hours when the next call reads it, the next
    call displays nothing, also while the first notification is still
    unanswered. *)
Theorem devtools_second_call_suppressed (w : World) :
  let '(w1, t1) := showDevToolsNotificationIfAppropriate imp w in
  awaits t1 (devToolsNotification imp) ->
  exists n,
    (ticks w <= n)%nat /\ ticks w1 = S n
    /\ devToolsNotificationLastShown (context w1) = Some (clock w n)
    /\ (clock w n <> 0%Z ->
        (clock w (S n) - clock w n < noRepeatPromptThreshold)%Z ->
        let '(w2, t2) := showDevToolsNotificationIfAppropriate imp w1 in
        t2 = Done false /\ context w2 = context w1 /\ log w2 = log w1).
Proof.
  pose proof (devtools_stamp w) as Hstamp.
  destruct (showDevToolsNotificationIfAppropriate imp w) as [w1 t1].
  intros Haw. destruct (Hstamp Haw) as (n & Hn & Hticks & Hclock & Hlast).
  exists n. split_and!; try done.
  intros Hnz Hrecent. apply (devtools_recent_skip w1 (clock w n) Hlast Hnz).
  by rewrite Hclock, Hticks.
Qed.

End DevToolsOverTime.

Lemma devtools_at_most_ten_witness :
  (devToolsNotificationsShown
     (context (fst (devToolsRun stubImports [Call; Call] (world [] [], [])))) <= 10)%Z.
Proof.
  destruct (devtools_at_most_ten stubImports (world [] []) [Call; Call]) as (_ & _ & H).
  destruct H as [H _]; [simpl; lia | exact H].
Defined.

Lemma devtools_rejected_still_counts_witness :
  devToolsNotificationsShown
    (context (fst (showDevToolsNotificationIfAppropriate stubImports (world [] [])))) = 1%Z.
Proof.
  pose proof (devtools_rejected_still_counts stubImports (world [] [])
                (newError "cancelled") (world [] [])) as H.
  destruct (showDevToolsNotificationIfAppropriate stubImports (world [] [])) as [w' t] eqn:E.
  assert (awaits t (devToolsNotification stubImports)) as Haw.
  { injection E as _ <-. reflexivity. }
  destruct (H Haw) as [Hc _]. exact Hc.
Defined.

Lemma devtools_second_call_suppressed_witness :
  let w1 := fst (showDevToolsNotificationIfAppropriate stubImports (world [] [])) in
  snd (showDevToolsNotificationIfAppropriate stubImports w1) = Done false.
Proof.
  intros w1.
  pose proof (devtools_second_call_suppressed stubImports (world [] [])) as H.
  unfold w1.
  destruct (showDevToolsNotificationIfAppropriate stubImports (world [] [])) as [w' t] eqn:E.
  assert (awaits t (devToolsNotification stubImports)) as Haw.
  { injection E as _ <-. reflexivity. }
  destruct (H Haw) as (n & Hn1 & Hn2 & _ & Hnext).
  assert (n = 0%nat) as -> by (injection E as <- _; simpl in Hn2; lia).
  simpl.
  specialize (Hnext ltac:(vm_compute; discriminate) ltac:(vm_compute; reflexivity)).
  destruct (showDevToolsNotificationIfAppropriate stubImports w') as [w2 t2].
  by destruct Hnext as [-> _].
Defined.

(** ** Markers are handled once *)

Lemma entry_remove_eq (f : string) (w : World) : entry (remove f w) f = None.
Proof. unfold entry. simpl. by rewrite !lookup_delete_eq. Qed.

Lemma entry_remove_ne (f p : string) (w : World) :
  p <> f -> entry (remove f w) p = entry w p.
Proof. intros Hne. unfold entry. simpl. by rewrite !lookup_delete_ne. Qed.

Lemma entry_file (w : World) (p content : string) :
  entry w p = Some (inl content) <-> files w !! p = Some content.
Proof.
  unfold entry. destruct (files w !! p) as [c|].
  - split; intros [= ->]; done.
  - destruct (obstructed w !! p); simpl; split; intros [=].
Qed.

Lemma entry_same (w w' : World) :
  files w' = files w -> obstructed w' = obstructed w ->
  forall p, entry w' p = entry w p.
Proof. intros Hf Ho p. unfold entry. by rewrite Hf, Ho. Qed.

#[local] Instance onlyDeletes_invariant : HostInvariant onlyDeletes.
Proof.
  split.
  - intros w. split; [by right | done].
  - intros w1 w2 w3 [H1 H2] [H3 H4]. split; [|congruence].
    intros p. destruct (H3 p) as [Hp | Hp]; [by left|]. rewrite Hp. apply H1.
  - intros e w. split; [by right | done].
  - intros e f w. split; [|done]. intros p. destruct (decide (p = f)) as [->|Hne].
    + left. apply entry_remove_eq.
    + right. by apply entry_remove_ne.
Qed.

#[local] Instance throttleSame_invariant : HostInvariant throttleSame.
Proof.
  split; unfold throttleSame; simpl; try done.
  intros w1 w2 w3 (H1 & H2 & H3) (H4 & H5 & H6). split_and!; congruence.
Qed.

Section Markers.

Variable imp : Imports.

Ltac run :=
  unfold handleStagehandTrigger, handleDartWelcome, createDartProject,
    handleFlutterCreateTrigger, createFlutterProject, handleFlutterWelcome,
    bind, then_, await, fire, fs.existsSync, fs.readFileSync, fs.unlinkSync,
    vs.window.showErrorMessage, vs.window.showInformationMessage,
    vs.commands.executeCommand, request; simpl.

Ltac look :=
  repeat (simpl;
          match goal with
          | H : files ?w !! ?f = _ |- context [files ?w !! ?f] => rewrite H
          | H : obstructed ?w !! ?f = _ |- context [obstructed ?w !! ?f] => rewrite H
          | H : onRead ?o = _ |- context [onRead ?o] => rewrite H
          | H : onUnlink ?o = _ |- context [onUnlink ?o] => rewrite H
          end); simpl.

(** After its synchronous part a scaffolding handler has left its marker
    only if the marker is stuck. *)
Lemma handleStagehandTrigger_spends (wf : WorkspaceFolder) (triggerFilename : string)
  (w : World) :
  let f := path.join [fsPath (uri wf); triggerFilename] in
  let w' := fst (handleStagehandTrigger imp wf triggerFilename w) in
  forall e, entry w' f = Some e -> stuck imp e.
Proof.
  intros f. run. fold f.
  destruct (fs.present w f) eqn:Hp; simpl.
  2: { intros e He. apply present_entry in Hp. change (entry w f = Some e) in He.
       congruence. }
  destruct (files w !! f) as [content|] eqn:Hfile.
  - assert (entry w f = Some (inl content)) as Hentry by (by apply entry_file).
    look. destruct (JSON_parse imp (JSString.trim content)) as [err|template] eqn:Hparse;
      simpl.
    + intros e He. change (entry w f = Some e) in He. rewrite Hentry in He.
      injection He as <-. simpl. eauto.
    + look. destruct (JS.getProperty template "name") as [err|name]; simpl;
        intros e He; change (entry (remove f w) f = Some e) in He;
        by rewrite entry_remove_eq in He.
  - destruct (obstructed w !! f) as [o|] eqn:Hobs.
    2: { exfalso. unfold fs.present in Hp.
         rewrite (bool_decide_is_Some_None _ Hfile), (bool_decide_is_Some_None _ Hobs) in Hp.
         discriminate Hp. }
    assert (entry w f = Some (inr o)) as Hentry.
    { unfold entry. by rewrite Hfile, Hobs. }
    destruct (onRead o) as [err|content] eqn:Hread.
    + look. intros e He. change (entry w f = Some e) in He. rewrite Hentry in He.
      injection He as <-. simpl. by rewrite Hread.
    + look. destruct (JSON_parse imp (JSString.trim content)) as [err|template] eqn:Hparse;
        simpl.
      * intros e He. change (entry w f = Some e) in He. rewrite Hentry in He.
        injection He as <-. simpl. rewrite Hread. eauto.
      * destruct (onUnlink o) as [err|] eqn:Hunlink.
        -- look. intros e He. change (entry w f = Some e) in He. rewrite Hentry in He.
           injection He as <-. simpl. rewrite Hread, Hunlink. eauto.
        -- look. destruct (JS.getProperty template "name") as [err|name]; simpl;
             intros e He; change (entry (remove f w) f = Some e) in He;
             by rewrite entry_remove_eq in He.
Qed.

(** When the plain function returns, its marker is gone. *)
Lemma handleFlutterCreateTrigger_spends (wf : WorkspaceFolder) (w : World) :
  let '(w', t) := handleFlutterCreateTrigger imp wf w in
  (forall e, t <> Failed e) -> entry w' (flutterTriggerFile imp wf) = None.
Proof.
  unfold flutterTriggerFile.
  pose (f := path.join [fsPath (uri wf); FLUTTER_CREATE_PROJECT_TRIGGER_FILE imp]).
  run. fold f.
  destruct (fs.present w f) eqn:Hp; simpl.
  2: { intros _. by apply present_entry in Hp. }
  destruct (files w !! f) as [content|] eqn:Hfile.
  - look. intros _. apply entry_remove_eq.
  - destruct (obstructed w !! f) as [o|] eqn:Hobs.
    2: { look. intros H. by destruct (H _ eq_refl). }
    destruct (onRead o) as [err|content] eqn:Hread.
    + look. intros H. by destruct (H _ eq_refl).
    + destruct (onUnlink o) as [err|] eqn:Hunlink.
      * look. intros H. by destruct (H _ eq_refl).
      * look. intros _. apply entry_remove_eq.
Qed.

(** Deleting does not bring a marker back. *)
Lemma spent_onlyDeletes (wf : WorkspaceFolder) (w w' : World) :
  onlyDeletes w w' -> spent imp wf w -> spent imp wf w'.
Proof.
  intros [Hsub _] [Hstage Hflutter]. split.
  - intros name e Hname Hentry. apply (Hstage name e Hname).
    destruct (Hsub (path.join [fsPath (uri wf); name])) as [H | H]; congruence.
  - destruct (Hsub (flutterTriggerFile imp wf)) as [H | H]; congruence.
Qed.

Lemma handleFolder_spends (wf : WorkspaceFolder) (st : World * Pool) :
  snd (handleFolder imp wf st) = None ->
  spent imp wf (fst (fst (handleFolder imp wf st))).
Proof.
  destruct st as [w pool]. unfold handleFolder, spawn.
  pose proof (handleStagehandTrigger_spends wf (DART_STAGEHAND_PROJECT_TRIGGER_FILE imp) w)
    as Hs1.
  destruct (handleStagehandTrigger imp wf (DART_STAGEHAND_PROJECT_TRIGGER_FILE imp) w)
    as [w1 t1].
  pose proof (handleStagehandTrigger_spends wf (FLUTTER_STAGEHAND_PROJECT_TRIGGER_FILE imp) w1)
    as Hs2.
  destruct (handleStagehandTrigger_ok imp onlyDeletes wf
              (FLUTTER_STAGEHAND_PROJECT_TRIGGER_FILE imp) w1) as [Hd2 _].
  destruct (handleStagehandTrigger imp wf (FLUTTER_STAGEHAND_PROJECT_TRIGGER_FILE imp) w1)
    as [w2 t2].
  pose proof (handleFlutterCreateTrigger_spends wf w2) as Hs3.
  destruct (handleFlutterCreateTrigger_ok imp onlyDeletes wf w2) as [Hd3 _].
  destruct (handleFlutterCreateTrigger imp wf w2) as [w3 t3].
  simpl in *. intros Hnone.
  assert (forall e, t3 <> Failed e) as Hreturned.
  { intros e ->. discriminate Hnone. }
  assert (spent imp wf w3) as Hspent.
  { split; [|by apply Hs3].
    intros name e [-> | ->] Hentry.
    - apply Hs1. destruct Hd3 as [Hsub3 _], Hd2 as [Hsub2 _].
      destruct (Hsub3 (path.join [fsPath (uri wf); DART_STAGEHAND_PROJECT_TRIGGER_FILE imp]))
        as [H | H]; [congruence|].
      destruct (Hsub2 (path.join [fsPath (uri wf); DART_STAGEHAND_PROJECT_TRIGGER_FILE imp]))
        as [H' | H']; congruence.
    - apply Hs2. destruct Hd3 as [Hsub3 _].
      destruct (Hsub3 (path.join [fsPath (uri wf);
                                  FLUTTER_STAGEHAND_PROJECT_TRIGGER_FILE imp]))
        as [H | H]; congruence. }
  by destruct t3 as [[]|e|on k].
Qed.

Lemma forEach_spends (folders : list WorkspaceFolder) (st : World * Pool) :
  Forall (taskOk onlyDeletes) (snd st) ->
  snd (forEach imp folders st) = None ->
  forall wf, In wf folders -> spent imp wf (fst (fst (forEach imp folders st))).
Proof.
  revert st. induction folders as [|wf folders IH]; intros st Hpool Hnone; simpl in *;
    [done|].
  pose proof (handleFolder_spends wf st) as Hs.
  destruct (handleFolder_ok imp onlyDeletes wf st Hpool) as [_ Hpool'].
  destruct (handleFolder imp wf st) as [st' [e|]]; [done|]. simpl in Hs, Hpool'.
  intros wf' [<- | Hin]; [|by apply IH].
  apply (spent_onlyDeletes wf (fst st')); [|by apply Hs].
  by destruct (forEach_ok imp onlyDeletes folders st' Hpool').
Qed.

(** On a marker that is gone, or stuck, a scaffolding handler creates
    nothing and deletes nothing, and its promise is settled. *)
Lemma handleStagehandTrigger_quiet (wf : WorkspaceFolder) (triggerFilename : string)
  (w : World) :
  let f := path.join [fsPath (uri wf); triggerFilename] in
  (forall e, entry w f = Some e -> stuck imp e) ->
  let '(w', t) := handleStagehandTrigger imp wf triggerFilename w in
  settled t = true
  /\ files w' = files w
  /\ obstructed w' = obstructed w
  /\ workspaceFolders w' = workspaceFolders w
  /\ context w' = context w
  /\ exists events, log w' = log w ++ events /\ forallb quietEvent events = true.
Proof.
  intros f Hspent. run. fold f.
  destruct (fs.present w f) eqn:Hp; simpl.
  2: { split_and!; try done. by eexists [_]. }
  destruct (files w !! f) as [content|] eqn:Hfile.
  - assert (entry w f = Some (inl content)) as Hentry by (by apply entry_file).
    destruct (Hspent _ Hentry) as [err Hparse]. look. rewrite Hparse. simpl.
    split_and!; try done. eexists [_; _; _]. by rewrite <- !app_assoc.
  - destruct (obstructed w !! f) as [o|] eqn:Hobs.
    2: { exfalso. unfold fs.present in Hp.
         rewrite (bool_decide_is_Some_None _ Hfile), (bool_decide_is_Some_None _ Hobs) in Hp.
         discriminate Hp. }
    assert (entry w f = Some (inr o)) as Hentry.
    { unfold entry. by rewrite Hfile, Hobs. }
    pose proof (Hspent _ Hentry) as Hstuck. simpl in Hstuck.
    destruct (onRead o) as [err|content] eqn:Hread.
    + look. split_and!; try done. eexists [_; _]. by rewrite <- !app_assoc.
    + look. destruct (JSON_parse imp (JSString.trim content)) as [err|template] eqn:Hparse;
        simpl.
      * split_and!; try done. eexists [_; _; _]. by rewrite <- !app_assoc.
      * destruct Hstuck as [[err Herr] | [err Hunlink]]; [congruence|].
        look. split_and!; try done. eexists [_; _; _]. by rewrite <- !app_assoc.
Qed.

Lemma handleFlutterCreateTrigger_quiet (wf : WorkspaceFolder) (w : World) :
  entry w (flutterTriggerFile imp wf) = None ->
  handleFlutterCreateTrigger imp wf w
  = (emit (ExistsSync (flutterTriggerFile imp wf)) w, Done tt).
Proof.
  intros Hentry. apply present_entry in Hentry. unfold flutterTriggerFile in *.
  run. by rewrite Hentry.
Qed.

Lemma handleFolder_spent (wf : WorkspaceFolder) (st : World * Pool) :
  spent imp wf (fst st) ->
  let '(st', thrown) := handleFolder imp wf st in
  thrown = None
  /\ files (fst st') = files (fst st)
  /\ obstructed (fst st') = obstructed (fst st)
  /\ workspaceFolders (fst st') = workspaceFolders (fst st)
  /\ context (fst st') = context (fst st)
  /\ (Forall (fun t => settled t = true) (snd st) ->
      Forall (fun t => settled t = true) (snd st'))
  /\ exists events, log (fst st') = log (fst st) ++ events
                    /\ forallb quietEvent events = true.
Proof.
  destruct st as [w pool]. intros [Hstage Hflutter]. unfold handleFolder, spawn. simpl in *.
  pose proof (handleStagehandTrigger_quiet wf (DART_STAGEHAND_PROJECT_TRIGGER_FILE imp) w
                (fun e => Hstage _ e (or_introl eq_refl))) as H1.
  destruct (handleStagehandTrigger imp wf (DART_STAGEHAND_PROJECT_TRIGGER_FILE imp) w)
    as [w1 t1].
  destruct H1 as (Ht1 & Hf1 & Ho1 & Hw1 & Hc1 & ev1 & Hl1 & Hq1).
  assert (forall e,
             entry w1 (path.join [fsPath (uri wf);
                                  FLUTTER_STAGEHAND_PROJECT_TRIGGER_FILE imp]) = Some e ->
             stuck imp e) as Hstage2.
  { intros e He. rewrite (entry_same w w1 Hf1 Ho1) in He.
    by apply (Hstage _ e (or_intror eq_refl)). }
  pose proof (handleStagehandTrigger_quiet wf (FLUTTER_STAGEHAND_PROJECT_TRIGGER_FILE imp) w1
                Hstage2) as H2.
  destruct (handleStagehandTrigger imp wf (FLUTTER_STAGEHAND_PROJECT_TRIGGER_FILE imp) w1)
    as [w2 t2].
  destruct H2 as (Ht2 & Hf2 & Ho2 & Hw2 & Hc2 & ev2 & Hl2 & Hq2).
  assert (entry w2 (flutterTriggerFile imp wf) = None) as Hflutter2.
  { rewrite (entry_same w1 w2 Hf2 Ho2), (entry_same w w1 Hf1 Ho1). exact Hflutter. }
  rewrite (handleFlutterCreateTrigger_quiet wf w2 Hflutter2).
  simpl. split_and!; try congruence.
  - intros Hpool. rewrite !Forall_app. split_and!; [done | | |]; by constructor.
  - exists (ev1 ++ ev2 ++ [ExistsSync (flutterTriggerFile imp wf)]). split.
    + by rewrite Hl2, Hl1, <- !app_assoc.
    + by rewrite !forallb_app, Hq1, Hq2.
Qed.

Lemma forEach_spent (folders : list WorkspaceFolder) (st : World * Pool) :
  (forall wf, In wf folders -> spent imp wf (fst st)) ->
  let '(st', thrown) := forEach imp folders st in
  thrown = None
  /\ files (fst st') = files (fst st)
  /\ obstructed (fst st') = obstructed (fst st)
  /\ workspaceFolders (fst st') = workspaceFolders (fst st)
  /\ context (fst st') = context (fst st)
  /\ (Forall (fun t => settled t = true) (snd st) ->
      Forall (fun t => settled t = true) (snd st'))
  /\ exists events, log (fst st') = log (fst st) ++ events
                    /\ forallb quietEvent events = true.
Proof.
  revert st. induction folders as [|wf folders IH]; intros st Hspent; simpl.
  - split_and!; try done. exists []. by rewrite app_nil_r.
  - pose proof (handleFolder_spent wf st (Hspent wf (or_introl eq_refl))) as H.
    destruct (handleFolder imp wf st) as [st1 thrown1].
    destruct H as (-> & Hf & Ho & Hw & Hc & Hp & ev & Hl & Hq).
    assert (forall wf', In wf' folders -> spent imp wf' (fst st1)) as Hspent1.
    { intros wf' Hin. destruct (Hspent wf' (or_intror Hin)) as [Hs1 Hs2].
      split.
      - intros name e Hname He. rewrite (entry_same _ _ Hf Ho) in He. by eapply Hs1.
      - by rewrite (entry_same _ _ Hf Ho). }
    pose proof (IH st1 Hspent1) as H'.
    destruct (forEach imp folders st1) as [st' thrown].
    destruct H' as (-> & Hf' & Ho' & Hw' & Hc' & Hp' & ev' & Hl' & Hq').
    split_and!; try congruence.
    + auto.
    + exists (ev ++ ev'). split.
      * by rewrite Hl', Hl, <- app_assoc.
      * by rewrite forallb_app, Hq, Hq'.
Qed.

Lemma handleStagehandTrigger_absent (wf : WorkspaceFolder) (triggerFilename : string)
  (w : World) :
  fs.present w (path.join [fsPath (uri wf); triggerFilename]) = false ->
  handleStagehandTrigger imp wf triggerFilename w
  = (emit (ExistsSync (path.join [fsPath (uri wf); triggerFilename])) w, Done tt).
Proof. intros Hfile. run. by rewrite Hfile. Qed.

Lemma handleFlutterCreateTrigger_absent (wf : WorkspaceFolder) (w : World) :
  fs.present w (path.join [fsPath (uri wf); FLUTTER_CREATE_PROJECT_TRIGGER_FILE imp]) = false ->
  handleFlutterCreateTrigger imp wf w
  = (emit (ExistsSync (path.join [fsPath (uri wf);
                                  FLUTTER_CREATE_PROJECT_TRIGGER_FILE imp])) w, Done tt).
Proof. intros Hfile. run. by rewrite Hfile. Qed.

Lemma handleFolder_unmarked (wf : WorkspaceFolder) (st : World * Pool) :
  unmarked imp wf (fst st) ->
  let '(st', thrown) := handleFolder imp wf st in
  thrown = None
  /\ log (fst st') = log (fst st) ++ markerChecks imp wf
  /\ files (fst st') = files (fst st)
  /\ obstructed (fst st') = obstructed (fst st)
  /\ context (fst st') = context (fst st)
  /\ snd st' = snd st ++ [Done tt; Done tt; Done tt].
Proof.
  destruct st as [w pool]. intros Hun. unfold handleFolder, spawn. simpl in *.
  rewrite handleStagehandTrigger_absent by (apply Hun; simpl; auto).
  rewrite handleStagehandTrigger_absent by (simpl; apply Hun; simpl; auto).
  rewrite handleFlutterCreateTrigger_absent by (simpl; apply Hun; simpl; auto).
  simpl. split_and!; try done; by rewrite <- !app_assoc.
Qed.

Lemma forEach_unmarked (folders : list WorkspaceFolder) (st : World * Pool) :
  (forall wf, In wf folders -> unmarked imp wf (fst st)) ->
  let '(st', thrown) := forEach imp folders st in
  thrown = None
  /\ log (fst st') = log (fst st) ++ flat_map (markerChecks imp) folders
  /\ files (fst st') = files (fst st)
  /\ obstructed (fst st') = obstructed (fst st)
  /\ context (fst st') = context (fst st)
  /\ snd st' = snd st ++ replicate (3 * length folders) (Done tt).
Proof.
  revert st. induction folders as [|wf folders IH]; intros st Hun.
  - simpl. by rewrite !app_nil_r.
  - pose proof (handleFolder_unmarked wf st (Hun wf (or_introl eq_refl))) as H.
    change (forEach imp (wf :: folders) st)
      with (match handleFolder imp wf st with
            | (st', None) => forEach imp folders st'
            | (st', Some e) => (st', Some e)
            end).
    destruct (handleFolder imp wf st) as [st1 thrown1].
    destruct H as (-> & Hl & Hf & Ho & Hc & Hp).
    assert (forall wf', In wf' folders -> unmarked imp wf' (fst st1)) as Hun1.
    { intros wf' Hin name Hname. unfold fs.present. rewrite Hf, Ho.
      by apply (Hun wf' (or_intror Hin)). }
    pose proof (IH st1 Hun1) as H'.
    destruct (forEach imp folders st1) as [st' thrown].
    destruct H' as (-> & Hl' & Hf' & Ho' & Hc' & Hp').
    split_and!; try congruence.
    + rewrite Hl', Hl. change (flat_map (markerChecks imp) (wf :: folders))
        with (markerChecks imp wf ++ flat_map (markerChecks imp) folders).
      by rewrite app_assoc.
    + rewrite Hp', Hp, <- app_assoc. f_equal.
      replace (3 * length (wf :: folders))%nat with (S (S (S (3 * length folders))))
        by (simpl; lia).
      done.
Qed.

(** A workspace without markers: the pass returns, having made the three
    existence checks of every folder, in order, and nothing else; it starts
    no creation, shows no message, leaves the file system and the persisted
    state as they are, and every promise it returns is already fulfilled. *)
Theorem handleNewProjects_unmarked (w : World) :
  (forall wf, In wf (getDartWorkspaceFolders w) -> unmarked imp wf w) ->
  let '(w', pool, thrown) := handleNewProjects imp w in
  log w' = log w ++ flat_map (markerChecks imp) (getDartWorkspaceFolders w)
  /\ files w' = files w
  /\ context w' = context w
  /\ pool = replicate (3 * length (getDartWorkspaceFolders w)) (Done tt)
  /\ thrown = None
  /\ obstructed w' = obstructed w.
Proof.
  intros Hun. unfold handleNewProjects.
  pose proof (forEach_unmarked (getDartWorkspaceFolders w) (w, []) Hun) as H.
  destruct (forEach imp (getDartWorkspaceFolders w) (w, [])) as [[w' pool] thrown].
  simpl in H. by destruct H as (-> & -> & -> & -> & -> & ->).
Qed.

End Markers.
(** ** What a run of the module leaves alone *)

Section ModuleRuns.

Variable imp : Imports.

Context (P : World -> World -> Prop) `{!HostInvariant P}.

Hypothesis P_update : forall key value w, P w (fst (Ctx.update key value w)).

Lemma promptToInstallFlutterExtension_respects :
  asyncSpec P (fun _ => True) promptToInstallFlutterExtension.
Proof.
  intros w. split; [apply hi_emit|]. simpl. intros r wa.
  destruct (promptToInstallFlutterExtension_resume w r wa) as (_ & _ & Hres).
  simpl in Hres. rewrite Hres.
  destruct r as [res|e]; simpl; [|split; [apply hi_refl | done]].
  split; [|done]. destruct (JS.truthy res); [apply hi_emit | apply hi_refl].
Qed.

Lemma promptToShowReleaseNotes_respects :
  asyncSpec P (fun _ => True)
    (promptToShowReleaseNotes (extensionVersion imp) (versionLink imp)).
Proof.
  intros w. split; [apply hi_emit|]. simpl. intros r wa.
  destruct (promptToShowReleaseNotes_resume imp w r wa) as (_ & _ & Hres).
  simpl in Hres. rewrite Hres.
  destruct r as [res|e]; simpl; [|split; [apply hi_refl | done]].
  split; [|done]. destruct (JS.truthy res); [apply hi_emit | apply hi_refl].
Qed.

Lemma showPrompt_respects (key : string) (prompt : Async bool) :
  asyncSpec P (fun _ => True) prompt ->
  asyncSpec P (fun _ => True) (showPrompt key prompt).
Proof.
  intros Hprompt. unfold showPrompt.
  apply (asyncSpec_then P) with (Q := fun _ => True); [done | |].
  - intros res _ w. split; [apply P_update | done].
  - intros e. apply (error_ok P).
Qed.

Lemma showUserPrompts_respects (workspaceContext : WorkspaceContext) (w : World) :
  P w (fst (fst (showUserPrompts imp workspaceContext w)))
  /\ Forall (taskOk P) (snd (fst (showUserPrompts imp workspaceContext w))).
Proof.
  unfold showUserPrompts, handleNewProjects.
  destruct (forEach_ok imp P (getDartWorkspaceFolders w) (w, []))
    as [Hp Hpool]; [by constructor|].
  destruct (forEach imp (getDartWorkspaceFolders w) (w, [])) as [st [e|]]; [done|].
  simpl in Hp, Hpool.
  destruct (_ && _ && _).
  { destruct (spawn_ok P _ st
                (showPrompt_respects installFlutterExtensionPromptKey _
                   promptToInstallFlutterExtension_respects) Hpool)
      as [Hp' Hpool'].
    split; [by eapply hi_trans | done]. }
  destruct (_ && _).
  { destruct (spawn_ok P _ st
                (showPrompt_respects (releaseNotesKeyForThisVersion imp) _
                   promptToShowReleaseNotes_respects) Hpool)
      as [Hp' Hpool'].
    split; [by eapply hi_trans | done]. }
  done.
Qed.

Lemma moduleStep_respects (a : Activity) (st : World * Pool) :
  Forall (taskOk P) (snd st) ->
  P (fst st) (fst (moduleStep imp a st))
  /\ Forall (taskOk P) (snd (moduleStep imp a st)).
Proof.
  intros Hpool. destruct a as [workspaceContext | i r]; simpl.
  - destruct (showUserPrompts_respects workspaceContext (fst st)) as [Hp Hs].
    destruct (showUserPrompts imp workspaceContext (fst st)) as [[w' started] thrown].
    simpl in *. split; [done | by apply Forall_app].
  - by apply (settle_ok P).
Qed.

Lemma moduleRun_respects (activities : list Activity) (st : World * Pool) :
  Forall (taskOk P) (snd st) ->
  P (fst st) (fst (moduleRun imp activities st))
  /\ Forall (taskOk P) (snd (moduleRun imp activities st)).
Proof.
  revert st. induction activities as [|a activities IH]; intros st Hpool; simpl.
  - split; [apply hi_refl | done].
  - destruct (moduleStep_respects a st Hpool) as [Hp Hpool'].
    destruct (IH _ Hpool') as [Hp' Hpool''].
    split; [by eapply hi_trans | done].
Qed.

(** From the start of the module, with nothing pending. *)
Lemma moduleRun_respects_from_start (w0 : World) (before activities : list Activity) :
  P (fst (moduleRun imp before (w0, [])))
    (fst (moduleRun imp activities (moduleRun imp before (w0, [])))).
Proof.
  destruct (moduleRun_respects before (w0, [])) as [_ Hpool]; [by constructor|].
  by destruct (moduleRun_respects activities _ Hpool).
Qed.

End ModuleRuns.

Section ModuleFrame.

Variable imp : Imports.

Lemma onlyDeletes_update (key : string) (value : JSON) (w : World) :
  onlyDeletes w (fst (Ctx.update key value w)).
Proof. split; [by right | done]. Qed.

(** Along every run of the module (activations, and answers of the host to
    whatever is pending, in any order) the module creates no file and
    overwrites none: a file that is there after the run was there before it,
    with the same content.  The workspace folders are the same. *)
Theorem module_never_writes_files (w0 : World) (before activities : list Activity) :
  let st := moduleRun imp before (w0, []) in
  let st' := moduleRun imp activities st in
  (forall file content,
      files (fst st') !! file = Some content -> files (fst st) !! file = Some content)
  /\ workspaceFolders (fst st') = workspaceFolders (fst st).
Proof.
  intros st st'.
  destruct (moduleRun_respects_from_start imp onlyDeletes onlyDeletes_update)
    with (w0 := w0) (before := before) (activities := activities) as [Hsub Hfolders].
  fold st in Hsub, Hfolders. fold st' in Hsub, Hfolders.
  split; [|done]. intros file content Hfile. apply entry_file. apply entry_file in Hfile.
  destruct (Hsub file) as [H | H]; congruence.
Qed.

(** Along every run of the module the three fields of the DevTools throttle
    stay as they are: the prompts and the trigger handlers persist under
    [globalState] only. *)
Theorem module_leaves_throttle (w0 : World) (before activities : list Activity) :
  let st := moduleRun imp before (w0, []) in
  let st' := moduleRun imp activities st in
  throttleSame (fst st) (fst st').
Proof.
  intros st st'.
  by apply (moduleRun_respects_from_start imp throttleSame).
Qed.

(** After an activation whose pass returned, no marker of the workspace
    would start a creation. *)
Lemma showUserPrompts_spends (workspaceContext : WorkspaceContext) (w : World) :
  snd (handleNewProjects imp w) = None ->
  let w' := fst (fst (showUserPrompts imp workspaceContext w)) in
  workspaceFolders w' = workspaceFolders w
  /\ forall wf, In wf (getDartWorkspaceFolders w) -> spent imp wf w'.
Proof.
  intros Hreturned w'.
  assert (Forall (taskOk onlyDeletes) (@nil (Task unit))) as Hnil by apply Forall_nil_2.
  pose proof (forEach_spends imp (getDartWorkspaceFolders w) (w, []) Hnil) as Hs.
  destruct (forEach_ok imp onlyDeletes (getDartWorkspaceFolders w) (w, []) Hnil)
    as [Hd0 Hpool].
  assert (onlyDeletes (fst (fst (handleNewProjects imp w))) w') as Hd.
  { subst w'. unfold showUserPrompts. unfold handleNewProjects in *.
    destruct (forEach imp (getDartWorkspaceFolders w) (w, [])) as [st [e|]];
      [apply hi_refl|].
    simpl in Hpool. simpl.
    destruct (_ && _ && _).
    { apply (spawn_ok onlyDeletes); [|done].
      apply (showPrompt_respects onlyDeletes onlyDeletes_update).
      apply (promptToInstallFlutterExtension_respects onlyDeletes). }
    destruct (_ && _).
    { apply (spawn_ok onlyDeletes); [|done].
      apply (showPrompt_respects onlyDeletes onlyDeletes_update).
      apply (promptToShowReleaseNotes_respects imp onlyDeletes). }
    apply hi_refl. }
  fold (handleNewProjects imp w) in Hd0, Hs. simpl in Hd0.
  split.
  - destruct Hd as [_ ->]. by destruct Hd0 as [_ ->].
  - intros wf Hin. eapply spent_onlyDeletes; [exact Hd | by apply Hs].
Qed.

(** A pass over folders whose markers are spent. *)
Lemma handleNewProjects_spent (w : World) :
  (forall wf, In wf (getDartWorkspaceFolders w) -> spent imp wf w) ->
  let '(w', pool, thrown) := handleNewProjects imp w in
  thrown = None
  /\ files w' = files w
  /\ obstructed w' = obstructed w
  /\ Forall (fun t => settled t = true) pool
  /\ exists events, log w' = log w ++ events /\ forallb quietEvent events = true.
Proof.
  intros Hspent. unfold handleNewProjects.
  pose proof (forEach_spent imp (getDartWorkspaceFolders w) (w, []) Hspent) as H.
  destruct (forEach imp (getDartWorkspaceFolders w) (w, [])) as [[w' pool] thrown].
  simpl in H. destruct H as (-> & Hf & Ho & _ & _ & Hp & Hev).
  split_and!; try done. apply Hp, Forall_nil_2.
Qed.

(** Markers are handled once.  After an activation whose pass over the
    workspace folders returned, and whatever the module does afterwards
    (further activations, answers of the host, in any order), a pass over the
    workspace folders returns too, starts no creation, deletes nothing and
    leaves only promises that are already settled; its host calls are the
    existence checks and, on a marker that is stuck, the read, the error
    message and the attempt to delete.  Every marker that could start a
    creation was deleted by the pass that found it, before its create
    command was issued. *)
Theorem markers_handled_once (w0 : World) (before after : list Activity)
  (workspaceContext : WorkspaceContext) :
  let st0 := moduleRun imp before (w0, []) in
  let st := moduleRun imp after (moduleStep imp (Activate workspaceContext) st0) in
  snd (handleNewProjects imp (fst st0)) = None ->
  let '(w', pool, thrown) := handleNewProjects imp (fst st) in
  thrown = None
  /\ files w' = files (fst st)
  /\ obstructed w' = obstructed (fst st)
  /\ Forall (fun t => settled t = true) pool
  /\ exists events, log w' = log (fst st) ++ events /\ forallb quietEvent events = true.
Proof.
  intros st0 st Hreturned.
  set (st1 := moduleStep imp (Activate workspaceContext) st0) in *.
  destruct (showUserPrompts_spends workspaceContext (fst st0) Hreturned)
    as [Hfolders Hspent].
  assert (fst st1 = fst (fst (showUserPrompts imp workspaceContext (fst st0)))) as Hfst.
  { subst st1. simpl. by destruct (showUserPrompts imp workspaceContext (fst st0)) as [[? ?] ?]. }
  rewrite <- Hfst in Hfolders, Hspent.
  assert (st1 = moduleRun imp (before ++ [Activate workspaceContext]) (w0, [])) as Hst1.
  { subst st1 st0. unfold moduleRun. by rewrite fold_left_app. }
  destruct (moduleRun_respects_from_start imp onlyDeletes onlyDeletes_update)
    with (w0 := w0) (before := before ++ [Activate workspaceContext]) (activities := after)
    as [Hsub Hsame].
  rewrite <- Hst1 in Hsub, Hsame. fold st in Hsub, Hsame.
  apply handleNewProjects_spent.
  intros wf Hin. apply (spent_onlyDeletes imp wf (fst st1)); [by split|].
  apply Hspent. unfold getDartWorkspaceFolders in *. congruence.
Qed.

(** One prompt per activation.  In a Flutter workspace without the Flutter
    extension, with neither prompt marked seen, an activation whose pass over
    the workspace folders returns displays the prompt to install the
    extension and not the release notes; once the user has answered it
    (whatever the answer), the pass of the next activation returns as well,
    and that activation displays the release notes prompt. *)
Theorem install_then_release_notes (workspaceContext : WorkspaceContext) (w : World)
  (res : JSValue) :
  hasAnyFlutterProjects workspaceContext = true ->
  hasFlutterExtension imp = false ->
  isDevExtension imp = false ->
  ~ markedSeen "install_flutter_extension" w ->
  ~ markedSeen (releaseNotesId imp) w ->
  snd (handleNewProjects imp w) = None ->
  let '(w1, pool, thrown) := showUserPrompts imp workspaceContext w in
  thrown = None
  /\ displayed (log w1) = displayed (log w) ++ [installFlutterExtensionPrompt]
  /\ exists t,
      last pool = Some t
      /\ awaits t installFlutterExtensionPrompt
      /\ let w2 := fst (resume t (Fulfilled res) w1) in
         let '(w3, _, thrown3) := showUserPrompts imp workspaceContext w2 in
         thrown3 = None
         /\ displayed (log w3)
            = displayed (log w) ++ [installFlutterExtensionPrompt; releaseNotesPrompt imp].
Proof.
  intros Hflutter Hext Hdev Hinstall Hnotes Hreturned.
  pose proof (showUserPrompts_displayed imp workspaceContext w) as Hd.
  pose proof (showUserPrompts_started imp workspaceContext w) as Hs.
  pose proof (showUserPrompts_spends workspaceContext w Hreturned) as Hspends.
  destruct (showUserPrompts imp workspaceContext w) as [[w1 pool] thrown].
  destruct Hd as (Hthrown & Hd & Hx). rewrite Hreturned in Hthrown. subst thrown.
  simpl in Hspends. destruct Hspends as [Hfolders Hspent].
  assert (firstEligiblePrompt imp workspaceContext w = [installFlutterExtensionPrompt])
    as Hfirst.
  { unfold firstEligiblePrompt. rewrite Hflutter, Hext. simpl.
    destruct (seen "install_flutter_extension" w) eqn:Hseen; [|done].
    by apply seen_markedSeen in Hseen. }
  rewrite Hfirst in Hd, Hs. split_and!; [done | done |].
  destruct (Hs eq_refl) as [[w0 Hlast] _]; [by left|].
  eexists. split; [exact Hlast|]. split; [apply install_task|]. cbv zeta.
  destruct (showPrompt_resume installFlutterExtensionPromptKey
              promptToInstallFlutterExtension w0 (Fulfilled res) w1) as [_ Hres].
  destruct (promptToInstallFlutterExtension_resume w0 (Fulfilled res) w1) as (_ & _ & Hr).
  rewrite Hr in Hres. rewrite Hres.
  set (wb := if JS.truthy res
             then emit (OpenInBrowser
                          "https://marketplace.visualstudio.com/items?itemName=Dart-Code.flutter")
                    w1
             else w1) in *.
  assert (context wb = context w /\ displayed (log wb) = displayed (log w1)
          /\ files wb = files w1 /\ obstructed wb = obstructed w1
          /\ workspaceFolders wb = workspaceFolders w1) as (Hcb & Hlb & Hfb & Hob & Hwb).
  { subst wb. destruct (JS.truthy res); [|done]. split_and!; try done.
    simpl. rewrite displayed_app. apply app_nil_r. }
  set (w2 := fst (Ctx.update (promptPrefix +:+ installFlutterExtensionPromptKey)
                    (JBool true) wb)).
  assert (snd (handleNewProjects imp w2) = None) as Hreturned2.
  { pose proof (handleNewProjects_spent w2) as H.
    destruct (handleNewProjects imp w2) as [[w' pool'] thrown']. simpl. apply H.
    intros wf Hin. destruct (Hspent wf) as [Hs1 Hs2].
    - unfold getDartWorkspaceFolders in *. subst w2. simpl in Hin. congruence.
    - assert (forall p, entry w2 p = entry w1 p) as Hsame.
      { intros p. subst w2. unfold entry. simpl. by rewrite Hfb, Hob. }
      split; [|by rewrite Hsame].
      intros name e Hname He. rewrite Hsame in He. by eapply Hs1. }
  pose proof (showUserPrompts_displayed imp workspaceContext w2) as Hd2.
  destruct (showUserPrompts imp workspaceContext w2) as [[w3 pool3] thrown3].
  destruct Hd2 as (Hthrown3 & Hd2 & _). rewrite Hreturned2 in Hthrown3. subst thrown3.
  split; [done|]. simpl. rewrite Hd2.
  assert (firstEligiblePrompt imp workspaceContext w2 = [releaseNotesPrompt imp]) as ->.
  { unfold firstEligiblePrompt.
    assert (seen "install_flutter_extension" w2 = true) as ->.
    { apply seen_markedSeen. apply markedSeen_update. by left. }
    rewrite Hdev, andb_false_r. simpl.
    destruct (seen (releaseNotesId imp) w2) eqn:Hseen; [|done].
    apply seen_markedSeen, markedSeen_update in Hseen.
    destruct Hseen as [[Heq _] | [_ Hm]]; [discriminate Heq|].
    destruct Hnotes. unfold markedSeen in *. by rewrite <- Hcb. }
  subst w2. simpl. rewrite Hlb, Hd, <- app_assoc. done.
Qed.

End ModuleFrame.

Lemma handleNewProjects_unmarked_witness :
  let '(w', pool, thrown) := handleNewProjects stubImports (world [] ["/a"; "/b"]) in
  length (log w') = 6%nat /\ pool = replicate 6 (Done tt) /\ thrown = None.
Proof.
  pose proof (handleNewProjects_unmarked stubImports (world [] ["/a"; "/b"])) as H.
  destruct (handleNewProjects stubImports (world [] ["/a"; "/b"])) as [[w' pool] thrown].
  destruct H as (Hl & _ & _ & Hp & Ht & _).
  - intros wf _ name _. apply present_false. split; apply lookup_empty.
  - split_and!; [by rewrite Hl | exact Hp | exact Ht].
Defined.

Lemma markers_handled_once_witness :
  snd (handleNewProjects stubImports projFolder) = None
  /\ let st :=
       moduleRun stubImports []
         (moduleStep stubImports (Activate {| hasAnyFlutterProjects := true |})
            (moduleRun stubImports [] (projFolder, []))) in
     let '(w', pool, thrown) := handleNewProjects stubImports (fst st) in
     thrown = None
     /\ files w' = files (fst st)
     /\ obstructed w' = obstructed (fst st)
     /\ Forall (fun t => settled t = true) pool
     /\ exists events,
         log w' = log (fst st) ++ events /\ forallb quietEvent events = true.
Proof.
  split; [reflexivity|].
  apply (markers_handled_once stubImports projFolder [] []
           {| hasAnyFlutterProjects := true |}).
  reflexivity.
Defined.

Lemma install_then_release_notes_witness :
  let '(w1, pool, _) :=
    showUserPrompts stubImports {| hasAnyFlutterProjects := true |} projFolder in
  exists t,
    last pool = Some t
    /\ displayed (log (fst (fst (showUserPrompts stubImports
                                   {| hasAnyFlutterProjects := true |}
                                   (fst (resume t (Fulfilled Undefined) w1))))))
       = [installFlutterExtensionPrompt; releaseNotesPrompt stubImports].
Proof.
  pose proof (install_then_release_notes stubImports {| hasAnyFlutterProjects := true |}
                projFolder Undefined eq_refl eq_refl eq_refl) as H.
  destruct (showUserPrompts stubImports {| hasAnyFlutterProjects := true |} projFolder)
    as [[w1 pool] thrown].
  destruct H as (_ & _ & t & Hlast & _ & Hshown).
  - unfold markedSeen. simpl. by rewrite lookup_empty.
  - unfold markedSeen. simpl. by rewrite lookup_empty.
  - reflexivity.
  - exists t. split; [exact Hlast|]. cbv zeta in Hshown.
    destruct (showUserPrompts stubImports {| hasAnyFlutterProjects := true |}
                (fst (resume t (Fulfilled Undefined) w1))) as [[w3 pool3] thrown3].
    by destruct Hshown as [_ Hshown].
Defined.
